(** * IntelliRoute Africa backend: lifecycle and ledger engine

    A shallow embedding of the Mongoose models and Express controllers of
    [Backend/models] and [Backend/controllers] that carry the order
    lifecycle, the order/vehicle assignment, the route lifecycle and the
    inventory stock ledger, followed by the properties checked against
    them.

    Conventions of the embedding.
    - A MongoDB [ObjectId] is its 96-bit value, an [N]; comparing two ids
      through [toString()] is comparing the values.
    - A [Date] is its number of milliseconds since the epoch, a [Z]; every
      [new Date()] / [Date.now()] read inside one call returns the same
      instant [now], passed as an argument.
    - String-typed schema paths ([status], [type], [role]) are strings, and
      the schema [enum] lists are checked by [save], as Mongoose does.
    - A JavaScript number is a binary64 float ([PrimFloat.float]): stock
      quantities, running totals, coordinates, distances and fuel figures,
      with the rounding, the infinities and the NaN of IEEE 754.  The
      [quantity] of a ledger request is whatever [JSON.parse] left in
      [req.body], a [JsValue]; the conversions between strings and numbers
      that the operators apply to it are those of the [JsRuntime] at hand.
      Weights, money amounts and counts of trips or minutes, which the
      modelled code only compares, copies or adds to small integers, are
      integers ([Z]).
    - The database is a record of finite maps from ids to documents.  A
      controller is a computation over the database that either finishes
      with an HTTP response or goes on with a value; an exception is the
      response that [next(error)] produces.  Only the fields that the
      modelled operations read or write are kept in the documents. *)

From Stdlib Require Import ZArith String Bool List Lia.
From Stdlib Require Import PrimFloat SpecFloat FloatOps FloatAxioms.
From stdpp Require Import base option list gmap pretty.

Open Scope string_scope.
Open Scope list_scope.
Open Scope Z_scope.

(** ** JavaScript helpers *)

Definition ObjectId := N.
Bind Scope N_scope with ObjectId.
Definition Date := Z.

(** [Array.prototype.includes] on an array of strings. *)
Definition includes (l : list string) (x : string) : bool :=
  existsb (String.eqb x) l.

(** [Math.floor(ms / (1000 * 60))]: [Z.div] rounds towards minus infinity. *)
Definition floor_minutes (ms : Z) : Z := ms / (1000 * 60).

(** ** JavaScript numbers and request values *)

(** A JavaScript number that holds an integer, as a float. *)
Definition Z2F (z : Z) : float := SF2Prim (binary_normalize prec emax z 0 false).

(** Truthiness of a number: neither zero nor NaN. *)
Definition truthy (x : float) : bool := negb (is_zero x || is_nan x).

(** [Math.min] on two numbers: NaN if either is, and [-0] below [+0]. *)
Definition Math_min (a b : float) : float :=
  if is_nan a || is_nan b then nan
  else if (a <? b)%float then a
  else if (b <? a)%float then b
  else if get_sign a then a else b.

(** [Math.max] on two numbers: NaN if either is, and [+0] above [-0]. *)
Definition Math_max (a b : float) : float :=
  if is_nan a || is_nan b then nan
  else if (a <? b)%float then b
  else if (b <? a)%float then a
  else if get_sign a then b else a.

(** A value found under a key of [req.body]: what [JSON.parse] produces,
    and [undefined] for a key that is missing.  Of an array or an object
    the operators used here see only the string that [toString()] returns,
    which is what is kept. *)
Inductive JsValue : Type :=
| JsUndefined
| JsNull
| JsBoolean (b : bool)
| JsNumber (x : float)
| JsString (s : string)
| JsObject (toString : string).

(** The two conversions of the language between strings and numbers:
    [Number(s)] on a string and [String(x)] on a number. *)
Class JsRuntime := {
  Number_ofString : string -> float;
  String_ofNumber : float -> string
}.

Section Coercions.

Context `{JsRuntime}.

(** [!!v] *)
Definition ToBoolean (v : JsValue) : bool :=
  match v with
  | JsUndefined | JsNull => false
  | JsBoolean b => b
  | JsNumber x => truthy x
  | JsString s => negb (String.eqb s "")
  | JsObject _ => true
  end.

(** The number that [Math.abs], [Math.min] and a comparison with a number
    see. *)
Definition ToNumber (v : JsValue) : float :=
  match v with
  | JsUndefined => nan
  | JsNull => 0
  | JsBoolean b => if b then 1 else 0
  | JsNumber x => x
  | JsString s => Number_ofString s
  | JsObject s => Number_ofString s
  end.

(** [x + v] for a number [x]: a concatenation as soon as [v] is a string,
    an array or an object. *)
Definition Js_add (x : float) (v : JsValue) : JsValue :=
  match v with
  | JsString s | JsObject s => JsString (String.append (String_ofNumber x) s)
  | _ => JsNumber (x + ToNumber v)
  end.

(** Mongoose's cast of a value assigned to a [Number] path that must not
    end up empty: [None] when the cast throws, which leaves the path as it
    was and makes the next validation fail, or leaves [null] behind. *)
Definition castNumber (v : JsValue) : option float :=
  let number x := if is_nan x then None else Some x in
  match v with
  | JsUndefined | JsNull => None
  | JsBoolean b => Some (if b then 1 else 0)%float
  | JsNumber x => number x
  | JsString s => if String.eqb s "" then None else number (Number_ofString s)
  | JsObject _ => None
  end.

End Coercions.

(** The sign-free classes of a float through its [spec_float]. *)
Definition SFnonneg (x : spec_float) : bool :=
  match x with
  | S754_zero _ => true
  | S754_infinity s | S754_finite s _ _ => negb s
  | S754_nan => false
  end.

Definition SFpos (x : spec_float) : bool :=
  match x with
  | S754_infinity s | S754_finite s _ _ => negb s
  | _ => false
  end.

Definition SFis_nan (x : spec_float) : bool :=
  match x with S754_nan => true | _ => false end.

Definition SFis_infinity (x : spec_float) : bool :=
  match x with S754_infinity _ => true | _ => false end.

Definition SFsigned (s : bool) (x : spec_float) : Prop :=
  match x with
  | S754_zero s' | S754_infinity s' | S754_finite s' _ _ => s' = s
  | S754_nan => False
  end.

(** The integer a float holds, when it is one below [2^53] and not
    negative. *)
Definition F2Z (x : float) : option Z :=
  match Prim2SF x with
  | S754_zero _ => Some 0
  | S754_finite false m e =>
      let z :=
        if 0 <=? e then Some (Z.pos m * 2 ^ e)
        else if Z.pos m mod 2 ^ (- e) =? 0 then Some (Z.pos m / 2 ^ (- e))
        else None in
      match z with
      | Some z => if z <? 2 ^ 53 then Some z else None
      | None => None
      end
  | _ => None
  end.

(** The value of a string of decimal digits. *)
Fixpoint digits (s : string) (acc : Z) : option Z :=
  match s with
  | EmptyString => Some acc
  | String c s =>
      let d := Z.of_nat (Ascii.nat_of_ascii c) - 48 in
      if (0 <=? d) && (d <=? 9) then digits s (10 * acc + d) else None
  end.

(** The runtime of the examples.  It converts as JavaScript does between
    the integers from 0 up to [2^53] and their decimal numerals, and the
    empty string to 0, which is all that the examples convert: any other
    string is taken for one that is not a number, and any other number is
    printed as the empty string. *)
Definition numerals : JsRuntime := {|
  Number_ofString s :=
    match digits s 0 with
    | Some z => if z <? 2 ^ 53 then Z2F z else nan
    | None => nan
    end;
  String_ofNumber x :=
    match F2Z x with
    | Some z => pretty z
    | None => ""
    end
|}.

(** ** Responses and the controller monad *)

Inductive response : Type :=
| Json (code : Z) (success : bool) (message : string)
| NextError (error : string).

(** The [success] flag of the JSON body; the error handler never sets it. *)
Definition succeeded (r : response) : bool :=
  match r with
  | Json _ success _ => success
  | NextError _ => false
  end.

Module User.
Record t := mk { _id : ObjectId; role : string }.
End User.

(** ** Inventory documents ([InventorySchema], [models/Inventory.js]) *)

Module Inventory.

Record Stock := mkStock {
  current : float;
  reserved : float;
  available : float;
  reorderPoint : float
}.

Record Movement := mkMovement {
  type : string;
  quantity : float;
  reason : string;
  user : ObjectId;
  reference : option string;
  notes : option string;
  timestamp : Date
}.

Record Analytics := mkAnalytics {
  totalIn : float;
  totalOut : float;
  lastSoldDate : option Date
}.

Record Audit := mkAudit {
  lastModifiedAt : option Date;
  version : float
}.

Record t := mk {
  _id : ObjectId;
  owner : ObjectId;
  stock : Stock;
  status : string;
  movements : list Movement;
  analytics : Analytics;
  audit : Audit
}.

Definition movement_type_enum : list string :=
  ["in"; "out"; "transfer"; "adjustment"; "damaged"; "expired"; "lost"].

Definition set_stock (s : Stock) (i : t) : t :=
  mk (_id i) (owner i) s (status i) (movements i) (analytics i) (audit i).
Definition set_status (s : string) (i : t) : t :=
  mk (_id i) (owner i) (stock i) s (movements i) (analytics i) (audit i).
Definition set_movements (m : list Movement) (i : t) : t :=
  mk (_id i) (owner i) (stock i) (status i) m (analytics i) (audit i).
Definition set_analytics (a : Analytics) (i : t) : t :=
  mk (_id i) (owner i) (stock i) (status i) (movements i) a (audit i).
Definition set_audit (a : Audit) (i : t) : t :=
  mk (_id i) (owner i) (stock i) (status i) (movements i) (analytics i) a.

Definition set_current (c : float) (s : Stock) : Stock :=
  mkStock c (reserved s) (available s) (reorderPoint s).
Definition set_reserved (r : float) (s : Stock) : Stock :=
  mkStock (current s) r (available s) (reorderPoint s).
Definition set_available (a : float) (s : Stock) : Stock :=
  mkStock (current s) (reserved s) a (reorderPoint s).

(** The virtual [stockAvailable]. *)
Definition stockAvailable (i : t) : float :=
  Math_max 0 (current (stock i) - reserved (stock i)).

(** The schema validators of the paths the ledger operations write: the
    [min: 0] bounds of the stock triple, which a NaN fails, and the [enum]
    of a movement's type.  Validation runs before the [pre('save')]
    hook. *)
Definition validate (i : t) : bool :=
  (0 <=? current (stock i))%float && (0 <=? reserved (stock i))%float
  && (0 <=? available (stock i))%float
  && forallb (fun m => includes movement_type_enum (type m)) (movements i).

(** An assignment to a [Number] path inside the [pre('save')] hook: the
    cast refuses a NaN and the path keeps its value; validation is over by
    then, so the save goes on. *)
Definition assign (old new : float) : float := if is_nan new then old else new.

(** [InventorySchema.pre('save')] for a document loaded from the database
    and modified ([isModified() && !isNew]). *)
Definition pre_save (now : Date) (i : t) : t :=
  let i := set_stock (set_available
             (assign (available (stock i))
                (Math_max 0 (current (stock i) - reserved (stock i))))
             (stock i)) i in
  let i :=
    if (available (stock i) <=? 0)%float then set_status "out-of-stock" i
    else if (available (stock i) <=? reorderPoint (stock i))%float
         then set_status "low-stock" i
    else if String.eqb (status i) "out-of-stock"
            || String.eqb (status i) "low-stock"
         then set_status "active" i
    else i in
  set_audit (mkAudit (Some now) (assign (version (audit i))
                                   (version (audit i) + 1))) i.

End Inventory.

(** ** Geography *)

Record Coordinates := mkCoordinates { lat : float; lng : float }.

Record Location := mkLocation {
  coordinates : Coordinates;
  address : option string
}.

(** ** Order documents ([models/Order.js]) *)

Module Order.

Record CargoItem := mkCargoItem { weight : Z; quantity : Z }.

Record Cargo := mkCargo {
  items : list CargoItem;
  totalWeight : Z
}.

Record StatusUpdate := mkStatusUpdate {
  su_status : string;
  su_timestamp : Date;
  su_location : option Location;
  su_updatedBy : option ObjectId;
  su_notes : option string;
  su_automatic : bool
}.

Record Tracking := mkTracking {
  statusHistory : list StatusUpdate;
  actualDeliveryTime : option Date;
  lastKnownLocation : option (Location * Date)
}.

Record Cancellation := mkCancellation {
  cancelledAt : Date;
  cancelledBy : ObjectId;
  reason : option string;
  refundAmount : Z;
  refundStatus : option string
}.

Record t := mk {
  _id : ObjectId;
  customer : ObjectId;
  assignedDriver : option ObjectId;
  assignedVehicle : option ObjectId;
  status : string;
  cargo : Cargo;
  totalAmount : Z;
  tracking : Tracking;
  cancellation : option Cancellation
}.

Definition status_enum : list string :=
  ["pending"; "confirmed"; "processing"; "assigned"; "picked-up";
   "in-transit"; "out-for-delivery"; "delivered"; "cancelled"; "returned";
   "failed"].

Definition set_assignedDriver (d : option ObjectId) (o : t) : t :=
  mk (_id o) (customer o) d (assignedVehicle o) (status o) (cargo o)
     (totalAmount o) (tracking o) (cancellation o).
Definition set_assignedVehicle (v : option ObjectId) (o : t) : t :=
  mk (_id o) (customer o) (assignedDriver o) v (status o) (cargo o)
     (totalAmount o) (tracking o) (cancellation o).
Definition set_status (s : string) (o : t) : t :=
  mk (_id o) (customer o) (assignedDriver o) (assignedVehicle o) s (cargo o)
     (totalAmount o) (tracking o) (cancellation o).
Definition set_cargo (c : Cargo) (o : t) : t :=
  mk (_id o) (customer o) (assignedDriver o) (assignedVehicle o) (status o) c
     (totalAmount o) (tracking o) (cancellation o).
Definition set_tracking (tr : Tracking) (o : t) : t :=
  mk (_id o) (customer o) (assignedDriver o) (assignedVehicle o) (status o)
     (cargo o) (totalAmount o) tr (cancellation o).
Definition set_cancellation (c : option Cancellation) (o : t) : t :=
  mk (_id o) (customer o) (assignedDriver o) (assignedVehicle o) (status o)
     (cargo o) (totalAmount o) (tracking o) c.

Definition push_statusHistory (u : StatusUpdate) (tr : Tracking) : Tracking :=
  mkTracking (statusHistory tr ++ [u]) (actualDeliveryTime tr)
             (lastKnownLocation tr).
Definition set_actualDeliveryTime (d : option Date) (tr : Tracking) : Tracking :=
  mkTracking (statusHistory tr) d (lastKnownLocation tr).
Definition set_lastKnownLocation (l : option (Location * Date)) (tr : Tracking)
  : Tracking :=
  mkTracking (statusHistory tr) (actualDeliveryTime tr) l.

(** The [enum] validator of [status], the one constrained path the order
    methods write. *)
Definition validate (o : t) : bool := includes status_enum (status o).

(** [OrderSchema.pre('save')] for a stored order ([isNew] is false, so no
    number is generated): a zero total weight is recomputed from the
    line items. *)
Definition pre_save (o : t) : t :=
  if negb (length (items (cargo o)) =? 0)%nat && (totalWeight (cargo o) =? 0)
  then set_cargo
         (mkCargo (items (cargo o))
            (fold_left (fun total item => total + weight item * quantity item)
                       (items (cargo o)) 0)) o
  else o.

End Order.

(** ** Vehicle documents ([models/Vehicle.js]) *)

Module Vehicle.

Record Metrics := mkMetrics {
  totalTrips : Z;
  totalDistance : float;
  totalFuelConsumed : float;
  utilizationRate : float
}.

Record t := mk {
  _id : ObjectId;
  status : string;
  assignedDriver : option ObjectId;
  capacity_weight : Z;
  metrics : Metrics;
  createdAt : Date
}.

Definition status_enum : list string :=
  ["available"; "in-transit"; "maintenance"; "out-of-service"; "loading";
   "unloading"].

Definition set_status (s : string) (v : t) : t :=
  mk (_id v) s (assignedDriver v) (capacity_weight v) (metrics v) (createdAt v).
Definition set_assignedDriver (d : option ObjectId) (v : t) : t :=
  mk (_id v) (status v) d (capacity_weight v) (metrics v) (createdAt v).
Definition set_metrics (m : Metrics) (v : t) : t :=
  mk (_id v) (status v) (assignedDriver v) (capacity_weight v) m (createdAt v).

Definition validate (v : t) : bool := includes status_enum (status v).

(** [VehicleSchema.pre('save')]; [tripsModified] is
    [isModified('metrics.totalTrips')] ([createdAt] is never written). *)
Definition pre_save (now : Date) (tripsModified : bool) (v : t) : t :=
  if tripsModified then
    let daysSinceCreation :=
      Z.max 1 ((now - createdAt v) / (1000 * 60 * 60 * 24)) in
    let m := metrics v in
    set_metrics
      (mkMetrics (totalTrips m) (totalDistance m) (totalFuelConsumed m)
         (Math_min (Z2F 100)
            ((Z2F (totalTrips m) / Z2F daysSinceCreation) * Z2F 10)%float)) v
  else v.

End Vehicle.

(** ** Route documents ([models/Route.js]) *)

Module Route.

Record Waypoint := mkWaypoint {
  wp_id : ObjectId;
  wp_location : Location;
  wp_name : option string;
  order : Z;
  type : string;
  wp_status : string;
  actualArrival : option Date;
  actualDeparture : option Date
}.

Definition set_order (n : Z) (w : Waypoint) : Waypoint :=
  mkWaypoint (wp_id w) (wp_location w) (wp_name w) n (type w) (wp_status w)
             (actualArrival w) (actualDeparture w).

Record Optimization := mkOptimization {
  totalDistance : float;
  estimatedDuration : float;
  estimatedFuelCost : float
}.

Record Scheduling := mkScheduling {
  plannedStartTime : Date;
  plannedEndTime : Date;
  actualStartTime : option Date;
  actualEndTime : option Date
}.

Record Metrics := mkMetrics {
  actualDistance : option float;
  actualDuration : option Z;
  fuelConsumed : option float;
  delayTime : option Z
}.

Record Completion := mkCompletion {
  completedAt : option Date;
  completionNotes : option string;
  issues : list string
}.

Record t := mk {
  _id : ObjectId;
  createdBy : ObjectId;
  assignedDriver : option ObjectId;
  assignedVehicle : option ObjectId;
  status : string;
  waypoints : list Waypoint;
  optimization : Optimization;
  scheduling : Scheduling;
  metrics : Metrics;
  completion : Completion
}.

Definition status_enum : list string :=
  ["draft"; "planned"; "assigned"; "in-progress"; "completed"; "cancelled";
   "paused"].

Definition set_status (s : string) (r : t) : t :=
  mk (_id r) (createdBy r) (assignedDriver r) (assignedVehicle r) s
     (waypoints r) (optimization r) (scheduling r) (metrics r) (completion r).
Definition set_waypoints (w : list Waypoint) (r : t) : t :=
  mk (_id r) (createdBy r) (assignedDriver r) (assignedVehicle r) (status r)
     w (optimization r) (scheduling r) (metrics r) (completion r).
Definition set_optimization (o : Optimization) (r : t) : t :=
  mk (_id r) (createdBy r) (assignedDriver r) (assignedVehicle r) (status r)
     (waypoints r) o (scheduling r) (metrics r) (completion r).
Definition set_scheduling (s : Scheduling) (r : t) : t :=
  mk (_id r) (createdBy r) (assignedDriver r) (assignedVehicle r) (status r)
     (waypoints r) (optimization r) s (metrics r) (completion r).
Definition set_metrics (m : Metrics) (r : t) : t :=
  mk (_id r) (createdBy r) (assignedDriver r) (assignedVehicle r) (status r)
     (waypoints r) (optimization r) (scheduling r) m (completion r).
Definition set_completion (c : Completion) (r : t) : t :=
  mk (_id r) (createdBy r) (assignedDriver r) (assignedVehicle r) (status r)
     (waypoints r) (optimization r) (scheduling r) (metrics r) c.

Definition set_actualStartTime (d : option Date) (s : Scheduling) : Scheduling :=
  mkScheduling (plannedStartTime s) (plannedEndTime s) d (actualEndTime s).
Definition set_actualEndTime (d : option Date) (s : Scheduling) : Scheduling :=
  mkScheduling (plannedStartTime s) (plannedEndTime s) (actualStartTime s) d.
Definition set_actualDuration (d : option Z) (m : Metrics) : Metrics :=
  mkMetrics (actualDistance m) d (fuelConsumed m) (delayTime m).
Definition set_delayTime (d : option Z) (m : Metrics) : Metrics :=
  mkMetrics (actualDistance m) (actualDuration m) (fuelConsumed m) d.

Definition waypoint_type_enum : list string :=
  ["pickup"; "delivery"; "waypoint"; "rest-stop"; "fuel-stop"].

Definition waypoint_status_enum : list string :=
  ["pending"; "arrived"; "completed"; "skipped"].

(** The validators of a waypoint: the two [enum]s and the [min]/[max]
    bounds of the coordinates. *)
Definition waypoint_valid (w : Waypoint) : bool :=
  includes waypoint_type_enum (type w)
  && includes waypoint_status_enum (wp_status w)
  && ((-90) <=? lat (coordinates (wp_location w)))%float
  && (lat (coordinates (wp_location w)) <=? 90)%float
  && ((-180) <=? lng (coordinates (wp_location w)))%float
  && (lng (coordinates (wp_location w)) <=? 180)%float.

(** The validators of the paths the route operations write: the [enum] of
    [status] and the waypoints.  The route schema has no [pre('save')]
    hook. *)
Definition validate (r : t) : bool :=
  includes status_enum (status r) && forallb waypoint_valid (waypoints r).

End Route.

(** ** The database and the controller monad *)

Record Db := mkDb {
  users : gmap N User.t;
  orders : gmap N Order.t;
  vehicles : gmap N Vehicle.t;
  routes : gmap N Route.t;
  inventory : gmap N Inventory.t
}.

Definition set_orders (m : gmap N Order.t) (db : Db) : Db :=
  mkDb (users db) m (vehicles db) (routes db) (inventory db).
Definition set_vehicles (m : gmap N Vehicle.t) (db : Db) : Db :=
  mkDb (users db) (orders db) m (routes db) (inventory db).
Definition set_routes (m : gmap N Route.t) (db : Db) : Db :=
  mkDb (users db) (orders db) (vehicles db) m (inventory db).
Definition set_inventory (m : gmap N Inventory.t) (db : Db) : Db :=
  mkDb (users db) (orders db) (vehicles db) (routes db) m.

(** A computation of a controller: from the database to either the
    response that ends the request ([inl]) or a value to go on with
    ([inr]), and the database it leaves. *)
Definition handler (A : Type) : Type := Db -> (response + A) * Db.

#[global] Instance handler_ret : MRet handler :=
  fun A a db => (inr a, db).

#[global] Instance handler_bind : MBind handler :=
  fun A B f m db =>
    match m db with
    | (inl r, db') => (inl r, db')
    | (inr a, db') => f a db'
    end.

(** [return res.status(code).json({ success, message })]. *)
Definition reply {A} (code : Z) (success : bool) (message : string) : handler A :=
  fun db => (inl (Json code success message), db).

(** [throw new Error(message)], or a rejected promise: every controller
    body sits in [try { ... } catch (error) { next(error) }]. *)
Definition throw {A} (error : string) : handler A :=
  fun db => (inl (NextError error), db).

(** The final [res.status(code).json(...)] of a controller. *)
Definition respond (code : Z) (success : bool) (message : string)
  : handler response :=
  mret (Json code success message).

Definition run (h : handler response) (db : Db) : response * Db :=
  match h db with
  | (inl r, db') => (r, db')
  | (inr r, db') => (r, db')
  end.

(** [Model.findById(id)]. *)
Definition User_findById (id : ObjectId) : handler (option User.t) :=
  fun db => (inr (users db !! id), db).
Definition Order_findById (id : ObjectId) : handler (option Order.t) :=
  fun db => (inr (orders db !! id), db).
Definition Vehicle_findById (id : ObjectId) : handler (option Vehicle.t) :=
  fun db => (inr (vehicles db !! id), db).
Definition Route_findById (id : ObjectId) : handler (option Route.t) :=
  fun db => (inr (routes db !! id), db).
Definition Inventory_findById (id : ObjectId) : handler (option Inventory.t) :=
  fun db => (inr (inventory db !! id), db).

(** [doc.save()]: validation, then the [pre('save')] hook, then the write.
    A failed validation rejects with a [ValidationError] and writes
    nothing.  The saved document is returned. *)
Definition Order_save (o : Order.t) : handler Order.t :=
  fun db =>
    if Order.validate o then
      let o := Order.pre_save o in
      (inr o, set_orders (<[Order._id o := o]> (orders db)) db)
    else (inl (NextError "ValidationError"), db).

Definition Vehicle_save (now : Date) (tripsModified : bool) (v : Vehicle.t)
  : handler Vehicle.t :=
  fun db =>
    if Vehicle.validate v then
      let v := Vehicle.pre_save now tripsModified v in
      (inr v, set_vehicles (<[Vehicle._id v := v]> (vehicles db)) db)
    else (inl (NextError "ValidationError"), db).

Definition Route_save (r : Route.t) : handler Route.t :=
  fun db =>
    if Route.validate r then
      (inr r, set_routes (<[Route._id r := r]> (routes db)) db)
    else (inl (NextError "ValidationError"), db).

Definition Inventory_save (now : Date) (i : Inventory.t) : handler Inventory.t :=
  fun db =>
    if Inventory.validate i then
      let i := Inventory.pre_save now i in
      (inr i, set_inventory (<[Inventory._id i := i]> (inventory db)) db)
    else (inl (NextError "ValidationError"), db).

(** [doc.remove()], Mongoose's [Document.prototype.remove] as the
    controllers call it: the document is deleted under its own id.  None
    of the schemas has a remove hook. *)
Definition Order_remove (o : Order.t) : handler unit :=
  fun db => (inr (), set_orders (delete (Order._id o) (orders db)) db).

Definition Route_remove (r : Route.t) : handler unit :=
  fun db => (inr (), set_routes (delete (Route._id r) (routes db)) db).

Definition Inventory_remove (i : Inventory.t) : handler unit :=
  fun db => (inr (), set_inventory (delete (Inventory._id i) (inventory db)) db).

(** ** Role middleware ([middleware/auth.js]) *)

(** [authorize(...roles)] in front of a controller: the request goes on
    only for a user whose role is listed.  [protect] has run before and
    put the authenticated user in [req.user]. *)
Definition authorize (roles : list string) (user : User.t)
    (next : handler response) : handler response :=
  if negb (includes roles (User.role user))
  then reply 403 false
         (String.append "User role "
            (String.append (User.role user)
               " is not authorized to access this route"))
  else next.

(** ** Inventory methods ([InventorySchema.methods]) *)

Module InventoryModel.

Section Methods.

Context `{JsRuntime}.

(** The number a method assigns to a [Number] path or pushes as a
    movement's [quantity]. *)
Definition number (x : float) : option float := castNumber (JsNumber x).

(** [addMovement(type, quantity, reason, user, reference, notes)].  A
    value that one of the [Number] paths refuses makes [save()] reject. *)
Definition addMovement (now : Date) (type : string) (quantity : JsValue)
    (reason : string) (user : ObjectId) (reference notes : option string)
    (this : Inventory.t) : handler Inventory.t :=
  let abs_quantity := abs (ToNumber quantity) in
  match number abs_quantity with
  | None => throw "ValidationError"
  | Some movement_quantity =>
    let movement :=
      Inventory.mkMovement type movement_quantity reason user reference notes
        now in
    let this :=
      Inventory.set_movements (Inventory.movements this ++ [movement]) this in
    let stock := Inventory.stock this in
    let analytics := Inventory.analytics this in
    if String.eqb type "in"
       || (String.eqb type "adjustment" && (0 <? ToNumber quantity)%float)
    then
      match number (Inventory.current stock + abs_quantity),
            number (Inventory.totalIn analytics + abs_quantity) with
      | Some current, Some totalIn =>
          Inventory_save now
            (Inventory.set_analytics
               (Inventory.mkAnalytics totalIn
                  (Inventory.totalOut analytics)
                  (Inventory.lastSoldDate analytics))
               (Inventory.set_stock (Inventory.set_current current stock) this))
      | _, _ => throw "ValidationError"
      end
    else if includes ["out"; "damaged"; "expired"; "lost"] type
            || (String.eqb type "adjustment" && (ToNumber quantity <? 0)%float)
    then
      match number (Math_max 0 (Inventory.current stock - abs_quantity)),
            number (Inventory.totalOut analytics + abs_quantity) with
      | Some current, Some totalOut =>
          Inventory_save now
            (Inventory.set_analytics
               (Inventory.mkAnalytics
                  (Inventory.totalIn analytics) totalOut
                  (if String.eqb type "out" then Some now
                   else Inventory.lastSoldDate analytics))
               (Inventory.set_stock (Inventory.set_current current stock) this))
      | _, _ => throw "ValidationError"
      end
    else Inventory_save now this
  end.

(** [reserveStock(quantity, reason, user)]: [+=] concatenates when
    [quantity] is a string, and the [Number] path casts the result
    back. *)
Definition reserveStock (now : Date) (quantity : JsValue) (reason : string)
    (user : ObjectId) (this : Inventory.t) : handler Inventory.t :=
  if (Inventory.stockAvailable this <? ToNumber quantity)%float
  then throw "Insufficient stock available for reservation"
  else
    let stock := Inventory.stock this in
    match castNumber (Js_add (Inventory.reserved stock) quantity),
          castNumber quantity with
    | Some reserved, Some movement_quantity =>
        let this :=
          Inventory.set_stock (Inventory.set_reserved reserved stock) this in
        let this :=
          Inventory.set_movements
            (Inventory.movements this ++
               [Inventory.mkMovement "out" movement_quantity
                  (String.append "Reserved: " reason) user None None now])
            this in
        Inventory_save now this
    | _, _ => throw "ValidationError"
    end.

(** [releaseReservedStock(quantity, reason, user)] *)
Definition releaseReservedStock (now : Date) (quantity : JsValue)
    (reason : string) (user : ObjectId) (this : Inventory.t)
    : handler Inventory.t :=
  let stock := Inventory.stock this in
  let releaseQuantity := Math_min (ToNumber quantity) (Inventory.reserved stock) in
  match number (Inventory.reserved stock - releaseQuantity),
        number releaseQuantity with
  | Some reserved, Some movement_quantity =>
      let this :=
        Inventory.set_stock (Inventory.set_reserved reserved stock) this in
      let this :=
        Inventory.set_movements
          (Inventory.movements this ++
             [Inventory.mkMovement "in" movement_quantity
                (String.append "Released: " reason) user None None now])
          this in
      Inventory_save now this
  | _, _ => throw "ValidationError"
  end.

End Methods.

End InventoryModel.

(** ** Inventory controllers ([controllers/inventory.js]) *)

Module InventoryController.

(** [req.user.role === 'admin' || item.owner.toString() === req.user._id.toString()] *)
Definition canAccess (user : User.t) (item : Inventory.t) : bool :=
  String.eqb (User.role user) "admin"
  || N.eqb (Inventory.owner item) (User._id user).

Section Endpoints.

Context `{JsRuntime}.

(** [!quantity || quantity <= 0] *)
Definition notPositive (quantity : JsValue) : bool :=
  negb (ToBoolean quantity) || (ToNumber quantity <=? 0)%float.

(** [POST /api/inventory/:id/movements] *)
Definition addMovement (now : Date) (user : User.t) (id : ObjectId)
    (type : string) (quantity : JsValue) (reason : string)
    (reference notes : option string) : handler response :=
  item ← Inventory_findById id;
  match item with
  | None => reply 404 false "Inventory item not found"
  | Some item =>
    if negb (canAccess user item)
    then reply 403 false "Not authorized to add movement to this inventory item"
    else if notPositive quantity
    then reply 400 false "Quantity must be greater than 0"
    else if (includes ["out"; "damaged"; "expired"; "lost"] type
             || (String.eqb type "adjustment" && (ToNumber quantity <? 0)%float))
            && (Inventory.current (Inventory.stock item)
                <? abs (ToNumber quantity))%float
    then reply 400 false "Insufficient stock for this movement"
    else
      _ ← InventoryModel.addMovement now type quantity reason (User._id user)
            reference notes item;
      respond 200 true "Movement added successfully"
  end.

(** [POST /api/inventory/:id/reserve] *)
Definition reserveStock (now : Date) (user : User.t) (id : ObjectId)
    (quantity : JsValue) (reason : string) : handler response :=
  item ← Inventory_findById id;
  match item with
  | None => reply 404 false "Inventory item not found"
  | Some item =>
    if negb (canAccess user item)
    then reply 403 false "Not authorized to reserve stock for this inventory item"
    else if notPositive quantity
    then reply 400 false "Quantity must be greater than 0"
    else
      _ ← InventoryModel.reserveStock now quantity reason (User._id user) item;
      respond 200 true "Stock reserved successfully"
  end.

(** [POST /api/inventory/:id/release] *)
Definition releaseReservedStock (now : Date) (user : User.t) (id : ObjectId)
    (quantity : JsValue) (reason : string) : handler response :=
  item ← Inventory_findById id;
  match item with
  | None => reply 404 false "Inventory item not found"
  | Some item =>
    if negb (canAccess user item)
    then reply 403 false
           "Not authorized to release reserved stock for this inventory item"
    else if notPositive quantity
    then reply 400 false "Quantity must be greater than 0"
    else if (Inventory.reserved (Inventory.stock item) <? ToNumber quantity)%float
    then reply 400 false "Cannot release more than reserved quantity"
    else
      _ ← InventoryModel.releaseReservedStock now quantity reason
            (User._id user) item;
      respond 200 true "Reserved stock released successfully"
  end.

End Endpoints.

(** [DELETE /api/inventory/:id] *)
Definition deleteInventoryItem (user : User.t) (id : ObjectId)
    : handler response :=
  item ← Inventory_findById id;
  match item with
  | None => reply 404 false "Inventory item not found"
  | Some item =>
    if negb (canAccess user item)
    then reply 403 false "Not authorized to delete this inventory item"
    else
      _ ← Inventory_remove item;
      respond 200 true "Inventory item deleted successfully"
  end.

End InventoryController.

(** ** Order methods ([OrderSchema.methods]) *)

Module OrderModel.

(** [updateStatus(status, notes, location, updatedBy)] *)
Definition updateStatus (now : Date) (status : string) (notes : option string)
    (location : option Location) (updatedBy : ObjectId) (this : Order.t)
    : handler Order.t :=
  let this := Order.set_status status this in
  let statusUpdate :=
    Order.mkStatusUpdate status now location (Some updatedBy) notes false in
  let this :=
    match location with
    | Some l =>
        Order.set_tracking
          (Order.set_lastKnownLocation (Some (l, now)) (Order.tracking this))
          this
    | None => this
    end in
  let this :=
    Order.set_tracking
      (Order.push_statusHistory statusUpdate (Order.tracking this)) this in
  let this :=
    if String.eqb status "delivered"
    then Order.set_tracking
           (Order.set_actualDeliveryTime (Some now) (Order.tracking this)) this
    else this in
  Order_save this.

(** [assignDriverAndVehicle(driverId, vehicleId)] *)
Definition assignDriverAndVehicle (now : Date) (driverId vehicleId : ObjectId)
    (this : Order.t) : handler Order.t :=
  let this := Order.set_assignedDriver (Some driverId) this in
  let this := Order.set_assignedVehicle (Some vehicleId) this in
  let this := Order.set_status "assigned" this in
  let this :=
    Order.set_tracking
      (Order.push_statusHistory
         (Order.mkStatusUpdate "assigned" now None None None true)
         (Order.tracking this)) this in
  Order_save this.

(** [cancelOrder(reason, cancelledBy, refundAmount = 0)] *)
Definition cancelOrder (now : Date) (reason : option string)
    (cancelledBy : ObjectId) (refundAmount : Z) (this : Order.t)
    : handler Order.t :=
  let this := Order.set_status "cancelled" this in
  let this :=
    Order.set_cancellation
      (Some (Order.mkCancellation now cancelledBy reason refundAmount
               (if refundAmount >? 0 then Some "pending" else None))) this in
  let this :=
    Order.set_tracking
      (Order.push_statusHistory
         (Order.mkStatusUpdate "cancelled" now None (Some cancelledBy) reason
                               false)
         (Order.tracking this)) this in
  Order_save this.

End OrderModel.

(** ** Order controllers ([controllers/orders.js]) *)

Module OrdersController.

(** [req.user.role === 'admin'
     || order.assignedDriver?.toString() === req.user._id.toString()
     || req.user.role === 'fleet-manager'] *)
Definition canUpdate (user : User.t) (order : Order.t) : bool :=
  String.eqb (User.role user) "admin"
  || match Order.assignedDriver order with
     | Some d => N.eqb d (User._id user)
     | None => false
     end
  || String.eqb (User.role user) "fleet-manager".

(** [req.user.role === 'admin'
     || order.customer.toString() === req.user._id.toString()
     || req.user.role === 'fleet-manager'] *)
Definition canCancel (user : User.t) (order : Order.t) : bool :=
  String.eqb (User.role user) "admin"
  || N.eqb (Order.customer order) (User._id user)
  || String.eqb (User.role user) "fleet-manager".

(** [PUT /api/orders/:id/status] *)
Definition updateOrderStatus (now : Date) (user : User.t) (id : ObjectId)
    (status : string) (notes : option string) (location : option Location)
    : handler response :=
  order ← Order_findById id;
  match order with
  | None => reply 404 false "Order not found"
  | Some order =>
    if negb (canUpdate user order)
    then reply 403 false "Not authorized to update this order status"
    else
      _ ← OrderModel.updateStatus now status notes location (User._id user)
            order;
      respond 200 true "Order status updated successfully"
  end.

(** [PUT /api/orders/:id/assign] *)
Definition assignOrder (now : Date) (id driverId vehicleId : ObjectId)
    : handler response :=
  order ← Order_findById id;
  match order with
  | None => reply 404 false "Order not found"
  | Some order =>
    driver ← User_findById driverId;
    match driver with
    | None => reply 400 false "Invalid driver selected"
    | Some driver =>
      if negb (String.eqb (User.role driver) "driver")
      then reply 400 false "Invalid driver selected"
      else
        vehicle ← Vehicle_findById vehicleId;
        match vehicle with
        | None => reply 400 false "Vehicle is not available"
        | Some vehicle =>
          if negb (String.eqb (Vehicle.status vehicle) "available")
          then reply 400 false "Vehicle is not available"
          else if Order.totalWeight (Order.cargo order)
                  >? Vehicle.capacity_weight vehicle
          then reply 400 false "Vehicle capacity insufficient for this order"
          else
            _ ← OrderModel.assignDriverAndVehicle now driverId vehicleId order;
            let vehicle := Vehicle.set_status "assigned" vehicle in
            let vehicle := Vehicle.set_assignedDriver (Some driverId) vehicle in
            _ ← Vehicle_save now false vehicle;
            respond 200 true "Order assigned successfully"
        end
    end
  end.

(** [PUT /api/orders/:id/cancel] *)
Definition cancelOrder (now : Date) (user : User.t) (id : ObjectId)
    (reason : option string) : handler response :=
  order ← Order_findById id;
  match order with
  | None => reply 404 false "Order not found"
  | Some order =>
    if negb (canCancel user order)
    then reply 403 false "Not authorized to cancel this order"
    else if includes ["delivered"; "cancelled"] (Order.status order)
    then reply 400 false "Cannot cancel order with current status"
    else
      let refundAmount :=
        if String.eqb (Order.status order) "pending"
        then Order.totalAmount order else 0 in
      order ← OrderModel.cancelOrder now reason (User._id user) refundAmount
                order;
      _ ← match Order.assignedVehicle order with
          | Some vehicleId =>
              vehicle ← Vehicle_findById vehicleId;
              match vehicle with
              | Some vehicle =>
                  let vehicle := Vehicle.set_status "available" vehicle in
                  let vehicle := Vehicle.set_assignedDriver None vehicle in
                  _ ← Vehicle_save now false vehicle;
                  mret ()
              | None => mret ()
              end
          | None => mret ()
          end;
      respond 200 true "Order cancelled successfully"
  end.

(** [DELETE /api/orders/:id] *)
Definition deleteOrder (id : ObjectId) : handler response :=
  order ← Order_findById id;
  match order with
  | None => reply 404 false "Order not found"
  | Some order =>
    if negb (includes ["pending"; "cancelled"] (Order.status order))
    then reply 400 false
           "Cannot delete orders that are in progress or completed"
    else
      _ ← Order_remove order;
      respond 200 true "Order deleted successfully"
  end.

End OrdersController.

(** ** Route methods ([RouteSchema.methods]) *)

Module RouteModel.

(** [startRoute()] *)
Definition startRoute (now : Date) (this : Route.t) : handler Route.t :=
  let this := Route.set_status "in-progress" this in
  let this :=
    Route.set_scheduling
      (Route.set_actualStartTime (Some now) (Route.scheduling this)) this in
  Route_save this.

(** [completeRoute(notes, issues = [])] *)
Definition completeRoute (now : Date) (notes : option string)
    (issues : list string) (this : Route.t) : handler Route.t :=
  let this := Route.set_status "completed" this in
  let this :=
    Route.set_scheduling
      (Route.set_actualEndTime (Some now) (Route.scheduling this)) this in
  let this := Route.set_completion (Route.mkCompletion (Some now) notes issues)
                                   this in
  let scheduling := Route.scheduling this in
  let this :=
    match Route.actualStartTime scheduling, Route.actualEndTime scheduling with
    | Some actualStartTime, Some actualEndTime =>
        let actualDuration := floor_minutes (actualEndTime - actualStartTime) in
        let plannedDuration :=
          floor_minutes (Route.plannedEndTime scheduling
                         - Route.plannedStartTime scheduling) in
        Route.set_metrics
          (Route.set_delayTime (Some (Z.max 0 (actualDuration - plannedDuration)))
             (Route.set_actualDuration (Some actualDuration)
                                       (Route.metrics this)))
          this
    | _, _ => this
    end in
  Route_save this.

(** [addWaypoint(waypointData)]: [waypointData] is the request body as the
    waypoint schema casts it, with the [_id] the sub-document gets. *)
Definition addWaypoint (waypointData : Route.Waypoint) (this : Route.t)
    : handler Route.t :=
  let order := Z.of_nat (length (Route.waypoints this)) + 1 in
  let this :=
    Route.set_waypoints
      (Route.waypoints this
       ++ [Route.mkWaypoint (Route.wp_id waypointData)
             (Route.wp_location waypointData) (Route.wp_name waypointData)
             order (Route.type waypointData) "pending"
             (Route.actualArrival waypointData)
             (Route.actualDeparture waypointData)])
      this in
  Route_save this.

(** The body of [if (waypoint) { ... }] in [updateWaypointStatus]. *)
Definition markWaypoint (status : string) (timestamp : Date)
    (waypoint : Route.Waypoint) : Route.Waypoint :=
  Route.mkWaypoint (Route.wp_id waypoint) (Route.wp_location waypoint)
    (Route.wp_name waypoint) (Route.order waypoint) (Route.type waypoint)
    status
    (if String.eqb status "arrived" then Some timestamp
     else Route.actualArrival waypoint)
    (if String.eqb status "arrived" then Route.actualDeparture waypoint
     else if String.eqb status "completed" then Some timestamp
     else Route.actualDeparture waypoint).

(** [this.waypoints.id(waypointId)] followed by the update in place: the
    first sub-document with that [_id], if there is one. *)
Fixpoint updateById (waypointId : ObjectId)
    (f : Route.Waypoint -> Route.Waypoint) (waypoints : list Route.Waypoint)
  : list Route.Waypoint :=
  match waypoints with
  | [] => []
  | waypoint :: rest =>
      if N.eqb (Route.wp_id waypoint) waypointId
      then f waypoint :: rest
      else waypoint :: updateById waypointId f rest
  end.

(** [updateWaypointStatus(waypointId, status, timestamp = new Date())] *)
Definition updateWaypointStatus (waypointId : ObjectId) (status : string)
    (timestamp : Date) (this : Route.t) : handler Route.t :=
  let this :=
    Route.set_waypoints
      (updateById waypointId (markWaypoint status timestamp)
                  (Route.waypoints this))
      this in
  Route_save this.

End RouteModel.

(** ** Route controllers ([controllers/routes.js]) *)

Module RoutesController.

(** [route.assignedDriver?.toString() !== req.user._id.toString()
     && req.user.role !== 'admin'] *)
Definition notDriverNorAdmin (user : User.t) (route : Route.t) : bool :=
  negb match Route.assignedDriver route with
       | Some d => N.eqb d (User._id user)
       | None => false
       end
  && negb (String.eqb (User.role user) "admin").

(** [PUT /api/routes/:id/start] *)
Definition startRoute (now : Date) (user : User.t) (id : ObjectId)
    : handler response :=
  route ← Route_findById id;
  match route with
  | None => reply 404 false "Route not found"
  | Some route =>
    if notDriverNorAdmin user route
    then reply 403 false "Not authorized to start this route"
    else if negb (String.eqb (Route.status route) "assigned")
    then reply 400 false "Route must be in assigned status to start"
    else
      route ← RouteModel.startRoute now route;
      _ ← match Route.assignedVehicle route with
          | Some vehicleId =>
              vehicle ← Vehicle_findById vehicleId;
              match vehicle with
              | Some vehicle =>
                  _ ← Vehicle_save now false
                        (Vehicle.set_status "in-transit" vehicle);
                  mret ()
              | None => mret ()
              end
          | None => mret ()
          end;
      respond 200 true "Route started successfully"
  end.

(** [PUT /api/routes/:id/complete] *)
Definition completeRoute (now : Date) (user : User.t) (id : ObjectId)
    (notes : option string) (issues : list string) : handler response :=
  route ← Route_findById id;
  match route with
  | None => reply 404 false "Route not found"
  | Some route =>
    if notDriverNorAdmin user route
    then reply 403 false "Not authorized to complete this route"
    else if negb (String.eqb (Route.status route) "in-progress")
    then reply 400 false "Route must be in progress to complete"
    else
      route ← RouteModel.completeRoute now notes issues route;
      _ ← match Route.assignedVehicle route with
          | Some vehicleId =>
              vehicle ← Vehicle_findById vehicleId;
              match vehicle with
              | Some vehicle =>
                  let vehicle := Vehicle.set_status "available" vehicle in
                  let m := Vehicle.metrics vehicle in
                  let totalDistance :=
                    match Route.actualDistance (Route.metrics route) with
                    | Some d =>
                        if truthy d then (Vehicle.totalDistance m + d)%float
                        else Vehicle.totalDistance m
                    | None => Vehicle.totalDistance m
                    end in
                  let totalFuelConsumed :=
                    match Route.fuelConsumed (Route.metrics route) with
                    | Some f =>
                        if truthy f then (Vehicle.totalFuelConsumed m + f)%float
                        else Vehicle.totalFuelConsumed m
                    | None => Vehicle.totalFuelConsumed m
                    end in
                  let vehicle :=
                    Vehicle.set_metrics
                      (Vehicle.mkMetrics (Vehicle.totalTrips m + 1)
                         totalDistance totalFuelConsumed
                         (Vehicle.utilizationRate m)) vehicle in
                  _ ← Vehicle_save now true vehicle;
                  mret ()
              | None => mret ()
              end
          | None => mret ()
          end;
      respond 200 true "Route completed successfully"
  end.

(** A plain JavaScript object standing where a waypoint is expected, with
    the properties read from it below; [None] is a property the object
    does not have.  [_doc] is the property of that name that Mongoose
    keeps in every document: the stored values of its paths. *)
Record WaypointObject := mkWaypointObject {
  location : option Location;
  type : option string;
  order : option Z;
  _doc : option Route.Waypoint
}.

(** [{...waypoint}] on an element of [route.waypoints], a Mongoose
    subdocument.  The spread copies the own enumerable properties, which
    are Mongoose's internal ones ([$__], [$isNew], [_doc]); the schema
    paths ([location], [type], [order], ...) are accessors on the
    prototype and do not come along. *)
Definition spread (waypoint : Route.Waypoint) : WaypointObject :=
  mkWaypointObject None None None (Some waypoint).

Definition set_order (n : Z) (o : WaypointObject) : WaypointObject :=
  mkWaypointObject (location o) (type o) (Some n) (_doc o).

(** The helpers of [optimizeRoute].  JavaScript's [Math.sin], [Math.cos]
    and [Math.atan2] are not fixed to the last bit by the language; they
    are parameters of the section.  So is [castWaypoint], what Mongoose
    makes of a plain object assigned into the waypoints array, which
    depends on the release of Mongoose and the repository does not pin
    one: on a spread copy of a subdocument a release either recovers the
    copied [_doc] or keeps the one path it finds, [order]; [None] is a
    subdocument that then fails the validation of [save()] for want of a
    required path. *)
Section Metrics.

Variables Math_sin Math_cos : float -> float.
Variable Math_atan2 : float -> float -> float.
Variable castWaypoint : WaypointObject -> option Route.Waypoint.

#[warnings="-inexact-float"]
Definition Math_PI : float := 3.141592653589793%float.

(** [calculateDistance(lat1, lon1, lat2, lon2)], the haversine formula. *)
Definition calculateDistance (lat1 lon1 lat2 lon2 : float) : float :=
  let R := 6371%float in
  let dLat := ((lat2 - lat1) * Math_PI / 180)%float in
  let dLon := ((lon2 - lon1) * Math_PI / 180)%float in
  let a :=
    (Math_sin (dLat / 2) * Math_sin (dLat / 2)
     + Math_cos (lat1 * Math_PI / 180) * Math_cos (lat2 * Math_PI / 180)
       * Math_sin (dLon / 2) * Math_sin (dLon / 2))%float in
  let c := (2 * Math_atan2 (sqrt a) (sqrt (1 - a)))%float in
  (R * c)%float.

(** The loop [for (let i = 0; i < waypoints.length - 1; i++)] of
    [calculateRouteMetrics], with its accumulator.  Reading
    [.coordinates] of a [location] that is [undefined] throws a
    [TypeError]: [None]. *)
Fixpoint sumLegs (waypoints : list WaypointObject) (totalDistance : float)
  : option float :=
  match waypoints with
  | current :: rest =>
      match rest with
      | next :: _ =>
          match location current, location next with
          | Some current_location, Some next_location =>
              let distance :=
                calculateDistance
                  (lat (coordinates current_location))
                  (lng (coordinates current_location))
                  (lat (coordinates next_location))
                  (lng (coordinates next_location)) in
              sumLegs rest (totalDistance + distance)%float
          | _, _ => None
          end
      | [] => Some totalDistance
      end
  | [] => Some totalDistance
  end.

(** [calculateRouteMetrics(waypoints)]; [None] when it throws. *)
#[warnings="-inexact-float"]
Definition calculateRouteMetrics (waypoints : list WaypointObject)
  : option Route.Optimization :=
  match sumLegs waypoints 0%float with
  | Some totalDistance =>
      let estimatedDuration := ((totalDistance / 50) * 60)%float in
      let estimatedFuelCost := ((totalDistance / 10) * 1.2)%float in
      Some (Route.mkOptimization totalDistance estimatedDuration
              estimatedFuelCost)
  | None => None
  end.

(** The tests of the three [filter] calls of [optimizeWaypoints], which
    run on the subdocuments. *)
Definition isPickup (w : Route.Waypoint) : bool :=
  String.eqb (Route.type w) "pickup".
Definition isDelivery (w : Route.Waypoint) : bool :=
  String.eqb (Route.type w) "delivery".
Definition isOther (w : Route.Waypoint) : bool :=
  negb (includes ["pickup"; "delivery"] (Route.type w)).

(** [optimizeWaypoints(waypoints)] on [route.waypoints], as its one caller
    has it: the result is an array of spread copies, each with an [order]
    of its own. *)
Definition optimizeWaypoints (waypoints : list Route.Waypoint)
  : list WaypointObject :=
  let pickupPoints := List.filter isPickup waypoints in
  let deliveryPoints := List.filter isDelivery waypoints in
  let otherPoints := List.filter isOther waypoints in
  let optimized := pickupPoints ++ deliveryPoints ++ otherPoints in
  imap (fun index waypoint => set_order (Z.of_nat index + 1) (spread waypoint))
       optimized.

(** [req.user.role === 'admin'
     || route.createdBy.toString() === req.user._id.toString()
     || req.user.role === 'fleet-manager'] *)
Definition canOptimize (user : User.t) (route : Route.t) : bool :=
  String.eqb (User.role user) "admin"
  || N.eqb (Route.createdBy route) (User._id user)
  || String.eqb (User.role user) "fleet-manager".

(** [POST /api/routes/:id/optimize] *)
Definition optimizeRoute (user : User.t) (id : ObjectId) : handler response :=
  route ← Route_findById id;
  match route with
  | None => reply 404 false "Route not found"
  | Some route =>
    if negb (canOptimize user route)
    then reply 403 false "Not authorized to optimize this route"
    else
      let optimizedWaypoints := optimizeWaypoints (Route.waypoints route) in
      match calculateRouteMetrics optimizedWaypoints with
      | None => throw "TypeError"
      | Some metrics =>
        match mapM castWaypoint optimizedWaypoints with
        | None => throw "ValidationError"
        | Some waypoints =>
          let route := Route.set_waypoints waypoints route in
          let route := Route.set_optimization metrics route in
          _ ← Route_save route;
          respond 200 true "Route optimized successfully"
        end
      end
  end.

End Metrics.

(** [DELETE /api/routes/:id] *)
Definition deleteRoute (user : User.t) (id : ObjectId) : handler response :=
  route ← Route_findById id;
  match route with
  | None => reply 404 false "Route not found"
  | Some route =>
    let canDelete :=
      String.eqb (User.role user) "admin"
      || N.eqb (Route.createdBy route) (User._id user) in
    if negb canDelete
    then reply 403 false "Not authorized to delete this route"
    else if negb (includes ["draft"; "cancelled"] (Route.status route))
    then reply 400 false
           "Cannot delete route that is not in draft or cancelled status"
    else
      _ ← Route_remove route;
      respond 200 true "Route deleted successfully"
  end.

(** [PUT /api/routes/:id/waypoints/:waypointId] *)
Definition updateWaypointStatus (now : Date) (user : User.t)
    (id waypointId : ObjectId) (status : string) : handler response :=
  route ← Route_findById id;
  match route with
  | None => reply 404 false "Route not found"
  | Some route =>
    if notDriverNorAdmin user route
    then reply 403 false "Not authorized to update this waypoint status"
    else
      _ ← RouteModel.updateWaypointStatus waypointId status now route;
      respond 200 true "Waypoint status updated successfully"
  end.

(** [POST /api/routes/:id/waypoints] *)
Definition addWaypoint (user : User.t) (id : ObjectId)
    (body : Route.Waypoint) : handler response :=
  route ← Route_findById id;
  match route with
  | None => reply 404 false "Route not found"
  | Some route =>
    let canAdd :=
      String.eqb (User.role user) "admin"
      || N.eqb (Route.createdBy route) (User._id user)
      || String.eqb (User.role user) "fleet-manager" in
    if negb canAdd
    then reply 403 false "Not authorized to add waypoint to this route"
    else if String.eqb (Route.status route) "in-progress"
    then reply 400 false "Cannot add waypoints to route in progress"
    else
      _ ← RouteModel.addWaypoint body route;
      respond 200 true "Waypoint added successfully"
  end.

End RoutesController.

(** ** Routers ([routes/orders.js], [routes/routes.js]) *)

Module Router.

(** [router.route('/:id').delete(authorize('admin'), deleteOrder)] *)
Definition deleteOrder (user : User.t) (id : ObjectId) : handler response :=
  authorize ["admin"] user (OrdersController.deleteOrder id).

(** [router.put('/:id/assign', authorize('admin', 'fleet-manager'), assignOrder)] *)
Definition assignOrder (now : Date) (user : User.t)
    (id driverId vehicleId : ObjectId) : handler response :=
  authorize ["admin"; "fleet-manager"] user
    (OrdersController.assignOrder now id driverId vehicleId).

Section Metrics.

Variables Math_sin Math_cos : float -> float.
Variable Math_atan2 : float -> float -> float.
Variable castWaypoint : RoutesController.WaypointObject -> option Route.Waypoint.

(** [router.post('/:id/optimize', authorize('admin', 'fleet-manager'), optimizeRoute)] *)
Definition optimizeRoute (user : User.t) (id : ObjectId) : handler response :=
  authorize ["admin"; "fleet-manager"] user
    (RoutesController.optimizeRoute Math_sin Math_cos Math_atan2 castWaypoint
       user id).

End Metrics.

End Router.

(** ** Alerts, expiration and prices of an inventory document *)

(** [Math.ceil(x / d)] for a positive [d]. *)
Definition ceil_div (x d : Z) : Z := - ((- x) / d).

Definition msPerDay : Z := 1000 * 60 * 60 * 24.

(** [a || b] on an optional number: [a] unless it is missing, zero or
    NaN. *)
Definition orElse (a : option float) (b : float) : float :=
  match a with
  | Some v => if truthy v then v else b
  | None => b
  end.

(** MongoDB's [$lte] on two doubles: its order puts NaN below every
    number and makes it equal to itself. *)
Definition Mongo_lte (a b : float) : bool :=
  if is_nan a then true else if is_nan b then false else (a <=? b)%float.

(** The inventory document with the paths that [checkAlerts],
    [updatePrice] and the stock virtuals read besides those of
    [Inventory.t], which is its [item]. *)
Module InventoryDoc.

Record AlertRule := mkAlertRule {
  enabled : bool;
  threshold : option float;
  lastAlerted : option Date
}.

Record ExpirationRule := mkExpirationRule {
  exp_enabled : bool;
  daysBefore : Z;
  exp_lastAlerted : option Date
}.

Record Alerts := mkAlerts {
  lowStock : AlertRule;
  expirationRule : ExpirationRule;
  overstock : AlertRule
}.

Record Expiration := mkExpiration {
  hasExpiration : bool;
  expirationDate : option Date
}.

Record PriceEntry := mkPriceEntry {
  pe_price : option Z;
  pe_effectiveDate : Date;
  pe_reason : option string
}.

Record Pricing := mkPricing {
  price : option Z;
  priceHistory : list PriceEntry
}.

Record t := mk {
  item : Inventory.t;
  name : string;
  sku : string;
  maximum : option float;
  expiration : Expiration;
  alerts : Alerts;
  pricing : Pricing
}.

(** An element of the array [checkAlerts] returns. *)
Record Alert := mkAlert {
  alert_type : string;
  message : string;
  priority : string
}.

Definition set_item (i : Inventory.t) (d : t) : t :=
  mk i (name d) (sku d) (maximum d) (expiration d) (alerts d) (pricing d).
Definition set_alerts (a : Alerts) (d : t) : t :=
  mk (item d) (name d) (sku d) (maximum d) (expiration d) a (pricing d).

Definition touch (now : Date) (r : AlertRule) : AlertRule :=
  mkAlertRule (enabled r) (threshold r) (Some now).
Definition touch_expiration (now : Date) (r : ExpirationRule) : ExpirationRule :=
  mkExpirationRule (exp_enabled r) (daysBefore r) (Some now).

(** The virtual [stockStatus]. *)
Definition stockStatus (this : t) : string :=
  let available := Inventory.stockAvailable (item this) in
  if (available <=? 0)%float then "out-of-stock"
  else if (available <=? Inventory.reorderPoint (Inventory.stock (item this)))%float
  then "low-stock"
  else if match maximum this with
          | Some m => truthy m && (m <=? available)%float
          | None => false
          end
  then "overstock"
  else "in-stock".

(** The virtual [daysUntilExpiration]; [None] is [null]. *)
Definition daysUntilExpiration (now : Date) (this : t) : option Z :=
  if negb (hasExpiration (expiration this)) then None
  else match expirationDate (expiration this) with
       | None => None
       | Some expires => Some (ceil_div (expires - now) msPerDay)
       end.

(** The virtual [isExpired]. *)
Definition isExpired (now : Date) (this : t) : bool :=
  match daysUntilExpiration now this with
  | Some daysUntil => daysUntil <? 0
  | None => false
  end.

(** The validators of the paths written here: those of the item and the
    [min: 0] of [pricing.price] and [stock.maximum]. *)
Definition validate (this : t) : bool :=
  Inventory.validate (item this)
  && match price (pricing this) with Some p => 0 <=? p | None => true end
  && match maximum this with Some m => (0 <=? m)%float | None => true end.

(** [this.save()]: the saved document, or the rejection. *)
Definition save (now : Date) (this : t) : response + t :=
  if validate this
  then inr (set_item (Inventory.pre_save now (item this)) this)
  else inl (NextError "ValidationError").


(** [daysSinceLastAlert]: [Math.floor((now - lastAlerted) / day)], or
    [null]. *)
Definition daysSince (now : Date) (lastAlerted : option Date) : option Z :=
  match lastAlerted with
  | Some last => Some ((now - last) / msPerDay)
  | None => None
  end.

(** [!daysSinceLastAlert || daysSinceLastAlert >= minDays]: [null] and [0]
    are both falsy. *)
Definition dueAgain (minDays : Z) (daysSinceLastAlert : option Z) : bool :=
  match daysSinceLastAlert with
  | None => true
  | Some d => (d =? 0) || (d >=? minDays)
  end.

Section Alerts.

Context `{JsRuntime}.

(** [checkAlerts()]: the alerts, the document afterwards, and whether
    [save()] was called. *)
Definition checkAlerts (now : Date) (this : t)
  : response + (list Alert * t * bool) :=
  let found : list Alert := [] in
  let stockAvailable := Inventory.stockAvailable (item this) in
  let stock := Inventory.stock (item this) in
  (* low stock *)
  let '(found, this) :=
    let rule := lowStock (alerts this) in
    if enabled rule
       && (stockAvailable
           <=? orElse (threshold rule) (Inventory.reorderPoint stock))%float
       && dueAgain 1 (daysSince now (lastAlerted rule))
    then
      (found ++ [mkAlert "low-stock"
                   (String.append "Low stock alert for "
                      (String.append (name this)
                         (String.append " ("
                            (String.append (sku this)
                               (String.append "). Current: "
                                  (String.append
                                     (String_ofNumber stockAvailable)
                                     " units"))))))
                   "high"],
       set_alerts (mkAlerts (touch now rule) (expirationRule (alerts this))
                            (overstock (alerts this))) this)
    else (found, this) in
  (* expiration *)
  let '(found, this) :=
    let rule := expirationRule (alerts this) in
    match exp_enabled rule, daysUntilExpiration now this with
    | true, Some daysUntil =>
        if (daysUntil <=? daysBefore rule)
           && dueAgain 1 (daysSince now (exp_lastAlerted rule))
        then
          (found ++ [mkAlert "expiration"
                       (String.append (name this)
                          (String.append " ("
                             (String.append (sku this)
                                (String.append ") expires in "
                                   (String.append (pretty daysUntil)
                                                  " days")))))
                       (if daysUntil <=? 7 then "urgent" else "medium")],
           set_alerts (mkAlerts (lowStock (alerts this))
                                (touch_expiration now rule)
                                (overstock (alerts this))) this)
        else (found, this)
    | _, _ => (found, this)
    end in
  (* overstock *)
  let '(found, this) :=
    let rule := overstock (alerts this) in
    match maximum this with
    | Some m =>
        if enabled rule && truthy m
           && (orElse (threshold rule) m <=? Inventory.current stock)%float
           && dueAgain 7 (daysSince now (lastAlerted rule))
        then
          (found ++ [mkAlert "overstock"
                       (String.append "Overstock alert for "
                          (String.append (name this)
                             (String.append " ("
                                (String.append (sku this)
                                   (String.append "). Current: "
                                      (String.append
                                         (String_ofNumber
                                            (Inventory.current stock))
                                         " units"))))))
                       "low"],
           set_alerts (mkAlerts (lowStock (alerts this))
                                (expirationRule (alerts this))
                                (touch now rule)) this)
        else (found, this)
    | None => (found, this)
    end in
  if (0 <? length found)%nat
  then match save now this with
       | inr saved => inr (found, saved, true)
       | inl rejected => inl rejected
       end
  else inr (found, this, false).

End Alerts.


End InventoryDoc.

(** The three decisions of [checkAlerts], each on the document as it is
    loaded: a kind of alert only writes its own [lastAlerted]. *)
Definition lowStockFires (now : Date) (this : InventoryDoc.t) : bool :=
  let rule := InventoryDoc.lowStock (InventoryDoc.alerts this) in
  InventoryDoc.enabled rule
  && (Inventory.stockAvailable (InventoryDoc.item this)
      <=? orElse (InventoryDoc.threshold rule)
                 (Inventory.reorderPoint
                    (Inventory.stock (InventoryDoc.item this))))%float
  && InventoryDoc.dueAgain 1
       (InventoryDoc.daysSince now (InventoryDoc.lastAlerted rule)).

Definition expirationFires (now : Date) (this : InventoryDoc.t) : bool :=
  let rule := InventoryDoc.expirationRule (InventoryDoc.alerts this) in
  match InventoryDoc.exp_enabled rule,
        InventoryDoc.daysUntilExpiration now this with
  | true, Some daysUntil =>
      (daysUntil <=? InventoryDoc.daysBefore rule)
      && InventoryDoc.dueAgain 1
           (InventoryDoc.daysSince now (InventoryDoc.exp_lastAlerted rule))
  | _, _ => false
  end.

Definition overstockFires (now : Date) (this : InventoryDoc.t) : bool :=
  let rule := InventoryDoc.overstock (InventoryDoc.alerts this) in
  match InventoryDoc.maximum this with
  | Some m =>
      InventoryDoc.enabled rule && truthy m
      && (orElse (InventoryDoc.threshold rule) m
          <=? Inventory.current (Inventory.stock (InventoryDoc.item this)))%float
      && InventoryDoc.dueAgain 7
           (InventoryDoc.daysSince now (InventoryDoc.lastAlerted rule))
  | None => false
  end.

(** [InventorySchema.statics.getLowStockItems(owner)]: the filter of the
    query, and the matching documents in the order of the collection. *)
Definition lowStockQuery (owner : option ObjectId) (i : Inventory.t) : bool :=
  Mongo_lte (Inventory.available (Inventory.stock i))
            (Inventory.reorderPoint (Inventory.stock i))
  && String.eqb (Inventory.status i) "active"
  && match owner with
     | Some o => N.eqb (Inventory.owner i) o
     | None => true
     end.

Definition getLowStockItems (owner : option ObjectId) (db : Db)
  : list Inventory.t :=
  List.filter (lowStockQuery owner) (snd <$> map_to_list (inventory db)).

(** ** Words of the ledger *)

(** The test of the first branch of [addMovement] on the number its
    [quantity] stands for:
    [type === 'in' || type === 'adjustment' && quantity > 0]. *)
Definition increaseKind (type : string) (quantity : float) : bool :=
  String.eqb type "in" || (String.eqb type "adjustment" && (0 <? quantity)%float).

(** The test of its second branch, also the guard of the stock check in
    the controller:
    [['out', 'damaged', 'expired', 'lost'].includes(type)
     || (type === 'adjustment' && quantity < 0)]. *)
Definition decreaseKind (type : string) (quantity : float) : bool :=
  includes ["out"; "damaged"; "expired"; "lost"] type
  || (String.eqb type "adjustment" && (quantity <? 0)%float).

(** What the schema maintains on the stock triple: none of the three is
    negative or NaN. *)
Definition stock_inv (i : Inventory.t) : Prop :=
  (0 <=? Inventory.current (Inventory.stock i))%float = true
  /\ (0 <=? Inventory.reserved (Inventory.stock i))%float = true
  /\ (0 <=? Inventory.available (Inventory.stock i))%float = true.

(** What the [pre('save')] hook maintains: [available] is the clamped
    difference of the other two whenever that difference is a number (it
    is not when both are infinite). *)
Definition available_inv (i : Inventory.t) : Prop :=
  is_nan (Inventory.current (Inventory.stock i)
          - Inventory.reserved (Inventory.stock i)) = false ->
  Inventory.available (Inventory.stock i)
  = Math_max 0 (Inventory.current (Inventory.stock i)
                - Inventory.reserved (Inventory.stock i)).

(** What a ledger method hands to [save()]: the document it was called
    on with one more movement, and the same id, owner, reorder point and
    status. *)
Definition appended (this i : Inventory.t) : Prop :=
  Inventory._id i = Inventory._id this
  /\ Inventory.owner i = Inventory.owner this
  /\ Inventory.reorderPoint (Inventory.stock i)
     = Inventory.reorderPoint (Inventory.stock this)
  /\ Inventory.status i = Inventory.status this
  /\ exists m, Inventory.movements i = Inventory.movements this ++ [m].

(** A request to one of the three ledger endpoints of an item. *)
Inductive ledger_call : Type :=
| AddMovement (type : string) (quantity : JsValue) (reason : string)
              (reference notes : option string)
| ReserveStock (quantity : JsValue) (reason : string)
| ReleaseReservedStock (quantity : JsValue) (reason : string).

Record ledger_request := mkRequest {
  req_time : Date;
  req_user : User.t;
  req_call : ledger_call
}.

Section Ledger.

Context `{JsRuntime}.

Definition ledger_handler (id : ObjectId) (req : ledger_request)
  : handler response :=
  match req_call req with
  | AddMovement type quantity reason reference notes =>
      InventoryController.addMovement (req_time req) (req_user req) id
        type quantity reason reference notes
  | ReserveStock quantity reason =>
      InventoryController.reserveStock (req_time req) (req_user req) id
        quantity reason
  | ReleaseReservedStock quantity reason =>
      InventoryController.releaseReservedStock (req_time req) (req_user req) id
        quantity reason
  end.

(** The database after serving the requests one after the other. *)
Definition ledger_run (id : ObjectId) (reqs : list ledger_request) (db : Db)
  : Db :=
  fold_left (fun db req => snd (run (ledger_handler id req) db)) reqs db.

(** The responses to the requests, in order, with the database they
    leave. *)
Fixpoint ledger_trace (id : ObjectId) (reqs : list ledger_request) (db : Db)
  : list response * Db :=
  match reqs with
  | [] => ([], db)
  | req :: reqs =>
      let result := run (ledger_handler id req) db in
      let rest := ledger_trace id reqs (snd result) in
      (fst result :: fst rest, snd rest)
  end.

End Ledger.

(** ** Words of the assignment *)

(** The negation of the driver guard of [assignOrder],
    [!driver || driver.role !== 'driver']. *)
Definition validDriver (db : Db) (driverId : ObjectId) : bool :=
  match users db !! driverId with
  | Some driver => String.eqb (User.role driver) "driver"
  | None => false
  end.

(** The negation of its vehicle guard,
    [!vehicle || vehicle.status !== 'available']. *)
Definition vehicleAvailable (db : Db) (vehicleId : ObjectId) : bool :=
  match vehicles db !! vehicleId with
  | Some vehicle => String.eqb (Vehicle.status vehicle) "available"
  | None => false
  end.

(** A request to one of the three endpoints that move an order through
    its statuses. *)
Inductive order_call : Type :=
| UpdateStatus (status : string) (notes : option string)
               (location : option Location)
| Assign (driverId vehicleId : ObjectId)
| Cancel (reason : option string).

Record order_request := mkOrderRequest {
  oreq_time : Date;
  oreq_user : User.t;
  oreq_call : order_call
}.

Definition order_handler (id : ObjectId) (req : order_request)
  : handler response :=
  match oreq_call req with
  | UpdateStatus status notes location =>
      OrdersController.updateOrderStatus (oreq_time req) (oreq_user req) id
        status notes location
  | Assign driverId vehicleId =>
      Router.assignOrder (oreq_time req) (oreq_user req) id driverId vehicleId
  | Cancel reason =>
      OrdersController.cancelOrder (oreq_time req) (oreq_user req) id reason
  end.

Definition order_run (id : ObjectId) (reqs : list order_request) (db : Db)
  : Db :=
  fold_left (fun db req => snd (run (order_handler id req) db)) reqs db.

(** A request to cancel, as opposed to the other two. *)
Definition isCancel (req : order_request) : bool :=
  match oreq_call req with
  | Cancel _ => true
  | _ => false
  end.

(** The vehicle an order is bound to, if it is stored, is stored under its
    own id. *)
Definition boundVehicleKeyed (db : Db) (order : Order.t) : Prop :=
  match Order.assignedVehicle order with
  | Some vehicleId =>
      match vehicles db !! vehicleId with
      | Some vehicle => Vehicle._id vehicle = vehicleId
      | None => True
      end
  | None => True
  end.

(** ** Words of the route optimisation *)

(** The array [optimized] of [optimizeWaypoints]: pickups, then
    deliveries, then the rest. *)
Definition grouped (waypoints : list Route.Waypoint) : list Route.Waypoint :=
  List.filter RoutesController.isPickup waypoints
  ++ List.filter RoutesController.isDelivery waypoints
  ++ List.filter RoutesController.isOther waypoints.

(** The waypoints carry the [order] indices 1, 2, ..., n in sequence. *)
Definition numbered (waypoints : list Route.Waypoint) : Prop :=
  Route.order <$> waypoints = Z.of_nat <$> seq 1 (length waypoints).

(** ** Sample documents *)

Definition admin : User.t := User.mk 1 "admin".
Definition driver : User.t := User.mk 2 "driver".
Definition retailer : User.t := User.mk 3 "retailer".

(** Ten units in stock, none reserved, owned by the retailer. *)
Definition item10 : Inventory.t :=
  Inventory.mk 10 3 (Inventory.mkStock 10 0 10 2) "active" []
    (Inventory.mkAnalytics 0 0 None) (Inventory.mkAudit None 1).

(** Five units in stock, three of them reserved. *)
Definition item11 : Inventory.t :=
  Inventory.mk 11 3 (Inventory.mkStock 5 3 2 2) "low-stock"
    [Inventory.mkMovement "out" 3 "Reserved: order 5" 3%N None None 500]
    (Inventory.mkAnalytics 0 0 None) (Inventory.mkAudit (Some 500) 2).

Definition noTracking : Order.Tracking := Order.mkTracking [] None None.

(** A pending order of the retailer: 1200 kg, 115 to pay, no vehicle. *)
Definition order20 : Order.t :=
  Order.mk 20 3 None None "pending" (Order.mkCargo [] 1200) 115 noTracking
    None.

(** A delivered order of 100 kg. *)
Definition order21 : Order.t :=
  Order.mk 21 3 None None "delivered" (Order.mkCargo [] 100) 80 noTracking
    None.

(** A pending order of 100 kg bound to vehicle 31 and the driver. *)
Definition order22 : Order.t :=
  Order.mk 22 3 (Some 2%N) (Some 31%N) "pending" (Order.mkCargo [] 100) 115
    noTracking None.

(** A pending order of 100 kg, bound to no driver and no vehicle. *)
Definition order23 : Order.t :=
  Order.mk 23 3 None None "pending" (Order.mkCargo [] 100) 115 noTracking None.

Definition noTrips : Vehicle.Metrics := Vehicle.mkMetrics 0 0 0 0.

(** An available vehicle that carries 1000 kg. *)
Definition vehicle30 : Vehicle.t := Vehicle.mk 30 "available" None 1000 noTrips 0.

(** A vehicle on the road with the driver. *)
Definition vehicle31 : Vehicle.t :=
  Vehicle.mk 31 "in-transit" (Some 2%N) 1000 noTrips 0.

Definition waypointAt (id : ObjectId) (order : Z) (type : string)
    (lat lng : float) : Route.Waypoint :=
  Route.mkWaypoint id (mkLocation (mkCoordinates lat lng) None) None order type
    "pending" None None.

(** Delivery, fuel stop, pickup, delivery, pickup: out of order. *)
Definition waypoints40 : list Route.Waypoint :=
  [waypointAt 401 1 "delivery" 6.5 3.25;
   waypointAt 402 2 "fuel-stop" 6.75 3.5;
   waypointAt 403 3 "pickup" 7 4;
   waypointAt 404 4 "delivery" 7.5 4.5;
   waypointAt 405 5 "pickup" 8 5].

(** A route in progress, planned from 10:00 to 12:00 and started at 10:00,
    driven by the driver in [vehicle31]. *)
Definition route40 : Route.t :=
  Route.mk 40 1 (Some 2%N) (Some 31%N) "in-progress" waypoints40
    (Route.mkOptimization 0 0 0)
    (Route.mkScheduling 36000000 43200000 (Some 36000000) None)
    (Route.mkMetrics None None None None)
    (Route.mkCompletion None None []).

(** A planned route that was never started. *)
Definition route41 : Route.t :=
  Route.mk 41 1 (Some 2%N) None "planned" waypoints40
    (Route.mkOptimization 0 0 0)
    (Route.mkScheduling 36000000 43200000 None None)
    (Route.mkMetrics None None None None)
    (Route.mkCompletion None None []).

(** [item11] with its name, a maximum of 4, a low-stock rule last fired an
    hour before noon and an overstock rule last fired three days before,
    and a price of 20. *)
Definition doc11 : InventoryDoc.t :=
  InventoryDoc.mk item11 "Maize flour" "MF-2KG" (Some 4%float)
    (InventoryDoc.mkExpiration true (Some 43200000))
    (InventoryDoc.mkAlerts
       (InventoryDoc.mkAlertRule true None (Some 39600000))
       (InventoryDoc.mkExpirationRule false 30 None)
       (InventoryDoc.mkAlertRule true None (Some (43200000 - 3 * 86400000))))
    (InventoryDoc.mkPricing (Some 20) []).

Definition db0 : Db :=
  mkDb (<[1%N := admin]> (<[2%N := driver]> (<[3%N := retailer]> ∅)))
       (<[20%N := order20]> (<[21%N := order21]> (<[22%N := order22]> ∅)))
       (<[30%N := vehicle30]> (<[31%N := vehicle31]> ∅))
       (<[40%N := route40]> (<[41%N := route41]> ∅))
       (<[10%N := item10]> (<[11%N := item11]> ∅)).

(** [db0] with [order23]. *)
Definition db1 : Db := set_orders (<[23%N := order23]> (orders db0)) db0.

(** * Properties *)

(** ** The controller monad *)

Lemma run_bind_inl {A} (m : handler A) (f : A -> handler response) db r db' :
  m db = (inl r, db') -> run (m ≫= f) db = (r, db').
Proof. intros H. unfold run, mbind, handler_bind. rewrite H. reflexivity. Qed.

Lemma run_bind_inr {A} (m : handler A) (f : A -> handler response) db a db' :
  m db = (inr a, db') -> run (m ≫= f) db = run (f a) db'.
Proof. intros H. unfold run, mbind, handler_bind. rewrite H. reflexivity. Qed.

(** ** Binary64 numbers through their specification *)

Lemma leb_0 x : (0 <=? x)%float = SFnonneg (Prim2SF x).
Proof.
  rewrite FloatAxioms.leb_spec. change (Prim2SF 0) with (S754_zero false).
  destruct (Prim2SF x) as [s|s| |s m e]; try destruct s; reflexivity.
Qed.

Lemma ltb_0 x : (0 <? x)%float = SFpos (Prim2SF x).
Proof.
  rewrite FloatAxioms.ltb_spec. change (Prim2SF 0) with (S754_zero false).
  destruct (Prim2SF x) as [s|s| |s m e]; try destruct s; reflexivity.
Qed.

Lemma leb_x_0 x :
  (x <=? 0)%float = negb (SFis_nan (Prim2SF x)) && negb (SFpos (Prim2SF x)).
Proof.
  rewrite FloatAxioms.leb_spec. change (Prim2SF 0) with (S754_zero false).
  destruct (Prim2SF x) as [s|s| |s m e]; try destruct s; reflexivity.
Qed.

Lemma ltb_x_0 x : (x <? 0)%float = negb (SFnonneg (Prim2SF x)) && negb (SFis_nan (Prim2SF x)).
Proof.
  rewrite FloatAxioms.ltb_spec. change (Prim2SF 0) with (S754_zero false).
  destruct (Prim2SF x) as [s|s| |s m e]; try destruct s; reflexivity.
Qed.

Lemma SFcompare_refl x : SFis_nan x = false -> SFcompare x x = Some Eq.
Proof.
  destruct x as [s|s| |s m e]; try destruct s; try reflexivity; try discriminate;
    intros _; cbn; rewrite Z.compare_refl, Pos.compare_cont_refl; reflexivity.
Qed.

Lemma is_nan_spec x : is_nan x = SFis_nan (Prim2SF x).
Proof.
  unfold is_nan. rewrite FloatAxioms.eqb_spec. unfold SFeqb.
  destruct (SFis_nan (Prim2SF x)) eqn:E.
  - destruct (Prim2SF x); try discriminate. reflexivity.
  - rewrite (SFcompare_refl _ E). reflexivity.
Qed.

Lemma is_zero_spec x :
  is_zero x = match Prim2SF x with S754_zero _ => true | _ => false end.
Proof.
  unfold is_zero. rewrite FloatAxioms.eqb_spec. unfold SFeqb.
  change (Prim2SF zero) with (S754_zero false).
  destruct (Prim2SF x) as [s|s| |s m e]; try destruct s; reflexivity.
Qed.

(** ** Rounding keeps the sign *)

Lemma shr_1_nonneg mrs : 0 <= shr_m mrs -> 0 <= shr_m (shr_1 mrs).
Proof.
  destruct mrs as [m r s]. cbn [shr_m].
  destruct m as [|p|p]; [| |lia]; intros _; [cbn; lia|].
  destruct p; cbn; lia.
Qed.

Lemma iter_pos_shr_1_nonneg p mrs :
  0 <= shr_m mrs -> 0 <= shr_m (SpecFloat.iter_pos shr_1 p mrs).
Proof.
  revert mrs. induction p as [p IH|p IH|]; intros mrs H; cbn [iter_pos].
  - apply IH, IH, shr_1_nonneg, H.
  - apply IH, IH, H.
  - apply shr_1_nonneg, H.
Qed.

Lemma shr_fexp_nonneg m e l :
  0 <= m -> 0 <= shr_m (fst (shr_fexp prec emax m e l)).
Proof.
  intros H. unfold shr_fexp, shr.
  assert (H0 : 0 <= shr_m (shr_record_of_loc m l))
    by (destruct l as [|[]]; exact H).
  destruct (fexp prec emax (Zdigits2 m + e) - e); cbn [fst]; auto.
  apply iter_pos_shr_1_nonneg, H0.
Qed.

Lemma round_nearest_even_nonneg m l : 0 <= m -> 0 <= round_nearest_even m l.
Proof.
  intros H. destruct l as [|[]]; cbn; try lia.
  destruct (Z.even m); lia.
Qed.

(** The sign class of a rounded mantissa that is not negative is the sign
    it was given. *)
Lemma binary_round_aux_signed s m e l :
  0 <= m -> SFsigned s (binary_round_aux prec emax s m e l).
Proof.
  intros H. unfold binary_round_aux.
  pose proof (shr_fexp_nonneg m e l H) as H1.
  destruct (shr_fexp prec emax m e l) as [mrs' e'].
  cbn [fst] in H1.
  pose proof (shr_fexp_nonneg _ e' loc_Exact
                (round_nearest_even_nonneg _ (loc_of_shr_record mrs') H1)) as H2.
  destruct (shr_fexp prec emax _ e' loc_Exact) as [mrs'' e''].
  cbn [fst] in H2.
  destruct (shr_m mrs'') as [|p|p]; [reflexivity| |lia].
  destruct (e'' <=? emax - prec); reflexivity.
Qed.

Lemma binary_round_signed s m e : SFsigned s (binary_round prec emax s m e).
Proof.
  unfold binary_round.
  destruct (shl_align m e _) as [mz ez].
  apply binary_round_aux_signed. lia.
Qed.

Lemma binary_normalize_nonneg m e :
  0 <= m -> SFnonneg (binary_normalize prec emax m e false) = true.
Proof.
  intros H. destruct m as [|p|p]; [reflexivity| |lia].
  cbn [binary_normalize].
  pose proof (binary_round_signed false p e) as Hs.
  destruct (binary_round prec emax false p e); cbn in Hs |- *;
    try subst; try reflexivity; contradiction.
Qed.

(** ** Sums *)

Lemma SFadd_nonneg x y :
  SFnonneg x = true -> SFnonneg y = true ->
  SFnonneg (SFadd prec emax x y) = true.
Proof.
  destruct x as [sx|sx| |sx mx ex], y as [sy|sy| |sy my ey];
    try discriminate; cbn [SFnonneg SFadd];
    try (destruct sx; try discriminate);
    try (destruct sy; try discriminate);
    try reflexivity; intros _ _.
  apply binary_normalize_nonneg. cbn [cond_Zopp]. lia.
Qed.

Lemma add_nonneg a b :
  (0 <=? a)%float = true -> (0 <=? b)%float = true ->
  (0 <=? a + b)%float = true.
Proof.
  rewrite !leb_0, FloatAxioms.add_spec. apply SFadd_nonneg.
Qed.

(** ** Differences *)

Lemma digits2_pos_bounds p :
  2 ^ (Z.pos (digits2_pos p) - 1) <= Z.pos p < 2 ^ Z.pos (digits2_pos p).
Proof.
  induction p as [p IH|p IH|]; cbn [digits2_pos]; [| |cbn; lia].
  - rewrite Pos2Z.inj_succ.
    replace (Z.succ (Z.pos (digits2_pos p)) - 1)
      with (Z.succ (Z.pos (digits2_pos p) - 1)) by lia.
    rewrite !Z.pow_succ_r by lia. lia.
  - rewrite Pos2Z.inj_succ.
    replace (Z.succ (Z.pos (digits2_pos p)) - 1)
      with (Z.succ (Z.pos (digits2_pos p) - 1)) by lia.
    rewrite !Z.pow_succ_r by lia. lia.
Qed.

(** What a valid finite binary64 number says of its mantissa. *)
Lemma bounded_mantissa m e :
  bounded prec emax m e = true ->
  Z.pos m < 2 ^ 53
  /\ -1074 <= e
  /\ (-1074 < e -> 2 ^ 52 <= Z.pos m).
Proof.
  unfold bounded, canonical_mantissa, fexp, emin.
  change prec with 53. change emax with 1024.
  intros [Hc _]%andb_true_iff. apply Z.eqb_eq in Hc.
  pose proof (digits2_pos_bounds m) as [Hlo Hhi].
  set (d := Z.pos (digits2_pos m)) in *.
  assert (Hd : d <= 53) by lia.
  split.
  - eapply Z.lt_le_trans; [exact Hhi|]. apply Z.pow_le_mono_r; lia.
  - split; [lia|]. intros He.
    assert (d = 53) as Ed by lia. rewrite Ed in Hlo. exact Hlo.
Qed.

Lemma shl_align_value m e e' :
  e' <= e ->
  Z.pos (fst (shl_align m e e')) = Z.pos m * 2 ^ (e - e').
Proof.
  intros H. unfold shl_align.
  destruct (e' - e) as [|d|d] eqn:E; cbn [fst].
  - replace (e - e') with 0 by lia. lia.
  - lia.
  - change (Pos.iter xO m d) with (shift_pos d m).
    rewrite shift_pos_correct, Z.pow_pos_fold.
    replace (e - e') with (Z.pos d) by lia. lia.
Qed.

Lemma SFsub_nonneg x y :
  valid_binary x = true -> valid_binary y = true ->
  SFnonneg y = true ->
  SFleb y x = true ->
  SFis_nan (SFsub prec emax x y) = false ->
  SFnonneg (SFsub prec emax x y) = true.
Proof.
  intros Vx Vy Hy Hle Hnan.
  destruct x as [sx|sx| |sx mx ex], y as [sy|sy| |sy my ey];
    try discriminate;
    try (destruct sx; try discriminate);
    try (destruct sy; try discriminate);
    try reflexivity.
  cbn [valid_binary] in Vx, Vy.
  destruct (bounded_mantissa _ _ Vx) as (Hx1 & Hx2 & Hx3).
  destruct (bounded_mantissa _ _ Vy) as (Hy1 & Hy2 & Hy3).
  cbn [SFsub]. apply binary_normalize_nonneg. cbn [cond_Zopp].
  unfold SFleb in Hle. cbn [SFcompare] in Hle.
  destruct (Z.compare_spec ey ex) as [E|L|G]; [| |discriminate].
  - subst ey. rewrite Z.min_id.
    rewrite !shl_align_value by lia. rewrite Z.sub_diag.
    change (Pos.compare_cont Eq my mx) with (Pos.compare my mx) in Hle.
    destruct (Pos.compare_spec my mx); [subst; lia|lia|discriminate].
  - rewrite Z.min_r by lia.
    rewrite !shl_align_value by lia. rewrite Z.sub_diag.
    assert (2 ^ 1 <= 2 ^ (ex - ey)) by (apply Z.pow_le_mono_r; lia).
    assert (2 ^ 52 <= Z.pos mx) by (apply Hx3; lia).
    change (2 ^ 1) with 2 in *. change (2 ^ 0) with 1.
    nia.
Qed.

Lemma sub_nonneg a b :
  (0 <=? b)%float = true -> (b <=? a)%float = true ->
  is_nan (a - b) = false ->
  (0 <=? a - b)%float = true.
Proof.
  rewrite !leb_0, is_nan_spec, FloatAxioms.leb_spec, FloatAxioms.sub_spec.
  apply SFsub_nonneg; apply Prim2SF_valid.
Qed.

(** ** The order *)

Lemma SFcompare_antisym x y :
  SFcompare y x = match SFcompare x y with
                  | Some c => Some (CompOpp c)
                  | None => None
                  end.
Proof.
  destruct x as [sx|sx| |sx mx ex], y as [sy|sy| |sy my ey];
    try destruct sx; try destruct sy; try reflexivity;
    cbn [SFcompare]; rewrite (Z.compare_antisym ex ey);
    destruct (ex ?= ey); cbn [CompOpp]; try reflexivity;
    rewrite (Pos.compare_cont_antisym mx my Eq); cbn [CompOpp];
    destruct (Pos.compare_cont Eq mx my); reflexivity.
Qed.

Lemma SFcompare_not_nan x y :
  SFis_nan x = false -> SFis_nan y = false -> SFcompare x y <> None.
Proof.
  destruct x as [sx|sx| |sx mx ex], y as [sy|sy| |sy my ey];
    try discriminate; intros _ _; cbn; try destruct sx; try destruct sy;
    discriminate.
Qed.

Lemma SFcompare_Eq_pos x y :
  SFpos x = true -> SFcompare x y = Some Eq -> y = x.
Proof.
  destruct x as [sx|sx| |sx mx ex], y as [sy|sy| |sy my ey];
    try discriminate; cbn [SFpos SFcompare];
    destruct sx; try discriminate; destruct sy; try discriminate;
    intros _; try reflexivity.
  destruct (Z.compare_spec ex ey) as [E|L|G]; try discriminate.
  intros H. injection H as H.
  change (Pos.compare_cont Eq mx my) with (Pos.compare mx my) in H.
  apply Pos.compare_eq in H. subst. reflexivity.
Qed.

Lemma ltb_leb a b : (a <? b)%float = true -> (a <=? b)%float = true.
Proof.
  rewrite FloatAxioms.ltb_spec, FloatAxioms.leb_spec. unfold SFltb, SFleb.
  destruct (SFcompare _ _) as [[]|]; congruence.
Qed.

Lemma ltb_asym a b : (a <? b)%float = true -> (b <? a)%float = false.
Proof.
  rewrite !FloatAxioms.ltb_spec. unfold SFltb.
  rewrite (SFcompare_antisym (Prim2SF a) (Prim2SF b)).
  destruct (SFcompare _ _) as [[]|]; cbn; congruence.
Qed.

Lemma ltb_not_nan a b :
  (a <? b)%float = true -> is_nan a = false /\ is_nan b = false.
Proof.
  rewrite FloatAxioms.ltb_spec, !is_nan_spec. unfold SFltb.
  destruct (Prim2SF a), (Prim2SF b); cbn; auto; discriminate.
Qed.

Lemma leb_not_nan a b :
  (a <=? b)%float = true -> is_nan a = false /\ is_nan b = false.
Proof.
  rewrite FloatAxioms.leb_spec, !is_nan_spec. unfold SFleb.
  destruct (Prim2SF a), (Prim2SF b); cbn; auto; discriminate.
Qed.

(** Of two numbers the second is less than the first, or the first is at
    most the second. *)
Lemma not_ltb_leb a b :
  is_nan a = false -> is_nan b = false ->
  (b <? a)%float = false -> (a <=? b)%float = true.
Proof.
  rewrite !is_nan_spec, FloatAxioms.ltb_spec, FloatAxioms.leb_spec. unfold SFltb, SFleb.
  intros Ha Hb. pose proof (SFcompare_not_nan _ _ Ha Hb) as Hn.
  rewrite (SFcompare_antisym (Prim2SF a) (Prim2SF b)).
  destruct (SFcompare _ _) as [[]|]; cbn; congruence.
Qed.

Lemma leb_refl a : is_nan a = false -> (a <=? a)%float = true.
Proof.
  rewrite is_nan_spec, FloatAxioms.leb_spec. unfold SFleb. intros H.
  rewrite (SFcompare_refl _ H). reflexivity.
Qed.

(** Two positive numbers neither of which is less than the other are the
    same number. *)
Lemma not_ltb_eq a b :
  (0 <? a)%float = true -> is_nan b = false ->
  (a <? b)%float = false -> (b <? a)%float = false -> b = a.
Proof.
  rewrite ltb_0, is_nan_spec, !FloatAxioms.ltb_spec. unfold SFltb.
  intros Ha Hb H1 H2. apply Prim2SF_inj.
  apply (SFcompare_Eq_pos _ _ Ha).
  assert (Hna : SFis_nan (Prim2SF a) = false)
    by (destruct (Prim2SF a); try discriminate; reflexivity).
  pose proof (SFcompare_not_nan _ _ Hna Hb) as Hn.
  rewrite (SFcompare_antisym (Prim2SF a) (Prim2SF b)) in H2.
  destruct (SFcompare _ _) as [[]|]; cbn in *; congruence.
Qed.

Lemma nonneg_not_nan x : (0 <=? x)%float = true -> is_nan x = false.
Proof. intros H. apply (leb_not_nan _ _ H). Qed.

Lemma pos_nonneg x : (0 <? x)%float = true -> (0 <=? x)%float = true.
Proof. apply ltb_leb. Qed.

Lemma pos_not_nan x : (0 <? x)%float = true -> is_nan x = false.
Proof. intros H. apply (ltb_not_nan _ _ H). Qed.

(** A number greater than zero is truthy and fails [x <= 0]. *)
Lemma pos_guard x :
  (0 <? x)%float = true ->
  is_zero x = false /\ is_nan x = false /\ (x <=? 0)%float = false.
Proof.
  rewrite ltb_0, is_zero_spec, is_nan_spec, leb_x_0.
  destruct (Prim2SF x) as [s|s| |s m e]; try discriminate; cbn;
    intros ->; auto.
Qed.

(** ** Absolute value *)

Lemma abs_of_pos x : (0 <? x)%float = true -> abs x = x.
Proof.
  rewrite ltb_0. intros H. apply Prim2SF_inj. rewrite FloatAxioms.abs_spec.
  destruct (Prim2SF x) as [s|s| |s m e]; try discriminate;
    destruct s; try discriminate; reflexivity.
Qed.

Lemma abs_nan x : is_nan (abs x) = is_nan x.
Proof.
  rewrite !is_nan_spec, FloatAxioms.abs_spec. destruct (Prim2SF x); reflexivity.
Qed.

Lemma abs_nonneg x : is_nan x = false -> (0 <=? abs x)%float = true.
Proof.
  rewrite is_nan_spec, leb_0, FloatAxioms.abs_spec.
  destruct (Prim2SF x); try discriminate; reflexivity.
Qed.

(** ** Infinities *)

Lemma is_infinity_spec x : is_infinity x = SFis_infinity (Prim2SF x).
Proof.
  unfold is_infinity. rewrite FloatAxioms.eqb_spec, FloatAxioms.abs_spec. unfold SFeqb.
  change (Prim2SF infinity) with (S754_infinity false).
  destruct (Prim2SF x) as [s|s| |s m e]; reflexivity.
Qed.

Lemma binary_normalize_not_nan m e :
  SFis_nan (binary_normalize prec emax m e false) = false.
Proof.
  destruct m as [|p|p]; [reflexivity| |]; cbn [binary_normalize];
    [pose proof (binary_round_signed false p e) as Hs
    |pose proof (binary_round_signed true p e) as Hs];
    destruct (binary_round _ _ _ _ _); try reflexivity; contradiction.
Qed.

Lemma SFsub_not_nan x y :
  SFis_nan x = false -> SFis_nan y = false -> SFis_infinity y = false ->
  SFis_nan (SFsub prec emax x y) = false.
Proof.
  destruct x as [sx|sx| |sx mx ex], y as [sy|sy| |sy my ey];
    try discriminate; intros _ _ _; cbn [SFsub];
    try destruct sx; try destruct sy; try reflexivity;
    apply binary_normalize_not_nan.
Qed.

Lemma sub_not_nan a b :
  is_nan a = false -> is_finite b = true -> is_nan (a - b) = false.
Proof.
  unfold is_finite. rewrite negb_true_iff, orb_false_iff.
  rewrite !is_nan_spec, is_infinity_spec, FloatAxioms.sub_spec.
  intros Ha [Hb Hi]. apply SFsub_not_nan; assumption.
Qed.

(** ** [Math.max] and [Math.min] *)

Lemma Math_max_0_nonneg x :
  is_nan x = false -> (0 <=? Math_max 0 x)%float = true.
Proof.
  intros Hx. unfold Math_max. rewrite Hx.
  change (is_nan 0) with false. cbn [orb].
  destruct (0 <? x)%float eqn:E; [apply pos_nonneg, E|].
  destruct (x <? 0)%float; reflexivity.
Qed.

(** [Math.max(0, x)] is [x] when [x] is not negative, up to the sign of a
    zero. *)
Lemma Math_max_0_eqb x :
  (0 <=? x)%float = true -> (Math_max 0 x =? x)%float = true.
Proof.
  intros Hx. unfold Math_max.
  rewrite (nonneg_not_nan _ Hx). change (is_nan 0) with false. cbn [orb].
  pose proof (nonneg_not_nan _ Hx) as Hn.
  destruct (0 <? x)%float eqn:E.
  - unfold is_nan in Hn. apply negb_false_iff in Hn. exact Hn.
  - revert Hx E. rewrite leb_0, ltb_0, ltb_x_0, FloatAxioms.eqb_spec.
    change (get_sign 0) with false.
    change (Prim2SF 0) with (S754_zero false).
    destruct (Prim2SF x) as [s|s| |s m e]; try destruct s; cbn;
      congruence.
Qed.

Lemma Math_min_l a b : (a <? b)%float = true -> Math_min a b = a.
Proof.
  intros H. unfold Math_min.
  destruct (ltb_not_nan _ _ H) as [-> ->]. rewrite H. reflexivity.
Qed.

Lemma Math_min_r a b : (b <? a)%float = true -> Math_min a b = b.
Proof.
  intros H. unfold Math_min.
  destruct (ltb_not_nan _ _ H) as [-> ->].
  rewrite (ltb_asym _ _ H), H. reflexivity.
Qed.

(** [Math.min(a, b)] is [a] when [a] is positive and not above [b]. *)
Lemma Math_min_pos_le a b :
  (0 <? a)%float = true -> is_nan b = false -> (b <? a)%float = false ->
  Math_min a b = a.
Proof.
  intros Ha Hb Hle. unfold Math_min.
  rewrite (pos_not_nan _ Ha), Hb, Hle. cbn [orb].
  destruct (a <? b)%float eqn:E; [reflexivity|].
  rewrite (not_ltb_eq a b Ha Hb E Hle).
  destruct (get_sign a); reflexivity.
Qed.

(** ** Inventory ledger *)

Lemma Math_max_0_nan x : is_nan (Math_max 0 x) = is_nan x.
Proof.
  unfold Math_max. change (is_nan 0) with false. cbn [orb].
  destruct (is_nan x) eqn:E; [reflexivity|].
  destruct (0 <? x)%float; [exact E|].
  destruct (x <? 0)%float; reflexivity.
Qed.

Lemma assign_number old new :
  is_nan new = false -> Inventory.assign old new = new.
Proof. intros E. unfold Inventory.assign. rewrite E. reflexivity. Qed.

Lemma assign_nonneg old new :
  (0 <=? old)%float = true ->
  (is_nan new = false -> (0 <=? new)%float = true) ->
  (0 <=? Inventory.assign old new)%float = true.
Proof.
  intros Hold Hnew. unfold Inventory.assign.
  destruct (is_nan new); [exact Hold | apply Hnew; reflexivity].
Qed.

(** The cast of a number fails on NaN alone. *)
Lemma number_Some `{JsRuntime} x :
  is_nan x = false -> InventoryModel.number x = Some x.
Proof.
  intros E. unfold InventoryModel.number, castNumber. rewrite E. reflexivity.
Qed.

Lemma number_inv `{JsRuntime} x y :
  InventoryModel.number x = Some y -> y = x /\ is_nan x = false.
Proof.
  unfold InventoryModel.number, castNumber.
  destruct (is_nan x); [discriminate|]. intros [= <-]. auto.
Qed.

Lemma Inventory_save_inr now i saved db db' :
  Inventory_save now i db = (inr saved, db') ->
  Inventory.validate i = true
  /\ saved = Inventory.pre_save now i
  /\ db' = set_inventory (<[Inventory._id saved := saved]> (inventory db)) db.
Proof.
  unfold Inventory_save. destruct (Inventory.validate i); intros H.
  - injection H as <- <-. repeat split; reflexivity.
  - discriminate.
Qed.

Lemma pre_save_frame now i :
  Inventory._id (Inventory.pre_save now i) = Inventory._id i
  /\ Inventory.current (Inventory.stock (Inventory.pre_save now i))
     = Inventory.current (Inventory.stock i)
  /\ Inventory.reserved (Inventory.stock (Inventory.pre_save now i))
     = Inventory.reserved (Inventory.stock i)
  /\ Inventory.available (Inventory.stock (Inventory.pre_save now i))
     = Inventory.assign (Inventory.available (Inventory.stock i))
         (Math_max 0 (Inventory.current (Inventory.stock i)
                      - Inventory.reserved (Inventory.stock i)))
  /\ Inventory.movements (Inventory.pre_save now i) = Inventory.movements i
  /\ Inventory.analytics (Inventory.pre_save now i) = Inventory.analytics i.
Proof.
  unfold Inventory.pre_save. cbn.
  repeat match goal with |- context [if ?b then _ else _] => destruct b end;
    cbn; auto 10.
Qed.

Lemma Inventory_save_ok now i db :
  Inventory.validate i = true ->
  Inventory_save now i db
  = (inr (Inventory.pre_save now i),
     set_inventory
       (<[Inventory._id i := Inventory.pre_save now i]> (inventory db)) db).
Proof.
  intros Hv. unfold Inventory_save. rewrite Hv.
  destruct (pre_save_frame now i) as (-> & _). reflexivity.
Qed.

Lemma validate_spec i :
  Inventory.validate i = true <->
  (0 <=? Inventory.current (Inventory.stock i))%float = true
  /\ (0 <=? Inventory.reserved (Inventory.stock i))%float = true
  /\ (0 <=? Inventory.available (Inventory.stock i))%float = true
  /\ forallb (fun m => includes Inventory.movement_type_enum (Inventory.type m))
             (Inventory.movements i) = true.
Proof. unfold Inventory.validate. rewrite !andb_true_iff. tauto. Qed.

(** What the hook leaves in [stock.available] of a document that passed
    validation. *)
Lemma pre_save_available now i :
  Inventory.validate i = true ->
  let i' := Inventory.pre_save now i in
  (0 <=? Inventory.available (Inventory.stock i'))%float = true
  /\ (is_nan (Inventory.current (Inventory.stock i)
              - Inventory.reserved (Inventory.stock i)) = false ->
      Inventory.available (Inventory.stock i')
      = Math_max 0 (Inventory.current (Inventory.stock i)
                    - Inventory.reserved (Inventory.stock i))).
Proof.
  intros (_ & _ & Ha & _)%validate_spec i'. subst i'.
  destruct (pre_save_frame now i) as (_ & _ & _ & -> & _).
  split.
  - apply assign_nonneg; [exact Ha|].
    rewrite Math_max_0_nan. apply Math_max_0_nonneg.
  - intros E. apply assign_number. rewrite Math_max_0_nan. exact E.
Qed.

Lemma pre_save_stock_inv now i :
  Inventory.validate i = true ->
  stock_inv (Inventory.pre_save now i)
  /\ available_inv (Inventory.pre_save now i).
Proof.
  intros Hv. pose proof Hv as (Hc & Hr & _)%validate_spec.
  destruct (pre_save_available now i Hv) as [Ha Heq].
  destruct (pre_save_frame now i) as (_ & Ec & Er & _).
  unfold stock_inv, available_inv. rewrite Ec, Er. auto.
Qed.

(** C10.  A successful [reserveStock] with a number for [quantity] leaves
    [stock.current] alone, stores in [stock.reserved] the binary64 sum of
    what was reserved and [quantity], appends one movement of type ['out']
    carrying that quantity and the reason prefixed with ['Reserved: '],
    and does not touch [analytics.totalOut] (nor any other running total);
    the saved document is the one stored under the item's id. *)
Theorem reserveStock_ledger_out_without_totals `{JsRuntime}
    (now : Date) (quantity : float) (reason : string) (user : ObjectId)
    (this saved : Inventory.t) (db db' : Db) :
  InventoryModel.reserveStock now (JsNumber quantity) reason user this db
    = (inr saved, db') ->
  Inventory.current (Inventory.stock saved)
    = Inventory.current (Inventory.stock this)
  /\ Inventory.reserved (Inventory.stock saved)
     = (Inventory.reserved (Inventory.stock this) + quantity)%float
  /\ Inventory.movements saved
     = Inventory.movements this
       ++ [Inventory.mkMovement "out" quantity
             (String.append "Reserved: " reason) user None None now]
  /\ Inventory.totalOut (Inventory.analytics saved)
     = Inventory.totalOut (Inventory.analytics this)
  /\ Inventory.analytics saved = Inventory.analytics this
  /\ inventory db' !! Inventory._id this = Some saved.
Proof.
  unfold InventoryModel.reserveStock.
  destruct (Inventory.stockAvailable this <? ToNumber (JsNumber quantity))%float;
    [discriminate|].
  cbn [Js_add ToNumber].
  destruct (castNumber (JsNumber _)) as [reserved|] eqn:Er; [|discriminate].
  destruct (castNumber (JsNumber quantity)) as [q|] eqn:Eq; [|discriminate].
  apply number_inv in Er as [-> _]. apply number_inv in Eq as [-> _].
  intros Hs. apply Inventory_save_inr in Hs as (_ & -> & ->).
  match goal with |- context [Inventory.pre_save now ?i] =>
    destruct (pre_save_frame now i) as (Hid & Hc & Hr & _ & Hm & Ha) end.
  rewrite Hc, Hr, Hm, Ha, Hid. cbn.
  repeat split; try reflexivity.
  apply lookup_insert_eq.
Qed.

(** Reserving 4 of the 10 available units of [item10]. *)
Lemma reserveStock_ledger_out_without_totals_witness :
  let saved :=
    Inventory.mk 10 3 (Inventory.mkStock 10 4 6 2) "active"
      [Inventory.mkMovement "out" 4 "Reserved: order 7" 3 None None 1000]
      (Inventory.mkAnalytics 0 0 None) (Inventory.mkAudit (Some 1000) 2) in
  InventoryModel.reserveStock (H := numerals) 1000 (JsNumber 4) "order 7" 3
    item10 db0
    = (inr saved, set_inventory (<[10%N := saved]> (inventory db0)) db0)
  /\ Inventory.reserved (Inventory.stock saved) = (0 + 4)%float
  /\ Inventory.totalOut (Inventory.analytics saved) = 0%float.
Proof.
  intros saved.
  assert (E : InventoryModel.reserveStock (H := numerals) 1000 (JsNumber 4)
                "order 7" 3 item10 db0
    = (inr saved, set_inventory (<[10%N := saved]> (inventory db0)) db0))
    by reflexivity.
  split; [exact E|].
  destruct (reserveStock_ledger_out_without_totals _ _ _ _ _ _ _ _ E)
    as (_ & Hr & _ & Ht & _).
  split; [exact Hr | exact Ht].
Defined.

(** C10 as stated fails on "by exactly quantity": with [2^53] units
    reserved out of [2^54], reserving one more succeeds and records a
    movement of one unit, and [stock.reserved] is what it was, since
    [2^53 + 1] is not a binary64 number. *)
Lemma reserveStock_absorbed_counterexample :
  let this :=
    Inventory.mk 12 3
      (Inventory.mkStock 18014398509481984 9007199254740992 9007199254740992 0)
      "active" [] (Inventory.mkAnalytics 0 0 None)
      (Inventory.mkAudit None 1) in
  exists saved db',
    InventoryModel.reserveStock (H := numerals) 1000 (JsNumber 1) "order 7" 3
      this db0 = (inr saved, db')
    /\ Inventory.reserved (Inventory.stock saved)
       = Inventory.reserved (Inventory.stock this)
    /\ Inventory.quantity <$> Inventory.movements saved = [1%float].
Proof.
  intros this. eexists. eexists.
  split; [vm_compute; reflexivity|]. split; reflexivity.
Qed.

(** [save()] either rejects and writes nothing, or writes the document as
    the hook leaves it. *)
Lemma Inventory_save_shape now this i db :
  appended this i ->
  (exists e, Inventory_save now i db = (inl (NextError e), db))
  \/ exists j,
       appended this j
       /\ Inventory.validate j = true
       /\ Inventory_save now i db
          = (inr (Inventory.pre_save now j),
             set_inventory
               (<[Inventory._id j := Inventory.pre_save now j]> (inventory db))
               db).
Proof.
  intros Hid. destruct (Inventory.validate i) eqn:Hv.
  - right. exists i. split; [exact Hid|]. split; [exact Hv|].
    apply Inventory_save_ok, Hv.
  - left. eexists. unfold Inventory_save. rewrite Hv. reflexivity.
Qed.

(** The same of the three methods, whatever [quantity] is. *)
Lemma addMovement_shape `{JsRuntime} now type quantity reason user reference
    notes this db :
  let h := InventoryModel.addMovement now type quantity reason user reference
             notes this in
  (exists e, h db = (inl (NextError e), db))
  \/ exists j,
       appended this j
       /\ Inventory.validate j = true
       /\ h db
          = (inr (Inventory.pre_save now j),
             set_inventory
               (<[Inventory._id j := Inventory.pre_save now j]> (inventory db))
               db).
Proof.
  cbv zeta. unfold InventoryModel.addMovement, throw.
  repeat match goal with
         | |- context [match InventoryModel.number ?x with _ => _ end] =>
             destruct (InventoryModel.number x)
         | |- context [if ?b then _ else _] => destruct b
         end;
    try (left; eexists; reflexivity);
    apply Inventory_save_shape;
    (split; [reflexivity|]); (split; [reflexivity|]);
    (split; [reflexivity|]); (split; [reflexivity|]);
    eexists; reflexivity.
Qed.

Lemma reserveStock_shape `{JsRuntime} now quantity reason user this db :
  let h := InventoryModel.reserveStock now quantity reason user this in
  (exists e, h db = (inl (NextError e), db))
  \/ exists j,
       appended this j
       /\ Inventory.validate j = true
       /\ h db
          = (inr (Inventory.pre_save now j),
             set_inventory
               (<[Inventory._id j := Inventory.pre_save now j]> (inventory db))
               db).
Proof.
  cbv zeta. unfold InventoryModel.reserveStock, throw.
  destruct (Inventory.stockAvailable this <? ToNumber quantity)%float;
    [left; eexists; reflexivity|].
  destruct (castNumber (Js_add _ quantity));
    [|left; eexists; reflexivity].
  destruct (castNumber quantity); [|left; eexists; reflexivity].
  apply Inventory_save_shape.
  (split; [reflexivity|]); (split; [reflexivity|]);
  (split; [reflexivity|]); (split; [reflexivity|]).
  eexists. reflexivity.
Qed.

Lemma releaseReservedStock_shape `{JsRuntime} now quantity reason user this db :
  let h := InventoryModel.releaseReservedStock now quantity reason user this in
  (exists e, h db = (inl (NextError e), db))
  \/ exists j,
       appended this j
       /\ Inventory.validate j = true
       /\ h db
          = (inr (Inventory.pre_save now j),
             set_inventory
               (<[Inventory._id j := Inventory.pre_save now j]> (inventory db))
               db).
Proof.
  cbv zeta. unfold InventoryModel.releaseReservedStock, throw.
  destruct (InventoryModel.number (_ - _)); [|left; eexists; reflexivity].
  destruct (InventoryModel.number (Math_min _ _));
    [|left; eexists; reflexivity].
  apply Inventory_save_shape.
  (split; [reflexivity|]); (split; [reflexivity|]);
  (split; [reflexivity|]); (split; [reflexivity|]).
  eexists. reflexivity.
Qed.

(** Every ledger endpoint either fails and leaves the database as it was,
    or saves one validated document under the id of the item it found. *)
Lemma ledger_handler_shape `{JsRuntime} id req db :
  let result := run (ledger_handler id req) db in
  (snd result = db /\ succeeded (fst result) = false)
  \/ exists item i,
       inventory db !! id = Some item
       /\ appended item i
       /\ Inventory.validate i = true
       /\ succeeded (fst result) = true
       /\ snd result
          = set_inventory
              (<[Inventory._id i := Inventory.pre_save (req_time req) i]>
                 (inventory db)) db.
Proof.
  assert (Hfinish : forall (h : handler Inventory.t) code message item now,
    ((exists e, h db = (inl (NextError e), db))
     \/ exists j,
          appended item j
          /\ Inventory.validate j = true
          /\ h db
             = (inr (Inventory.pre_save now j),
                set_inventory
                  (<[Inventory._id j := Inventory.pre_save now j]>
                     (inventory db)) db)) ->
    let result := run (h ≫= fun _ => respond code true message) db in
    (snd result = db /\ succeeded (fst result) = false)
    \/ exists i,
         appended item i
         /\ Inventory.validate i = true
         /\ succeeded (fst result) = true
         /\ snd result
            = set_inventory
                (<[Inventory._id i := Inventory.pre_save now i]>
                   (inventory db)) db).
  { intros h code message item now [(e & He) | (j & Hid & Hv & Hj)];
      cbv zeta.
    - rewrite (run_bind_inl _ _ _ _ _ He). left. split; reflexivity.
    - rewrite (run_bind_inr _ _ _ _ _ Hj). right. exists j.
      split; [exact Hid|]. split; [exact Hv|]. split; reflexivity. }
  assert (Hitem : forall item (result : response * Db),
    ((snd result = db /\ succeeded (fst result) = false)
     \/ exists i,
          appended item i
          /\ Inventory.validate i = true
          /\ succeeded (fst result) = true
          /\ snd result
             = set_inventory
                 (<[Inventory._id i := Inventory.pre_save (req_time req) i]>
                    (inventory db)) db) ->
    inventory db !! id = Some item ->
    (snd result = db /\ succeeded (fst result) = false)
    \/ exists item i,
         inventory db !! id = Some item
         /\ appended item i
         /\ Inventory.validate i = true
         /\ succeeded (fst result) = true
         /\ snd result
            = set_inventory
                (<[Inventory._id i := Inventory.pre_save (req_time req) i]>
                   (inventory db)) db).
  { intros item result [Hl | (i & Hi)] Hlook; [left; exact Hl|].
    right. exists item, i. split; [exact Hlook | exact Hi]. }
  destruct req as [now user call]. cbv zeta.
  cbn [req_time] in Hitem.
  destruct (inventory db !! id) as [item|] eqn:Hlook.
  2:{ left. destruct call; cbn [ledger_handler req_call req_time req_user];
        unfold InventoryController.addMovement,
          InventoryController.reserveStock,
          InventoryController.releaseReservedStock;
        (erewrite run_bind_inr by (unfold Inventory_findById; reflexivity));
        rewrite Hlook; split; reflexivity. }
  apply (Hitem item); [|reflexivity].
  destruct call as [type quantity reason reference notes
                   | quantity reason | quantity reason];
    cbn [ledger_handler req_call req_time req_user];
    unfold InventoryController.addMovement, InventoryController.reserveStock,
      InventoryController.releaseReservedStock;
    (erewrite run_bind_inr by (unfold Inventory_findById; reflexivity));
    rewrite Hlook;
    destruct (negb (InventoryController.canAccess user item));
    try (left; split; reflexivity);
    destruct (InventoryController.notPositive quantity);
    try (left; split; reflexivity).
  - match goal with |- context [if ?b then _ else _] => destruct b end;
      [left; split; reflexivity|].
    apply (Hfinish _ _ _ item now), addMovement_shape.
  - apply (Hfinish _ _ _ item now), reserveStock_shape.
  - match goal with |- context [if ?b then _ else _] => destruct b end;
      [left; split; reflexivity|].
    apply (Hfinish _ _ _ item now), releaseReservedStock_shape.
Qed.

Lemma ledger_step_inv `{JsRuntime} id req db item :
  inventory db !! id = Some item ->
  Inventory._id item = id ->
  stock_inv item /\ available_inv item ->
  exists item',
    inventory (snd (run (ledger_handler id req) db)) !! id = Some item'
    /\ Inventory._id item' = id
    /\ stock_inv item' /\ available_inv item'.
Proof.
  intros Hitem Hid Hinv.
  destruct (ledger_handler_shape id req db)
    as [[-> _] | (it & i & Hit & (Ei & _) & Hv & _ & ->)].
  - exists item. auto.
  - assert (it = item) as -> by congruence.
    exists (Inventory.pre_save (req_time req) i).
    destruct (pre_save_frame (req_time req) i) as (E & _).
    split; [|split; [congruence | apply pre_save_stock_inv; exact Hv]].
    cbn [snd inventory set_inventory]. rewrite Ei, Hid.
    apply lookup_insert_eq.
Qed.

(** A ledger request that succeeds leaves a consistent stock triple
    behind, whatever the triple was before. *)
Lemma ledger_success_establishes_invariant `{JsRuntime} id req db item :
  inventory db !! id = Some item ->
  Inventory._id item = id ->
  succeeded (fst (run (ledger_handler id req) db)) = true ->
  exists item',
    inventory (snd (run (ledger_handler id req) db)) !! id = Some item'
    /\ stock_inv item' /\ available_inv item'.
Proof.
  intros Hitem Hid Hok.
  destruct (ledger_handler_shape id req db)
    as [[_ Hfail] | (it & i & Hit & (Ei & _) & Hv & _ & ->)]; [congruence|].
  assert (it = item) as -> by congruence.
  exists (Inventory.pre_save (req_time req) i).
  split; [|apply pre_save_stock_inv; exact Hv].
  cbn [inventory set_inventory]. rewrite Ei, Hid. apply lookup_insert_eq.
Qed.

(** C2, as the code has it.  Whatever requests are served on an item whose
    stock triple is consistent, and whatever values they carry for
    [quantity], after every one of them [stock.available], [stock.current]
    and [stock.reserved] are numbers that are not negative, and
    [stock.available] is [Math.max(0, stock.current - stock.reserved)]
    computed in binary64 (unless that difference is NaN, which it is only
    when both are infinite); so [stock.available] equals the binary64
    difference [stock.current - stock.reserved] when the reservations do
    not exceed the stock. *)
Theorem ledger_stock_invariant `{JsRuntime}
    (id : ObjectId) (reqs : list ledger_request) (db : Db) (item : Inventory.t) :
  inventory db !! id = Some item ->
  Inventory._id item = id ->
  stock_inv item ->
  available_inv item ->
  exists item',
    inventory (ledger_run id reqs db) !! id = Some item'
    /\ Inventory._id item' = id
    /\ (is_nan (Inventory.current (Inventory.stock item')
                - Inventory.reserved (Inventory.stock item')) = false ->
        Inventory.available (Inventory.stock item')
        = Math_max 0 (Inventory.current (Inventory.stock item')
                      - Inventory.reserved (Inventory.stock item')))
    /\ (0 <=? Inventory.available (Inventory.stock item'))%float = true
    /\ (0 <=? Inventory.current (Inventory.stock item'))%float = true
    /\ (0 <=? Inventory.reserved (Inventory.stock item'))%float = true
    /\ ((Inventory.reserved (Inventory.stock item')
         <=? Inventory.current (Inventory.stock item'))%float = true ->
        is_nan (Inventory.current (Inventory.stock item')
                - Inventory.reserved (Inventory.stock item')) = false ->
        (Inventory.available (Inventory.stock item')
         =? Inventory.current (Inventory.stock item')
            - Inventory.reserved (Inventory.stock item'))%float = true).
Proof.
  intros Hitem Hid Hinv Hav.
  assert (Hgen : exists item',
    inventory (ledger_run id reqs db) !! id = Some item'
    /\ Inventory._id item' = id /\ stock_inv item' /\ available_inv item').
  { revert db item Hitem Hid Hinv Hav. unfold ledger_run.
    induction reqs as [|req reqs IH]; intros db item Hitem Hid Hinv Hav.
    - exists item. cbn. auto.
    - cbn [fold_left].
      destruct (ledger_step_inv id req db item Hitem Hid (conj Hinv Hav))
        as (item1 & H1 & Hid1 & Hinv1 & Hav1).
      exact (IH _ item1 H1 Hid1 Hinv1 Hav1). }
  destruct Hgen as (item' & Hrun & Hid' & (Hc & Hr & Ha) & Hav').
  exists item'. repeat split; try assumption.
  intros Hle Hnan. rewrite (Hav' Hnan).
  apply Math_max_0_eqb, sub_nonneg; assumption.
Qed.

(** Three requests on [item10]: reserve 8, ship 5, release 2. *)
Lemma ledger_stock_invariant_witness :
  exists item',
    inventory
      (ledger_run (H := numerals) 10
         [mkRequest 1000 retailer (ReserveStock (JsNumber 8) "order 7");
          mkRequest 2000 retailer
            (AddMovement "out" (JsNumber 5) "sale" None None);
          mkRequest 3000 admin (ReleaseReservedStock (JsNumber 2) "order 7")]
         db0) !! 10%N = Some item'
    /\ (0 <=? Inventory.available (Inventory.stock item'))%float = true
    /\ (0 <=? Inventory.current (Inventory.stock item'))%float = true.
Proof.
  destruct (ledger_stock_invariant (H := numerals) 10
              [mkRequest 1000 retailer (ReserveStock (JsNumber 8) "order 7");
               mkRequest 2000 retailer
                 (AddMovement "out" (JsNumber 5) "sale" None None);
               mkRequest 3000 admin
                 (ReleaseReservedStock (JsNumber 2) "order 7")]
              db0 item10)
    as (item' & Hrun & _ & _ & Ha & Hc & _).
  - reflexivity.
  - reflexivity.
  - repeat split; reflexivity.
  - intros _. reflexivity.
  - exists item'. auto.
Defined.

(** C2 as stated fails: after reserving 8 of the 10 units of [item10] and
    then shipping 5, the item holds 5 units with 8 reserved, and
    [stock.available] is 0, not [5 - 8].  And the difference is a binary64
    one: after reserving one unit of a stock of [2^54], [stock.available]
    is [2^54] with one unit reserved. *)
Lemma ledger_available_clamped_counterexample :
  (exists item',
     inventory
       (ledger_run (H := numerals) 10
          [mkRequest 1000 retailer (ReserveStock (JsNumber 8) "order 7");
           mkRequest 2000 retailer
             (AddMovement "out" (JsNumber 5) "sale" None None)]
          db0) !! 10%N = Some item'
     /\ Inventory.current (Inventory.stock item') = 5%float
     /\ Inventory.reserved (Inventory.stock item') = 8%float
     /\ Inventory.available (Inventory.stock item') = 0%float
     /\ (Inventory.available (Inventory.stock item')
         =? Inventory.current (Inventory.stock item')
            - Inventory.reserved (Inventory.stock item'))%float = false)
  /\ let item :=
       Inventory.mk 12 3
         (Inventory.mkStock 18014398509481984 0 18014398509481984 0) "active"
         [] (Inventory.mkAnalytics 0 0 None) (Inventory.mkAudit None 1) in
     exists saved db',
       InventoryModel.reserveStock (H := numerals) 1000 (JsNumber 1)
         "order 7" 3 item db0 = (inr saved, db')
       /\ Inventory.reserved (Inventory.stock saved) = 1%float
       /\ Inventory.available (Inventory.stock saved)
          = Inventory.current (Inventory.stock saved).
Proof.
  split.
  - eexists. split; [vm_compute; reflexivity|]. cbn.
    repeat split; reflexivity.
  - intros item. eexists. eexists. split; [vm_compute; reflexivity|].
    split; reflexivity.
Qed.

Lemma includes_In l x : includes l x = true <-> In x l.
Proof.
  unfold includes. rewrite existsb_exists. split.
  - intros (y & Hy & ->%String.eqb_eq). exact Hy.
  - intros H. exists x. split; [exact H | apply String.eqb_refl].
Qed.

Lemma forallb_snoc {A} (f : A -> bool) l x :
  forallb f (l ++ [x]) = forallb f l && f x.
Proof. rewrite forallb_app. cbn. rewrite andb_true_r. reflexivity. Qed.

(** Projections of updated inventory documents. *)
Ltac inv_simpl :=
  cbn [Inventory._id Inventory.owner Inventory.stock Inventory.status
       Inventory.movements Inventory.analytics Inventory.audit
       Inventory.current Inventory.reserved Inventory.available
       Inventory.reorderPoint Inventory.totalIn Inventory.totalOut
       Inventory.lastSoldDate Inventory.type Inventory.quantity
       Inventory.set_stock Inventory.set_status Inventory.set_movements
       Inventory.set_analytics Inventory.set_audit Inventory.set_current
       Inventory.set_reserved Inventory.set_available] in *.

(** A positive number passes the guard [!quantity || quantity <= 0]. *)
Lemma positive_passes_check `{JsRuntime} quantity :
  (0 <? quantity)%float = true ->
  InventoryController.notPositive (JsNumber quantity) = false.
Proof.
  intros (Hz & Hn & Hle)%pos_guard.
  unfold InventoryController.notPositive, ToBoolean, ToNumber, truthy.
  rewrite Hz, Hn, Hle. reflexivity.
Qed.

(** With a positive quantity, which the controller insists on, the kind
    of a movement is decided by its type alone. *)
Lemma kinds_of_positive type quantity :
  (0 <? quantity)%float = true ->
  includes Inventory.movement_type_enum type = true ->
  (increaseKind type quantity = true <-> type = "in" \/ type = "adjustment")
  /\ (decreaseKind type quantity = true
      <-> In type ["out"; "damaged"; "expired"; "lost"])
  /\ (increaseKind type quantity = false /\ decreaseKind type quantity = false
      <-> type = "transfer").
Proof.
  intros Hq Hty. apply includes_In in Hty.
  pose proof (ltb_asym _ _ Hq) as Hneg.
  unfold increaseKind, decreaseKind. rewrite Hq, Hneg.
  cbn in Hty.
  destruct Hty as [<-|[<-|[<-|[<-|[<-|[<-|[<-|[]]]]]]]]; cbn;
    intuition (try discriminate; auto).
Qed.

(** The model method on a valid document, for a positive quantity of an
    increase kind. *)
Lemma addMovement_increase `{JsRuntime} now type quantity reason user reference
    notes this db :
  Inventory.validate this = true ->
  includes Inventory.movement_type_enum type = true ->
  (0 <? quantity)%float = true ->
  increaseKind type quantity = true ->
  (0 <=? Inventory.totalIn (Inventory.analytics this))%float = true ->
  exists saved,
    InventoryModel.addMovement now type (JsNumber quantity) reason user
      reference notes this db
    = (inr saved,
       set_inventory (<[Inventory._id this := saved]> (inventory db)) db)
    /\ Inventory.movements saved
       = Inventory.movements this
         ++ [Inventory.mkMovement type quantity reason user reference notes now]
    /\ Inventory.reserved (Inventory.stock saved)
       = Inventory.reserved (Inventory.stock this)
    /\ Inventory.current (Inventory.stock saved)
       = (Inventory.current (Inventory.stock this) + quantity)%float
    /\ Inventory.totalIn (Inventory.analytics saved)
       = (Inventory.totalIn (Inventory.analytics this) + quantity)%float
    /\ Inventory.totalOut (Inventory.analytics saved)
       = Inventory.totalOut (Inventory.analytics this).
Proof.
  intros Hv Hty Hq Hkind Htin.
  apply validate_spec in Hv as (Hc & Hr & Ha & Hm).
  pose proof (add_nonneg _ _ Hc (pos_nonneg _ Hq)) as Hc'.
  pose proof (add_nonneg _ _ Htin (pos_nonneg _ Hq)) as Htin'.
  unfold InventoryModel.addMovement. cbn [ToNumber].
  rewrite (abs_of_pos _ Hq), (number_Some _ (pos_not_nan _ Hq)).
  fold (increaseKind type quantity). rewrite Hkind. inv_simpl.
  rewrite (number_Some _ (nonneg_not_nan _ Hc')),
    (number_Some _ (nonneg_not_nan _ Htin')).
  match goal with |- context [Inventory_save now ?i] =>
    set (doc := i); assert (Hdoc : Inventory.validate doc = true) end.
  { apply validate_spec. subst doc. inv_simpl.
    rewrite forallb_snoc, Hm. inv_simpl. rewrite Hty. auto. }
  exists (Inventory.pre_save now doc).
  rewrite (Inventory_save_ok now doc db Hdoc).
  split; [reflexivity|].
  destruct (pre_save_frame now doc) as (_ & -> & -> & _ & -> & ->).
  subst doc. inv_simpl. auto 10.
Qed.

(** The same for a decrease kind that the stock covers. *)
Lemma addMovement_decrease `{JsRuntime} now type quantity reason user reference
    notes this db :
  Inventory.validate this = true ->
  includes Inventory.movement_type_enum type = true ->
  (0 <? quantity)%float = true ->
  increaseKind type quantity = false ->
  decreaseKind type quantity = true ->
  (Inventory.current (Inventory.stock this) <? quantity)%float = false ->
  is_finite quantity = true ->
  (0 <=? Inventory.totalOut (Inventory.analytics this))%float = true ->
  exists saved,
    InventoryModel.addMovement now type (JsNumber quantity) reason user
      reference notes this db
    = (inr saved,
       set_inventory (<[Inventory._id this := saved]> (inventory db)) db)
    /\ Inventory.movements saved
       = Inventory.movements this
         ++ [Inventory.mkMovement type quantity reason user reference notes now]
    /\ Inventory.reserved (Inventory.stock saved)
       = Inventory.reserved (Inventory.stock this)
    /\ Inventory.current (Inventory.stock saved)
       = Math_max 0 (Inventory.current (Inventory.stock this) - quantity)
    /\ (Inventory.current (Inventory.stock saved)
        =? Inventory.current (Inventory.stock this) - quantity)%float = true
    /\ Inventory.totalIn (Inventory.analytics saved)
       = Inventory.totalIn (Inventory.analytics this)
    /\ Inventory.totalOut (Inventory.analytics saved)
       = (Inventory.totalOut (Inventory.analytics this) + quantity)%float.
Proof.
  intros Hv Hty Hq Hinc Hdec Hle Hfin Htout.
  apply validate_spec in Hv as (Hc & Hr & Ha & Hm).
  pose proof (nonneg_not_nan _ Hc) as Hcn.
  pose proof (sub_not_nan _ _ Hcn Hfin) as Hdn.
  pose proof (not_ltb_leb _ _ (pos_not_nan _ Hq) Hcn Hle) as Hqc.
  pose proof (sub_nonneg _ _ (pos_nonneg _ Hq) Hqc Hdn) as Hd.
  pose proof (add_nonneg _ _ Htout (pos_nonneg _ Hq)) as Htout'.
  unfold InventoryModel.addMovement. cbn [ToNumber].
  rewrite (abs_of_pos _ Hq), (number_Some _ (pos_not_nan _ Hq)).
  fold (increaseKind type quantity). rewrite Hinc.
  fold (decreaseKind type quantity). rewrite Hdec. inv_simpl.
  rewrite number_Some by (rewrite Math_max_0_nan; exact Hdn).
  rewrite (number_Some _ (nonneg_not_nan _ Htout')).
  match goal with |- context [Inventory_save now ?i] =>
    set (doc := i); assert (Hdoc : Inventory.validate doc = true) end.
  { apply validate_spec. subst doc. inv_simpl.
    rewrite forallb_snoc, Hm. inv_simpl. rewrite Hty.
    repeat split; auto. apply Math_max_0_nonneg, Hdn. }
  exists (Inventory.pre_save now doc).
  rewrite (Inventory_save_ok now doc db Hdoc).
  split; [reflexivity|].
  destruct (pre_save_frame now doc) as (_ & -> & -> & _ & -> & ->).
  subst doc. inv_simpl.
  repeat split; try reflexivity. apply Math_max_0_eqb, Hd.
Qed.

(** The same for a kind that is neither. *)
Lemma addMovement_neither `{JsRuntime} now type quantity reason user reference
    notes this db :
  Inventory.validate this = true ->
  includes Inventory.movement_type_enum type = true ->
  (0 <? quantity)%float = true ->
  increaseKind type quantity = false ->
  decreaseKind type quantity = false ->
  exists saved,
    InventoryModel.addMovement now type (JsNumber quantity) reason user
      reference notes this db
    = (inr saved,
       set_inventory (<[Inventory._id this := saved]> (inventory db)) db)
    /\ Inventory.movements saved
       = Inventory.movements this
         ++ [Inventory.mkMovement type quantity reason user reference notes now]
    /\ Inventory.reserved (Inventory.stock saved)
       = Inventory.reserved (Inventory.stock this)
    /\ Inventory.current (Inventory.stock saved)
       = Inventory.current (Inventory.stock this)
    /\ Inventory.analytics saved = Inventory.analytics this.
Proof.
  intros Hv Hty Hq Hinc Hdec.
  apply validate_spec in Hv as (Hc & Hr & Ha & Hm).
  unfold InventoryModel.addMovement. cbn [ToNumber].
  rewrite (abs_of_pos _ Hq), (number_Some _ (pos_not_nan _ Hq)).
  fold (increaseKind type quantity). rewrite Hinc.
  fold (decreaseKind type quantity). rewrite Hdec.
  match goal with |- context [Inventory_save now ?i] =>
    set (doc := i); assert (Hdoc : Inventory.validate doc = true) end.
  { apply validate_spec. subst doc. inv_simpl.
    rewrite forallb_snoc, Hm. inv_simpl. rewrite Hty. auto. }
  exists (Inventory.pre_save now doc).
  rewrite (Inventory_save_ok now doc db Hdoc).
  split; [reflexivity|].
  destruct (pre_save_frame now doc) as (_ & -> & -> & _ & -> & ->).
  subst doc. inv_simpl. auto 10.
Qed.

Lemma addMovement_found `{JsRuntime} now user id type quantity reason reference
    notes db item :
  inventory db !! id = Some item ->
  InventoryController.canAccess user item = true ->
  (0 <? quantity)%float = true ->
  run (InventoryController.addMovement now user id type (JsNumber quantity)
         reason reference notes) db
  = if decreaseKind type quantity
       && (Inventory.current (Inventory.stock item) <? quantity)%float
    then (Json 400 false "Insufficient stock for this movement", db)
    else run (InventoryModel.addMovement now type (JsNumber quantity) reason
                (User._id user) reference notes item
              ≫= fun _ => respond 200 true "Movement added successfully") db.
Proof.
  intros Hitem Hacc Hq.
  unfold InventoryController.addMovement.
  erewrite run_bind_inr by (unfold Inventory_findById; reflexivity).
  rewrite Hitem, Hacc, (positive_passes_check _ Hq). cbn [negb ToNumber].
  rewrite (abs_of_pos _ Hq). fold (decreaseKind type quantity).
  destruct (decreaseKind type quantity
            && (Inventory.current (Inventory.stock item) <? quantity)%float);
    reflexivity.
Qed.

(** C3, as the code has it.  For a stored, schema-valid item whose running
    totals are not negative, an authorised caller, a movement type of the
    schema and a number [quantity > 0], all arithmetic being that of
    binary64:
    - the increase kinds are ['in'] and ['adjustment'], the decrease kinds
      ['out'], ['damaged'], ['expired'] and ['lost'];
    - a decrease kind with [quantity > stock.current] is refused with the
      400 response "Insufficient stock for this movement" and the database
      is unchanged;
    - an increase kind succeeds, appends one ledger entry and stores the
      sums [stock.current + quantity] and [analytics.totalIn + quantity];
    - a decrease kind of a finite quantity that the stock covers succeeds,
      appends one ledger entry and stores the difference
      [stock.current - quantity] and the sum
      [analytics.totalOut + quantity];
    - a ['transfer'] succeeds, appends one ledger entry and changes
      neither the stock nor the running totals. *)
Theorem addMovement_by_kind `{JsRuntime}
    (now : Date) (user : User.t) (id : ObjectId) (type : string)
    (quantity : float) (reason : string) (reference notes : option string)
    (db : Db) (item : Inventory.t) :
  inventory db !! id = Some item ->
  Inventory._id item = id ->
  InventoryController.canAccess user item = true ->
  Inventory.validate item = true ->
  (0 <=? Inventory.totalIn (Inventory.analytics item))%float = true ->
  (0 <=? Inventory.totalOut (Inventory.analytics item))%float = true ->
  includes Inventory.movement_type_enum type = true ->
  (0 <? quantity)%float = true ->
  let cur := Inventory.current (Inventory.stock item) in
  let tin := Inventory.totalIn (Inventory.analytics item) in
  let tout := Inventory.totalOut (Inventory.analytics item) in
  let result :=
    run (InventoryController.addMovement now user id type (JsNumber quantity)
           reason reference notes) db in
  let stored item' :=
    result = (Json 200 true "Movement added successfully",
              set_inventory (<[id := item']> (inventory db)) db)
    /\ Inventory.movements item'
       = Inventory.movements item
         ++ [Inventory.mkMovement type quantity reason (User._id user)
               reference notes now]
    /\ Inventory.reserved (Inventory.stock item')
       = Inventory.reserved (Inventory.stock item) in
  (increaseKind type quantity = true <-> type = "in" \/ type = "adjustment")
  /\ (decreaseKind type quantity = true
      <-> In type ["out"; "damaged"; "expired"; "lost"])
  /\ (decreaseKind type quantity = true -> (cur <? quantity)%float = true ->
      result = (Json 400 false "Insufficient stock for this movement", db))
  /\ (increaseKind type quantity = true ->
      exists item',
        stored item'
        /\ Inventory.current (Inventory.stock item') = (cur + quantity)%float
        /\ Inventory.totalIn (Inventory.analytics item')
           = (tin + quantity)%float
        /\ Inventory.totalOut (Inventory.analytics item') = tout)
  /\ (decreaseKind type quantity = true -> (cur <? quantity)%float = false ->
      is_finite quantity = true ->
      exists item',
        stored item'
        /\ (Inventory.current (Inventory.stock item') =? cur - quantity)%float
           = true
        /\ Inventory.current (Inventory.stock item')
           = Math_max 0 (cur - quantity)
        /\ Inventory.totalIn (Inventory.analytics item') = tin
        /\ Inventory.totalOut (Inventory.analytics item')
           = (tout + quantity)%float)
  /\ (type = "transfer" ->
      exists item',
        stored item'
        /\ Inventory.current (Inventory.stock item') = cur
        /\ Inventory.totalIn (Inventory.analytics item') = tin
        /\ Inventory.totalOut (Inventory.analytics item') = tout).
Proof.
  intros Hitem Hid Hacc Hv Htin Htout Hty Hq cur tin tout result stored.
  destruct (kinds_of_positive type quantity Hq Hty) as (Hinc & Hdec & Hnone).
  assert (Hexcl : increaseKind type quantity = true ->
                  decreaseKind type quantity = false).
  { intros Hi. apply not_true_is_false. intros Hd.
    apply Hinc in Hi. apply Hdec in Hd. cbn in Hd.
    destruct Hi as [-> | ->]; intuition discriminate. }
  split; [exact Hinc|]. split; [exact Hdec|].
  subst result stored cur tin tout. cbv beta.
  rewrite (addMovement_found _ _ _ _ _ _ _ _ _ _ Hitem Hacc Hq).
  split; [|split; [|split]].
  - intros Hd Hlt. rewrite Hd, Hlt. reflexivity.
  - intros Hi. rewrite (Hexcl Hi). cbn [andb].
    destruct (addMovement_increase now type quantity reason (User._id user)
                reference notes item db Hv Hty Hq Hi Htin)
      as (saved & Hrun & Hm & Hr & Hc & Hti & Hto).
    exists saved. rewrite (run_bind_inr _ _ _ _ _ Hrun), Hid. auto 10.
  - intros Hd Hle Hfin. rewrite Hd, Hle. cbn [andb].
    assert (Hi : increaseKind type quantity = false).
    { destruct (increaseKind type quantity) eqn:Hi; [|reflexivity].
      rewrite (Hexcl eq_refl) in Hd. discriminate. }
    destruct (addMovement_decrease now type quantity reason (User._id user)
                reference notes item db Hv Hty Hq Hi Hd Hle Hfin Htout)
      as (saved & Hrun & Hm & Hr & Hc & Hce & Hti & Hto).
    exists saved. rewrite (run_bind_inr _ _ _ _ _ Hrun), Hid. auto 10.
  - intros Ht. apply Hnone in Ht as (Hi & Hd). rewrite Hd. cbn [andb].
    destruct (addMovement_neither now type quantity reason (User._id user)
                reference notes item db Hv Hty Hq Hi Hd)
      as (saved & Hrun & Hm & Hr & Hc & Han).
    exists saved. rewrite (run_bind_inr _ _ _ _ _ Hrun), Hid, Han. auto 10.
Qed.

(** Shipping 4 of the 10 units of [item10]. *)
Lemma addMovement_by_kind_witness :
  inventory db0 !! 10%N = Some item10
  /\ InventoryController.canAccess retailer item10 = true
  /\ Inventory.validate item10 = true
  /\ exists item',
       run (InventoryController.addMovement (H := numerals) 1000 retailer 10
              "out" (JsNumber 4) "sale" None None) db0
       = (Json 200 true "Movement added successfully",
          set_inventory (<[10%N := item']> (inventory db0)) db0)
       /\ Inventory.current (Inventory.stock item') = Math_max 0 (10 - 4)
       /\ Inventory.totalOut (Inventory.analytics item') = (0 + 4)%float.
Proof.
  split; [reflexivity|]. split; [reflexivity|]. split; [reflexivity|].
  pose proof (addMovement_by_kind (H := numerals) 1000 retailer 10 "out" 4
                "sale" None None db0 item10 eq_refl eq_refl eq_refl eq_refl
                eq_refl eq_refl eq_refl eq_refl)
    as E.
  cbv zeta in E. destruct E as (_ & _ & _ & _ & E & _).
  destruct (E eq_refl eq_refl eq_refl) as (item' & (Hrun & _) & _ & Hc & _ & Ho).
  exists item'. split; [exact Hrun|]. split; [exact Hc | exact Ho].
Defined.

(** C3 as stated fails on its last clause and on "increases by the
    quantity": a ['transfer'] of 4 units of [item10] succeeds and appends
    its ledger entry, and the running totals are what they were; and
    receiving one unit into a stock of [2^53] succeeds, counts the unit in
    [analytics.totalIn], and leaves [stock.current] at [2^53]. *)
Lemma addMovement_transfer_counterexample :
  (exists item',
     run (InventoryController.addMovement (H := numerals) 1000 retailer 10
            "transfer" (JsNumber 4) "to depot" None None) db0
     = (Json 200 true "Movement added successfully",
        set_inventory (<[10%N := item']> (inventory db0)) db0)
     /\ Inventory.movements item'
        = Inventory.movements item10
          ++ [Inventory.mkMovement "transfer" 4 "to depot" 3 None None 1000]
     /\ Inventory.analytics item' = Inventory.analytics item10
     /\ Inventory.stock item' = Inventory.stock item10)
  /\ let item :=
       Inventory.mk 12 3
         (Inventory.mkStock 9007199254740992 0 9007199254740992 0) "active" []
         (Inventory.mkAnalytics 0 0 None) (Inventory.mkAudit None 1) in
     exists saved db',
       InventoryModel.addMovement (H := numerals) 1000 "in" (JsNumber 1)
         "delivery" 3 None None item db0 = (inr saved, db')
       /\ Inventory.current (Inventory.stock saved)
          = Inventory.current (Inventory.stock item)
       /\ Inventory.totalIn (Inventory.analytics saved) = 1%float.
Proof.
  split.
  - eexists. split; [vm_compute; reflexivity|]. cbn. auto.
  - intros item. eexists. eexists. split; [vm_compute; reflexivity|].
    split; reflexivity.
Qed.

(** A number that is not negative and not above a finite one is finite. *)
Lemma leb_finite a b :
  (a <=? b)%float = true -> (0 <=? a)%float = true -> is_finite b = true ->
  is_finite a = true.
Proof.
  unfold is_finite.
  rewrite FloatAxioms.leb_spec, leb_0, !is_nan_spec, !is_infinity_spec.
  destruct (Prim2SF a) as [sa|sa| |sa ma ea],
    (Prim2SF b) as [sb|sb| |sb mb eb];
    try destruct sa; try destruct sb;
    cbn [SFnonneg SFis_nan SFis_infinity orb negb];
    intros Hle Ha Hb; try reflexivity; try discriminate.
Qed.

(** What [Math.min(quantity, reserved)] is for a positive quantity. *)
Lemma Math_min_release quantity reserved :
  (0 <? quantity)%float = true ->
  (0 <=? reserved)%float = true ->
  Math_min quantity reserved
  = if (reserved <? quantity)%float then reserved else quantity.
Proof.
  intros Hq Hr. destruct (reserved <? quantity)%float eqn:E.
  - apply Math_min_r, E.
  - apply Math_min_pos_le; [exact Hq | apply nonneg_not_nan, Hr | exact E].
Qed.

(** The model method [releaseReservedStock] on a valid document, for a
    finite positive quantity. *)
Lemma releaseReservedStock_model `{JsRuntime} now quantity reason user this db :
  Inventory.validate this = true ->
  (0 <? quantity)%float = true ->
  is_finite quantity = true ->
  let released :=
    Math_min quantity (Inventory.reserved (Inventory.stock this)) in
  exists saved,
    InventoryModel.releaseReservedStock now (JsNumber quantity) reason user
      this db
    = (inr saved,
       set_inventory (<[Inventory._id this := saved]> (inventory db)) db)
    /\ Inventory.reserved (Inventory.stock saved)
       = (Inventory.reserved (Inventory.stock this) - released)%float
    /\ Inventory.current (Inventory.stock saved)
       = Inventory.current (Inventory.stock this)
    /\ Inventory.movements saved
       = Inventory.movements this
         ++ [Inventory.mkMovement "in" released
               (String.append "Released: " reason) user None None now]
    /\ Inventory.analytics saved = Inventory.analytics this.
Proof.
  intros Hv Hq Hfin released.
  pose proof Hv as (Hc & Hr & Ha & Hm)%validate_spec.
  pose proof (nonneg_not_nan _ Hr) as Hrn.
  pose proof (pos_not_nan _ Hq) as Hqn.
  assert (Hrel : is_nan released = false
                 /\ is_nan (Inventory.reserved (Inventory.stock this)
                            - released) = false
                 /\ (0 <=? Inventory.reserved (Inventory.stock this)
                           - released)%float = true).
  { subst released. rewrite (Math_min_release _ _ Hq Hr).
    destruct (Inventory.reserved (Inventory.stock this) <? quantity)%float
      eqn:E.
    - assert (Hrf : is_finite (Inventory.reserved (Inventory.stock this))
                    = true)
        by (apply (leb_finite _ quantity); [apply ltb_leb, E | exact Hr
                                            | exact Hfin]).
      pose proof (sub_not_nan _ _ Hrn Hrf) as Hd.
      split; [exact Hrn|]. split; [exact Hd|].
      apply sub_nonneg; [exact Hr | apply leb_refl, Hrn | exact Hd].
    - pose proof (sub_not_nan _ _ Hrn Hfin) as Hd.
      split; [exact Hqn|]. split; [exact Hd|].
      apply sub_nonneg; [apply pos_nonneg, Hq | | exact Hd].
      apply not_ltb_leb; assumption. }
  destruct Hrel as (Hreln & Hdn & Hd).
  unfold InventoryModel.releaseReservedStock. cbn [ToNumber].
  fold released. rewrite (number_Some _ Hdn), (number_Some _ Hreln).
  match goal with |- context [Inventory_save now ?i] =>
    set (doc := i); assert (Hdoc : Inventory.validate doc = true) end.
  { apply validate_spec. subst doc. inv_simpl.
    rewrite forallb_snoc, Hm. auto. }
  exists (Inventory.pre_save now doc).
  rewrite (Inventory_save_ok now doc db Hdoc).
  destruct (pre_save_frame now doc) as (_ & -> & -> & _ & -> & ->).
  subst doc. inv_simpl. auto 10.
Qed.

(** C4, as the code has it.  For a stored, schema-valid item, an authorised
    caller and a finite number [quantity > 0], all arithmetic being that
    of binary64:
    - the model method never fails: it takes [min(quantity, stock.reserved)]
      off [stock.reserved], leaves [stock.current] alone and appends an
      ['in'] ledger entry of the released amount (an entry of quantity 0
      once nothing is reserved);
    - the endpoint refuses a quantity above [stock.reserved] with the 400
      response "Cannot release more than reserved quantity" and leaves the
      database unchanged, so that a release after [stock.reserved] reached
      zero has no effect at all; otherwise it stores the difference
      [stock.reserved - quantity]. *)
Theorem releaseReservedStock_clamped_below_the_endpoint `{JsRuntime}
    (now : Date) (user : User.t) (id : ObjectId) (quantity : float)
    (reason : string) (db : Db) (item : Inventory.t) :
  inventory db !! id = Some item ->
  Inventory._id item = id ->
  InventoryController.canAccess user item = true ->
  Inventory.validate item = true ->
  (0 <? quantity)%float = true ->
  is_finite quantity = true ->
  let res := Inventory.reserved (Inventory.stock item) in
  let entry q :=
    Inventory.mkMovement "in" q (String.append "Released: " reason)
      (User._id user) None None now in
  (exists saved,
     InventoryModel.releaseReservedStock now (JsNumber quantity) reason
       (User._id user) item db
     = (inr saved, set_inventory (<[id := saved]> (inventory db)) db)
     /\ Inventory.reserved (Inventory.stock saved)
        = (res - Math_min quantity res)%float
     /\ Inventory.current (Inventory.stock saved)
        = Inventory.current (Inventory.stock item)
     /\ Inventory.movements saved
        = Inventory.movements item ++ [entry (Math_min quantity res)])
  /\ ((res <? quantity)%float = true ->
      run (InventoryController.releaseReservedStock now user id
             (JsNumber quantity) reason) db
      = (Json 400 false "Cannot release more than reserved quantity", db))
  /\ ((res <? quantity)%float = false ->
      exists saved,
        run (InventoryController.releaseReservedStock now user id
               (JsNumber quantity) reason) db
        = (Json 200 true "Reserved stock released successfully",
           set_inventory (<[id := saved]> (inventory db)) db)
        /\ Inventory.reserved (Inventory.stock saved) = (res - quantity)%float
        /\ Inventory.current (Inventory.stock saved)
           = Inventory.current (Inventory.stock item)
        /\ Inventory.movements saved
           = Inventory.movements item ++ [entry quantity]).
Proof.
  intros Hitem Hid Hacc Hv Hq Hfin res entry.
  destruct (releaseReservedStock_model now quantity reason (User._id user)
              item db Hv Hq Hfin) as (saved & Hrun & Hr & Hc & Hm & _).
  rewrite Hid in Hrun.
  assert (Hctl : run (InventoryController.releaseReservedStock now user id
                        (JsNumber quantity) reason) db
                 = if (res <? quantity)%float
                   then (Json 400 false
                           "Cannot release more than reserved quantity", db)
                   else (Json 200 true "Reserved stock released successfully",
                         set_inventory (<[id := saved]> (inventory db)) db)).
  { unfold InventoryController.releaseReservedStock.
    erewrite run_bind_inr by (unfold Inventory_findById; reflexivity).
    rewrite Hitem, Hacc, (positive_passes_check _ Hq). cbn [negb ToNumber].
    fold res. destruct (res <? quantity)%float; [reflexivity|].
    rewrite (run_bind_inr _ _ _ _ _ Hrun). reflexivity. }
  split; [|split].
  - exists saved. subst res entry. auto.
  - intros Hlt. rewrite Hctl, Hlt. reflexivity.
  - intros Hle. exists saved. rewrite Hctl, Hle.
    pose proof Hv as (_ & Hres & _)%validate_spec.
    subst res entry. cbv beta. rewrite Hr, Hm.
    rewrite (Math_min_release _ _ Hq Hres), Hle. auto.
Qed.

(** Releasing 2 of the 3 reserved units of [item11]. *)
Lemma releaseReservedStock_clamped_below_the_endpoint_witness :
  inventory db0 !! 11%N = Some item11
  /\ InventoryController.canAccess retailer item11 = true
  /\ Inventory.validate item11 = true
  /\ exists saved,
       run (InventoryController.releaseReservedStock (H := numerals) 1000
              retailer 11 (JsNumber 2) "order 5") db0
       = (Json 200 true "Reserved stock released successfully",
          set_inventory (<[11%N := saved]> (inventory db0)) db0)
       /\ Inventory.reserved (Inventory.stock saved) = (3 - 2)%float.
Proof.
  split; [reflexivity|]. split; [reflexivity|]. split; [reflexivity|].
  pose proof (releaseReservedStock_clamped_below_the_endpoint (H := numerals)
                1000 retailer 11 2 "order 5" db0 item11 eq_refl eq_refl
                eq_refl eq_refl eq_refl eq_refl)
    as E.
  cbv zeta in E. destruct E as (_ & _ & E).
  destruct (E eq_refl) as (saved & Hrun & Hr & _).
  exists saved. split; [exact Hrun | exact Hr].
Defined.

(** C4 as stated fails at the endpoint: releasing 5 units of [item11],
    which has 3 reserved, is an error and releases nothing.  And the
    decrement is a binary64 one: releasing one unit of [2^53 + 2] reserved
    stores [2^53]. *)
Lemma releaseReservedStock_over_release_counterexample :
  (Inventory.reserved (Inventory.stock item11) = 3%float
   /\ run (InventoryController.releaseReservedStock (H := numerals) 1000
             retailer 11 (JsNumber 5) "order 5") db0
      = (Json 400 false "Cannot release more than reserved quantity", db0))
  /\ let item :=
       Inventory.mk 12 3
         (Inventory.mkStock 18014398509481984 9007199254740994
            9007199254740990 0) "active" []
         (Inventory.mkAnalytics 0 0 None) (Inventory.mkAudit None 1) in
     exists saved db',
       InventoryModel.releaseReservedStock (H := numerals) 1000 (JsNumber 1)
         "order 7" 3 item db0 = (inr saved, db')
       /\ Inventory.reserved (Inventory.stock saved)
          = 9007199254740992%float.
Proof.
  split; [split; reflexivity|].
  intros item. eexists. eexists. split; [vm_compute; reflexivity|].
  reflexivity.
Qed.

(** ** Order lifecycle *)

Ltac ord_simpl :=
  cbn [Order._id Order.customer Order.assignedDriver Order.assignedVehicle
       Order.status Order.cargo Order.totalAmount Order.tracking
       Order.cancellation Order.statusHistory Order.actualDeliveryTime
       Order.lastKnownLocation Order.set_assignedDriver
       Order.set_assignedVehicle Order.set_status Order.set_cargo
       Order.set_tracking Order.set_cancellation Order.push_statusHistory
       Order.set_actualDeliveryTime Order.set_lastKnownLocation] in *.

(** The [pre('save')] hook of a stored order touches the cargo only. *)
Lemma Order_pre_save_frame o :
  Order._id (Order.pre_save o) = Order._id o
  /\ Order.customer (Order.pre_save o) = Order.customer o
  /\ Order.assignedDriver (Order.pre_save o) = Order.assignedDriver o
  /\ Order.assignedVehicle (Order.pre_save o) = Order.assignedVehicle o
  /\ Order.status (Order.pre_save o) = Order.status o
  /\ Order.totalAmount (Order.pre_save o) = Order.totalAmount o
  /\ Order.tracking (Order.pre_save o) = Order.tracking o
  /\ Order.cancellation (Order.pre_save o) = Order.cancellation o.
Proof.
  unfold Order.pre_save.
  destruct (negb _ && _); ord_simpl; auto 10.
Qed.

Lemma Order_save_ok o db :
  Order.validate o = true ->
  Order_save o db
  = (inr (Order.pre_save o),
     set_orders (<[Order._id o := Order.pre_save o]> (orders db)) db).
Proof.
  intros Hv. unfold Order_save. rewrite Hv.
  destruct (Order_pre_save_frame o) as (-> & _). reflexivity.
Qed.

Lemma Order_save_invalid o db :
  Order.validate o = false ->
  Order_save o db = (inl (NextError "ValidationError"), db).
Proof. intros Hv. unfold Order_save. rewrite Hv. reflexivity. Qed.

(** C1, as the code has it.  [updateOrderStatus] consults no lifecycle
    table.  For a stored order and an authorised caller, every status of
    the schema's enumeration is accepted whatever the current status: the
    status is set, one history entry (status, timestamp, location, actor,
    notes, not automatic) is appended, the last known location follows a
    given location, and the actual delivery time is recorded when the new
    status is ['delivered'].  A status outside the enumeration is rejected
    by the schema validation and nothing is written. *)
Theorem updateOrderStatus_sets_any_schema_status
    (now : Date) (user : User.t) (id : ObjectId) (status : string)
    (notes : option string) (location : option Location) (db : Db)
    (order : Order.t) :
  orders db !! id = Some order ->
  Order._id order = id ->
  OrdersController.canUpdate user order = true ->
  let result :=
    run (OrdersController.updateOrderStatus now user id status notes location)
        db in
  (includes Order.status_enum status = true ->
   exists order',
     result = (Json 200 true "Order status updated successfully",
               set_orders (<[id := order']> (orders db)) db)
     /\ Order.status order' = status
     /\ Order.statusHistory (Order.tracking order')
        = Order.statusHistory (Order.tracking order)
          ++ [Order.mkStatusUpdate status now location (Some (User._id user))
                notes false]
     /\ Order.lastKnownLocation (Order.tracking order')
        = match location with
          | Some l => Some (l, now)
          | None => Order.lastKnownLocation (Order.tracking order)
          end
     /\ Order.actualDeliveryTime (Order.tracking order')
        = (if String.eqb status "delivered" then Some now
           else Order.actualDeliveryTime (Order.tracking order)))
  /\ (includes Order.status_enum status = false ->
      result = (NextError "ValidationError", db)).
Proof.
  intros Horder Hid Hcan result. subst result.
  unfold OrdersController.updateOrderStatus.
  erewrite run_bind_inr by (unfold Order_findById; reflexivity).
  rewrite Horder, Hcan. cbn [negb].
  unfold OrderModel.updateStatus.
  match goal with |- context [Order_save ?o] =>
    set (doc := o);
    assert (Hst : Order.status doc = status)
      by (subst doc; destruct location, (String.eqb status "delivered");
          reflexivity);
    assert (Hdid : Order._id doc = id)
      by (subst doc; destruct location, (String.eqb status "delivered");
          exact Hid)
  end.
  split; intros Hen.
  - exists (Order.pre_save doc).
    assert (Hv : Order.validate doc = true)
      by (unfold Order.validate; rewrite Hst; exact Hen).
    rewrite (run_bind_inr _ _ _ _ _ (Order_save_ok doc db Hv)), Hdid.
    split; [reflexivity|].
    destruct (Order_pre_save_frame doc) as (_ & _ & _ & _ & -> & _ & -> & _).
    split; [exact Hst|].
    subst doc. destruct location, (String.eqb status "delivered");
      ord_simpl; auto.
  - assert (Hv : Order.validate doc = false)
      by (unfold Order.validate; rewrite Hst; exact Hen).
    rewrite (run_bind_inl _ _ _ _ _ (Order_save_invalid doc db Hv)).
    reflexivity.
Qed.

(** The admin moves the pending [order20] to ['confirmed']. *)
Lemma updateOrderStatus_sets_any_schema_status_witness :
  orders db0 !! 20%N = Some order20
  /\ OrdersController.canUpdate admin order20 = true
  /\ exists order',
       run (OrdersController.updateOrderStatus 1000 admin 20 "confirmed"
              (Some "checked") None) db0
       = (Json 200 true "Order status updated successfully",
          set_orders (<[20%N := order']> (orders db0)) db0)
       /\ Order.status order' = "confirmed".
Proof.
  split; [reflexivity|]. split; [reflexivity|].
  pose proof (updateOrderStatus_sets_any_schema_status 1000 admin 20
                "confirmed" (Some "checked") None db0 order20
                eq_refl eq_refl eq_refl) as H.
  cbv zeta in H. destruct H as (H & _).
  destruct (H eq_refl) as (order' & Hrun & Hst & _).
  exists order'. split; [exact Hrun | exact Hst].
Defined.

(** C1 as stated fails: the admin moves the delivered [order21] back to
    ['pending'], out of a terminal status; the request succeeds and the
    stored order is pending again. *)
Lemma updateOrderStatus_out_of_delivered_counterexample :
  Order.status order21 = "delivered"
  /\ exists order',
       run (OrdersController.updateOrderStatus 1000 admin 21 "pending" None
              None) db0
       = (Json 200 true "Order status updated successfully",
          set_orders (<[21%N := order']> (orders db0)) db0)
       /\ Order.status order' = "pending"
       /\ Order.statusHistory (Order.tracking order')
          = [Order.mkStatusUpdate "pending" 1000 None (Some 1%N) None false].
Proof.
  split; [reflexivity|]. eexists. split; [vm_compute; reflexivity|].
  split; reflexivity.
Qed.

(** ** Assignment *)

Lemma Vehicle_save_unmodified_trips now v db :
  Vehicle.validate v = true ->
  Vehicle_save now false v db
  = (inr v, set_vehicles (<[Vehicle._id v := v]> (vehicles db)) db).
Proof. intros Hv. unfold Vehicle_save. rewrite Hv. reflexivity. Qed.

(** The order method [assignDriverAndVehicle] always passes validation. *)
Lemma assignDriverAndVehicle_model now driverId vehicleId this db :
  exists saved,
    OrderModel.assignDriverAndVehicle now driverId vehicleId this db
    = (inr saved, set_orders (<[Order._id this := saved]> (orders db)) db)
    /\ Order.status saved = "assigned"
    /\ Order.assignedDriver saved = Some driverId
    /\ Order.assignedVehicle saved = Some vehicleId
    /\ Order.statusHistory (Order.tracking saved)
       = Order.statusHistory (Order.tracking this)
         ++ [Order.mkStatusUpdate "assigned" now None None None true].
Proof.
  unfold OrderModel.assignDriverAndVehicle.
  match goal with |- context [Order_save ?o] => set (doc := o) end.
  exists (Order.pre_save doc).
  rewrite (Order_save_ok doc db eq_refl).
  destruct (Order_pre_save_frame doc) as (_ & _ & -> & -> & -> & _ & -> & _).
  subst doc. ord_simpl. auto 10.
Qed.

(** The part of [assignOrder] that follows the lookup of the order. *)
Lemma assignOrder_found now id driverId vehicleId db order :
  orders db !! id = Some order ->
  run (OrdersController.assignOrder now id driverId vehicleId) db
  = match users db !! driverId with
    | None => (Json 400 false "Invalid driver selected", db)
    | Some driver =>
      if negb (String.eqb (User.role driver) "driver")
      then (Json 400 false "Invalid driver selected", db)
      else
        match vehicles db !! vehicleId with
        | None => (Json 400 false "Vehicle is not available", db)
        | Some vehicle =>
          if negb (String.eqb (Vehicle.status vehicle) "available")
          then (Json 400 false "Vehicle is not available", db)
          else if Order.totalWeight (Order.cargo order)
                  >? Vehicle.capacity_weight vehicle
          then (Json 400 false "Vehicle capacity insufficient for this order",
                db)
          else
            run (OrderModel.assignDriverAndVehicle now driverId vehicleId order
                 ≫= fun _ =>
                 Vehicle_save now false
                   (Vehicle.set_assignedDriver (Some driverId)
                      (Vehicle.set_status "assigned" vehicle))
                 ≫= fun _ => respond 200 true "Order assigned successfully")
                db
        end
    end.
Proof.
  intros Horder. unfold OrdersController.assignOrder.
  erewrite run_bind_inr by (unfold Order_findById; reflexivity).
  rewrite Horder.
  erewrite run_bind_inr by (unfold User_findById; reflexivity).
  destruct (users db !! driverId) as [driver|]; [|reflexivity].
  destruct (negb (String.eqb (User.role driver) "driver")); [reflexivity|].
  erewrite run_bind_inr by (unfold Vehicle_findById; reflexivity).
  destruct (vehicles db !! vehicleId) as [vehicle|]; [|reflexivity].
  destruct (negb (String.eqb (Vehicle.status vehicle) "available"));
    [reflexivity|].
  destruct (Order.totalWeight (Order.cargo order)
            >? Vehicle.capacity_weight vehicle); reflexivity.
Qed.

(** When every check of [assignOrder] passes, the order is saved as
    assigned, and then saving the vehicle with the status ['assigned'],
    which the vehicle schema does not list, is rejected: the request ends
    in the error handler and the vehicle is not written. *)
Lemma assignOrder_vehicle_write_rejected now id driverId vehicleId db order
    driver vehicle :
  orders db !! id = Some order ->
  Order._id order = id ->
  users db !! driverId = Some driver ->
  User.role driver = "driver" ->
  vehicles db !! vehicleId = Some vehicle ->
  Vehicle.status vehicle = "available" ->
  Order.totalWeight (Order.cargo order) <= Vehicle.capacity_weight vehicle ->
  exists order',
    run (OrdersController.assignOrder now id driverId vehicleId) db
    = (NextError "ValidationError",
       set_orders (<[id := order']> (orders db)) db)
    /\ Order.status order' = "assigned"
    /\ Order.assignedDriver order' = Some driverId
    /\ Order.assignedVehicle order' = Some vehicleId
    /\ Order.statusHistory (Order.tracking order')
       = Order.statusHistory (Order.tracking order)
         ++ [Order.mkStatusUpdate "assigned" now None None None true].
Proof.
  intros Horder Hid Hdriver Hrole Hvehicle Hstatus Hweight.
  rewrite (assignOrder_found _ _ _ _ _ _ Horder), Hdriver, Hrole, Hvehicle,
    Hstatus.
  cbn [String.eqb Ascii.eqb Bool.eqb negb].
  replace (Order.totalWeight (Order.cargo order)
           >? Vehicle.capacity_weight vehicle) with false by lia.
  destruct (assignDriverAndVehicle_model now driverId vehicleId order db)
    as (saved & Hrun & Hrest).
  rewrite Hid in Hrun. exists saved. split; [|exact Hrest].
  rewrite (run_bind_inr _ _ _ _ _ Hrun).
  apply run_bind_inl. reflexivity.
Qed.

(** The guards of [assignOrder], which look at the driver, the vehicle
    and the weight, never at the order's status, and what is written to
    the order.  For a stored order:
    - a missing driver, or a user who is not a driver, is refused (400,
      "Invalid driver selected");
    - a missing vehicle, or one whose status is not ['available'], is
      refused (400, "Vehicle is not available");
    - [order.cargo.totalWeight > vehicle.capacity.weight] is refused (400,
      "Vehicle capacity insufficient for this order");
    and in each of these cases neither the order nor the vehicle changes;
    - otherwise, whatever the order's current status, the order is stored
      with status ['assigned'], the driver and the vehicle set, and one
      automatic history entry appended. *)
Lemma assignOrder_guards_and_order_effect
    (now : Date) (id driverId vehicleId : ObjectId) (db : Db)
    (order : Order.t) :
  orders db !! id = Some order ->
  Order._id order = id ->
  let result := run (OrdersController.assignOrder now id driverId vehicleId) db in
  (validDriver db driverId = false ->
   result = (Json 400 false "Invalid driver selected", db))
  /\ (validDriver db driverId = true ->
      vehicleAvailable db vehicleId = false ->
      result = (Json 400 false "Vehicle is not available", db))
  /\ (forall vehicle,
        validDriver db driverId = true ->
        vehicleAvailable db vehicleId = true ->
        vehicles db !! vehicleId = Some vehicle ->
        (Vehicle.capacity_weight vehicle
           < Order.totalWeight (Order.cargo order) ->
         result
         = (Json 400 false "Vehicle capacity insufficient for this order", db))
        /\ (Order.totalWeight (Order.cargo order)
              <= Vehicle.capacity_weight vehicle ->
            exists order',
              orders (snd result) !! id = Some order'
              /\ Order.status order' = "assigned"
              /\ Order.assignedDriver order' = Some driverId
              /\ Order.assignedVehicle order' = Some vehicleId
              /\ Order.statusHistory (Order.tracking order')
                 = Order.statusHistory (Order.tracking order)
                   ++ [Order.mkStatusUpdate "assigned" now None None None
                         true])).
Proof.
  intros Horder Hid result. subst result.
  unfold validDriver, vehicleAvailable.
  split; [|split].
  - intros Hd. rewrite (assignOrder_found _ _ _ _ _ _ Horder).
    destruct (users db !! driverId) as [driver|]; [|reflexivity].
    rewrite Hd. reflexivity.
  - intros Hd Hv. rewrite (assignOrder_found _ _ _ _ _ _ Horder).
    destruct (users db !! driverId) as [driver|]; [|discriminate].
    rewrite Hd. cbn [negb].
    destruct (vehicles db !! vehicleId) as [vehicle|]; [|reflexivity].
    rewrite Hv. reflexivity.
  - intros vehicle Hd Hv Hvehicle.
    destruct (users db !! driverId) as [driver|] eqn:Hdriver; [|discriminate].
    rewrite Hvehicle in Hv.
    apply String.eqb_eq in Hd, Hv.
    split.
    + intros Hlt.
      rewrite (assignOrder_found _ _ _ _ _ _ Horder), Hdriver, Hd, Hvehicle, Hv.
      cbn [String.eqb Ascii.eqb Bool.eqb negb].
      replace (Order.totalWeight (Order.cargo order)
               >? Vehicle.capacity_weight vehicle) with true by lia.
      reflexivity.
    + intros Hle.
      destruct (assignOrder_vehicle_write_rejected now id driverId vehicleId
                  db order driver vehicle Horder Hid Hdriver Hd Hvehicle Hv Hle)
        as (order' & -> & Hrest).
      exists order'. split; [apply lookup_insert_eq | exact Hrest].
Qed.

(** The spec's example: [order20] weighs 1200 kg and [vehicle30] carries
    1000 kg. *)
Lemma assignOrder_guards_and_order_effect_witness :
  orders db0 !! 20%N = Some order20
  /\ validDriver db0 2 = true
  /\ vehicleAvailable db0 30 = true
  /\ Vehicle.capacity_weight vehicle30 = 1000
  /\ Order.totalWeight (Order.cargo order20) = 1200
  /\ run (OrdersController.assignOrder 1000 20 2 30) db0
     = (Json 400 false "Vehicle capacity insufficient for this order", db0).
Proof.
  repeat (split; [reflexivity|]).
  pose proof (assignOrder_guards_and_order_effect 1000 20 2 30 db0 order20
                eq_refl eq_refl) as H.
  cbv zeta in H. destruct H as (_ & _ & H).
  destruct (H vehicle30 eq_refl eq_refl eq_refl) as (Hcap & _).
  apply Hcap. cbn. lia.
Defined.

(** The order's status is not among the guards: [order21] is delivered,
    the driver and the available [vehicle30] are fine, the order is stored
    as assigned, and the request ends in the error handler as above. *)
Lemma assignOrder_delivered_order :
  Order.status order21 = "delivered"
  /\ fst (run (OrdersController.assignOrder 1000 21 2 30) db0)
     = NextError "ValidationError"
  /\ exists order',
       orders (snd (run (OrdersController.assignOrder 1000 21 2 30) db0))
         !! 21%N = Some order'
       /\ Order.status order' = "assigned"
       /\ Order.assignedDriver order' = Some 2%N
       /\ Order.assignedVehicle order' = Some 30%N.
Proof.
  split; [reflexivity|]. split; [reflexivity|].
  eexists. split; [vm_compute; reflexivity|].
  repeat split; reflexivity.
Qed.

(** C5.  The code at an input where every precondition of the claim
    holds: the admin assigns the pending [order23] of 100 kg to user 2, a
    driver, and to [vehicle30], which is available and carries 1000 kg.
    The order is stored as assigned, with the driver, the vehicle and the
    automatic history entry.  The vehicle is then given the status
    ['assigned'], which the [enum] of the vehicle schema does not list:
    its [save()] is rejected, the request ends in the error handler
    instead of the 200 response, and the stored vehicle is still
    available, without a driver. *)
Theorem assignOrder_vehicle_status_outside_enum :
  Order.status order23 = "pending"
  /\ validDriver db1 2 = true
  /\ vehicleAvailable db1 30 = true
  /\ Order.totalWeight (Order.cargo order23)
     <= Vehicle.capacity_weight vehicle30
  /\ includes Vehicle.status_enum "assigned" = false
  /\ let result := run (Router.assignOrder 1000 admin 23 2 30) db1 in
     fst result = NextError "ValidationError"
     /\ vehicles (snd result) !! 30%N = Some vehicle30
     /\ Vehicle.status vehicle30 = "available"
     /\ Vehicle.assignedDriver vehicle30 = None
     /\ exists order',
          orders (snd result) !! 23%N = Some order'
          /\ Order.status order' = "assigned"
          /\ Order.assignedDriver order' = Some 2%N
          /\ Order.assignedVehicle order' = Some 30%N
          /\ Order.statusHistory (Order.tracking order')
             = [Order.mkStatusUpdate "assigned" 1000 None None None true].
Proof.
  split; [reflexivity|]. split; [reflexivity|]. split; [reflexivity|].
  split; [cbn; lia|]. split; [reflexivity|].
  cbv zeta. split; [reflexivity|]. split; [reflexivity|].
  split; [reflexivity|]. split; [reflexivity|].
  eexists. split; [vm_compute; reflexivity|].
  repeat split; reflexivity.
Qed.

(** ** Cancellation *)

(** The order method [cancelOrder] always passes validation. *)
Lemma cancelOrder_model now reason cancelledBy refundAmount this db :
  exists saved,
    OrderModel.cancelOrder now reason cancelledBy refundAmount this db
    = (inr saved, set_orders (<[Order._id this := saved]> (orders db)) db)
    /\ Order.status saved = "cancelled"
    /\ Order.cancellation saved
       = Some (Order.mkCancellation now cancelledBy reason refundAmount
                 (if refundAmount >? 0 then Some "pending" else None))
    /\ Order.statusHistory (Order.tracking saved)
       = Order.statusHistory (Order.tracking this)
         ++ [Order.mkStatusUpdate "cancelled" now None (Some cancelledBy)
               reason false]
    /\ Order.assignedVehicle saved = Order.assignedVehicle this
    /\ Order.assignedDriver saved = Order.assignedDriver this.
Proof.
  unfold OrderModel.cancelOrder.
  match goal with |- context [Order_save ?o] => set (doc := o) end.
  exists (Order.pre_save doc).
  rewrite (Order_save_ok doc db eq_refl).
  destruct (Order_pre_save_frame doc) as (_ & _ & -> & -> & -> & _ & -> & ->).
  subst doc. ord_simpl. auto 10.
Qed.

(** C6.  For a stored order and an authorised caller, [cancelOrder]
    - answers 400 "Cannot cancel order with current status" and changes
      nothing when the status is ['delivered'] or ['cancelled'];
    - otherwise succeeds: the order is stored as ['cancelled'] with the
      cancellation record (time, actor, reason, refund) and one history
      entry, where the refund is [pricing.totalAmount] if the status was
      ['pending'] and 0 in every other status; and if the order was bound
      to a stored vehicle, that vehicle is stored with status
      ['available'] and no assigned driver, the other vehicles being left
      alone. *)
Theorem cancelOrder_refund_and_release
    (now : Date) (user : User.t) (id : ObjectId) (reason : option string)
    (db : Db) (order : Order.t) :
  orders db !! id = Some order ->
  Order._id order = id ->
  OrdersController.canCancel user order = true ->
  boundVehicleKeyed db order ->
  let result := run (OrdersController.cancelOrder now user id reason) db in
  let refund :=
    if String.eqb (Order.status order) "pending"
    then Order.totalAmount order else 0 in
  ((Order.status order = "delivered" \/ Order.status order = "cancelled") ->
   result = (Json 400 false "Cannot cancel order with current status", db))
  /\ (Order.status order <> "delivered" ->
      Order.status order <> "cancelled" ->
      fst result = Json 200 true "Order cancelled successfully"
      /\ (exists order',
            orders (snd result) !! id = Some order'
            /\ Order.status order' = "cancelled"
            /\ Order.cancellation order'
               = Some (Order.mkCancellation now (User._id user) reason refund
                         (if refund >? 0 then Some "pending" else None))
            /\ Order.statusHistory (Order.tracking order')
               = Order.statusHistory (Order.tracking order)
                 ++ [Order.mkStatusUpdate "cancelled" now None
                       (Some (User._id user)) reason false])
      /\ match Order.assignedVehicle order with
         | Some vehicleId =>
             match vehicles db !! vehicleId with
             | Some vehicle =>
                 vehicles (snd result)
                 = <[vehicleId :=
                       Vehicle.set_assignedDriver None
                         (Vehicle.set_status "available" vehicle)]>
                     (vehicles db)
             | None => vehicles (snd result) = vehicles db
             end
         | None => vehicles (snd result) = vehicles db
         end).
Proof.
  intros Horder Hid Hcan Hkey result refund. subst result.
  unfold OrdersController.cancelOrder.
  erewrite run_bind_inr by (unfold Order_findById; reflexivity).
  rewrite Horder, Hcan. cbn [negb].
  split.
  - intros [-> | ->]; reflexivity.
  - intros Hnd Hnc.
    replace (includes ["delivered"; "cancelled"] (Order.status order))
      with false.
    2:{ symmetry. apply not_true_is_false. intros H%includes_In.
        cbn in H. intuition congruence. }
    fold refund.
    destruct (cancelOrder_model now reason (User._id user) refund order db)
      as (saved & Hrun & Hst & Hcn & Hh & Hav & _).
    rewrite Hid in Hrun.
    rewrite (run_bind_inr _ _ _ _ _ Hrun), Hav.
    unfold boundVehicleKeyed in Hkey.
    assert (Hsaved :
      exists order',
        <[id := saved]> (orders db) !! id = Some order'
        /\ Order.status order' = "cancelled"
        /\ Order.cancellation order'
           = Some (Order.mkCancellation now (User._id user) reason refund
                     (if refund >? 0 then Some "pending" else None))
        /\ Order.statusHistory (Order.tracking order')
           = Order.statusHistory (Order.tracking order)
             ++ [Order.mkStatusUpdate "cancelled" now None
                   (Some (User._id user)) reason false])
      by (exists saved; rewrite lookup_insert_eq; auto).
    unfold run, mbind, handler_bind, Vehicle_findById, mret, handler_ret,
      respond.
    destruct (Order.assignedVehicle order) as [vehicleId|];
      [cbn [vehicles set_orders];
       destruct (vehicles db !! vehicleId) as [vehicle|]|].
    + rewrite Vehicle_save_unmodified_trips by reflexivity.
      cbn [Vehicle._id Vehicle.set_assignedDriver Vehicle.set_status].
      rewrite Hkey. cbn. auto.
    + cbn. auto.
    + cbn. auto.
Qed.

(** The spec's example: the retailer cancels the pending [order22], which
    is worth 115 and bound to [vehicle31]. *)
Lemma cancelOrder_refund_and_release_witness :
  orders db0 !! 22%N = Some order22
  /\ OrdersController.canCancel retailer order22 = true
  /\ boundVehicleKeyed db0 order22
  /\ (let result :=
        run (OrdersController.cancelOrder 1000 retailer 22 (Some "too late"))
            db0 in
      fst result = Json 200 true "Order cancelled successfully"
      /\ (exists order' c,
            orders (snd result) !! 22%N = Some order'
            /\ Order.cancellation order' = Some c
            /\ Order.refundAmount c = 115)
      /\ vehicles (snd result)
         = <[31%N := Vehicle.mk 31 "available" None 1000 noTrips 0]>
             (vehicles db0)).
Proof.
  assert (Hkey : boundVehicleKeyed db0 order22) by (vm_compute; reflexivity).
  split; [reflexivity|]. split; [reflexivity|]. split; [exact Hkey|].
  pose proof (cancelOrder_refund_and_release 1000 retailer 22
                (Some "too late") db0 order22 eq_refl eq_refl eq_refl Hkey)
    as H.
  cbv zeta in H. destruct H as (_ & H).
  destruct H as (Hres & (order' & Ho & _ & Hc & _) & Hv);
    [discriminate | discriminate |].
  cbv zeta. split; [exact Hres|]. split.
  - eexists order', _. split; [exact Ho|]. split; [exact Hc|]. reflexivity.
  - exact Hv.
Defined.

(** Cancelling the delivered [order21] is refused. *)
Lemma cancelOrder_delivered_refused :
  run (OrdersController.cancelOrder 1000 admin 21 None) db0
  = (Json 400 false "Cannot cancel order with current status", db0).
Proof. reflexivity. Qed.

(** ** Route optimisation *)

Lemma optimizeWaypoints_eq waypoints :
  RoutesController.optimizeWaypoints waypoints
  = imap (fun index waypoint =>
            RoutesController.set_order (Z.of_nat index + 1)
              (RoutesController.spread waypoint))
         (grouped waypoints).
Proof. reflexivity. Qed.

(** Every waypoint falls in exactly one of the three groups. *)
Lemma group_cases w :
  (RoutesController.isPickup w = true
   /\ RoutesController.isDelivery w = false
   /\ RoutesController.isOther w = false)
  \/ (RoutesController.isPickup w = false
      /\ RoutesController.isDelivery w = true
      /\ RoutesController.isOther w = false)
  \/ (RoutesController.isPickup w = false
      /\ RoutesController.isDelivery w = false
      /\ RoutesController.isOther w = true).
Proof.
  unfold RoutesController.isPickup, RoutesController.isDelivery,
    RoutesController.isOther, includes. cbn [existsb].
  destruct (String.eqb_spec (Route.type w) "pickup") as [Hp|Hp];
    destruct (String.eqb_spec (Route.type w) "delivery") as [Hd|Hd];
    cbn; auto.
  rewrite Hp in Hd. discriminate.
Qed.

(** Grouping reorders and neither drops nor repeats a waypoint. *)
Lemma grouped_perm l : grouped l ≡ₚ l.
Proof.
  unfold grouped. induction l as [|w l IH]; [reflexivity|].
  cbn [List.filter].
  destruct (group_cases w) as [(->&->&->)|[(->&->&->)|(->&->&->)]].
  - cbn. constructor. exact IH.
  - cbn [app]. rewrite <- Permutation_middle. constructor. exact IH.
  - rewrite (app_assoc _ _ (w :: _)), <- Permutation_middle, <- app_assoc.
    constructor. exact IH.
Qed.

Lemma optimizeWaypoints_length waypoints :
  length (RoutesController.optimizeWaypoints waypoints) = length waypoints.
Proof.
  rewrite optimizeWaypoints_eq, length_imap.
  apply Permutation_length, grouped_perm.
Qed.

(** What the copies hold: the subdocument they were spread from, under
    [_doc], and the new index, and neither a [type] nor a [location]. *)
Lemma optimizeWaypoints_copies waypoints :
  let out := RoutesController.optimizeWaypoints waypoints in
  RoutesController._doc <$> out = Some <$> grouped waypoints
  /\ RoutesController.order <$> out
     = (fun n => Some (Z.of_nat n)) <$> seq 1 (length waypoints)
  /\ Forall (fun o => RoutesController.location o = None
                      /\ RoutesController.type o = None) out.
Proof.
  cbv zeta. rewrite optimizeWaypoints_eq.
  rewrite <- (Permutation_length (grouped_perm waypoints)).
  generalize (grouped waypoints) as l. intros l.
  split; [|split].
  - rewrite fmap_imap.
    rewrite (imap_ext _ (fun _ w => Some w)) by reflexivity.
    induction l as [|w l IH]; [reflexivity|]. cbn. f_equal. exact IH.
  - rewrite fmap_imap.
    rewrite (imap_ext _ (fun i _ => Some (Z.of_nat (S i)))).
    + rewrite (imap_seq_0 l (fun i => Some (Z.of_nat (S i)))).
      rewrite <- fmap_S_seq, <- list_fmap_compose. reflexivity.
    + intros i w _. cbn. f_equal. lia.
  - apply List.Forall_forall. intros o Ho.
    apply list_elem_of_In, elem_of_lookup_imap in Ho as (i & w & -> & _).
    split; reflexivity.
Qed.

(** The loop of [calculateRouteMetrics] throws on the first leg whose
    start has no [location]. *)
Lemma calculateRouteMetrics_without_location
    (Math_sin Math_cos : float -> float) (Math_atan2 : float -> float -> float)
    current next rest :
  RoutesController.location current = None ->
  RoutesController.calculateRouteMetrics Math_sin Math_cos Math_atan2
    (current :: next :: rest) = None.
Proof.
  intros E. unfold RoutesController.calculateRouteMetrics.
  cbn [RoutesController.sumLegs]. rewrite E. reflexivity.
Qed.

(** So it throws on the optimised waypoints of every route with two
    waypoints or more. *)
Lemma calculateRouteMetrics_optimized_throws
    (Math_sin Math_cos : float -> float) (Math_atan2 : float -> float -> float)
    waypoints :
  (2 <= length waypoints)%nat ->
  RoutesController.calculateRouteMetrics Math_sin Math_cos Math_atan2
    (RoutesController.optimizeWaypoints waypoints) = None.
Proof.
  intros Hlen. rewrite <- optimizeWaypoints_length in Hlen.
  destruct (optimizeWaypoints_copies waypoints) as (_ & _ & Hall).
  cbv zeta in Hall.
  destruct (RoutesController.optimizeWaypoints waypoints) as [|o [|o' l]];
    [cbn in Hlen; lia | cbn in Hlen; lia |].
  apply calculateRouteMetrics_without_location.
  apply List.Forall_inv in Hall. apply Hall.
Qed.

(** C7.  What [optimizeWaypoints] returns for the waypoints of a stored
    route.  The objects come in the order pickups, deliveries, others,
    each group in the order of the input, and are numbered 1, ..., n; but
    each is a spread copy of a Mongoose subdocument, which holds the
    waypoint under [_doc] and has neither a [type] nor a [location] of
    its own.  On [waypoints40], stops 403 and 405 (pickups), 401 and 404
    (deliveries) and the fuel stop 402 come out as five such objects. *)
Theorem optimizeWaypoints_returns_copies_without_paths :
  (forall waypoints : list Route.Waypoint,
     let out := RoutesController.optimizeWaypoints waypoints in
     RoutesController._doc <$> out
     = Some <$> (List.filter RoutesController.isPickup waypoints
                 ++ List.filter RoutesController.isDelivery waypoints
                 ++ List.filter RoutesController.isOther waypoints)
     /\ RoutesController.order <$> out
        = (fun n => Some (Z.of_nat n)) <$> seq 1 (length waypoints)
     /\ Forall (fun o => RoutesController.location o = None
                         /\ RoutesController.type o = None) out)
  /\ RoutesController.optimizeWaypoints waypoints40
     = [RoutesController.mkWaypointObject None None (Some 1)
          (Some (waypointAt 403 3 "pickup" 7 4));
        RoutesController.mkWaypointObject None None (Some 2)
          (Some (waypointAt 405 5 "pickup" 8 5));
        RoutesController.mkWaypointObject None None (Some 3)
          (Some (waypointAt 401 1 "delivery" 6.5 3.25));
        RoutesController.mkWaypointObject None None (Some 4)
          (Some (waypointAt 404 4 "delivery" 7.5 4.5));
        RoutesController.mkWaypointObject None None (Some 5)
          (Some (waypointAt 402 2 "fuel-stop" 6.75 3.5))].
Proof.
  split; [|reflexivity].
  intros waypoints. apply optimizeWaypoints_copies.
Qed.

(** C8.  The code at [route40], whose five waypoints are stored and
    schema-valid: [calculateRouteMetrics] throws on the output of
    [optimizeWaypoints], since the copies have no [location]; no distance,
    duration or fuel cost is computed, and the request of the admin to
    optimise the route ends in the error handler with nothing written.
    This holds whatever the trigonometric functions compute and whatever
    Mongoose would make of the copies. *)
Theorem optimizeRoute_route40_TypeError
    (Math_sin Math_cos : float -> float) (Math_atan2 : float -> float -> float)
    (castWaypoint : RoutesController.WaypointObject -> option Route.Waypoint) :
  routes db0 !! 40%N = Some route40
  /\ Route.validate route40 = true
  /\ RoutesController.calculateRouteMetrics Math_sin Math_cos Math_atan2
       (RoutesController.optimizeWaypoints (Route.waypoints route40)) = None
  /\ run (Router.optimizeRoute Math_sin Math_cos Math_atan2 castWaypoint
            admin 40) db0
     = (NextError "TypeError", db0).
Proof.
  split; [reflexivity|]. split; [reflexivity|]. split; reflexivity.
Qed.

(** ** Route completion *)

Ltac route_simpl :=
  cbn [Route._id Route.createdBy Route.assignedDriver Route.assignedVehicle
       Route.status Route.waypoints Route.optimization Route.scheduling
       Route.metrics Route.completion Route.plannedStartTime
       Route.plannedEndTime Route.actualStartTime Route.actualEndTime
       Route.actualDistance Route.actualDuration Route.fuelConsumed
       Route.delayTime Route.set_status Route.set_waypoints
       Route.set_optimization Route.set_scheduling Route.set_metrics
       Route.set_completion Route.set_actualStartTime Route.set_actualEndTime
       Route.set_actualDuration Route.set_delayTime] in *.

Lemma Route_save_ok r db :
  Route.validate r = true ->
  Route_save r db = (inr r, set_routes (<[Route._id r := r]> (routes db)) db).
Proof. intros Hv. unfold Route_save. rewrite Hv. reflexivity. Qed.

Lemma Route_validate_spec r :
  Route.validate r = true <->
  includes Route.status_enum (Route.status r) = true
  /\ forallb Route.waypoint_valid (Route.waypoints r) = true.
Proof. unfold Route.validate. apply andb_true_iff. Qed.

(** [floor_minutes] counts the whole minutes of a duration. *)
Lemma floor_minutes_whole ms :
  floor_minutes ms * 60000 <= ms < (floor_minutes ms + 1) * 60000.
Proof.
  unfold floor_minutes. change (1000 * 60) with 60000.
  pose proof (Z.div_mod ms 60000 ltac:(lia)).
  pose proof (Z.mod_pos_bound ms 60000 ltac:(lia)). lia.
Qed.

(** The route method [completeRoute] on a schema-valid route. *)
Lemma completeRoute_model now notes issues this db :
  Route.validate this = true ->
  exists saved,
    RouteModel.completeRoute now notes issues this db
    = (inr saved, set_routes (<[Route._id this := saved]> (routes db)) db)
    /\ Route.status saved = "completed"
    /\ Route.actualEndTime (Route.scheduling saved) = Some now
    /\ Route.completion saved = Route.mkCompletion (Some now) notes issues
    /\ Route.assignedVehicle saved = Route.assignedVehicle this
    /\ Route.metrics saved
       = match Route.actualStartTime (Route.scheduling this) with
         | Some start =>
             let actualDuration := floor_minutes (now - start) in
             let plannedDuration :=
               floor_minutes
                 (Route.plannedEndTime (Route.scheduling this)
                  - Route.plannedStartTime (Route.scheduling this)) in
             Route.mkMetrics
               (Route.actualDistance (Route.metrics this))
               (Some actualDuration)
               (Route.fuelConsumed (Route.metrics this))
               (Some (Z.max 0 (actualDuration - plannedDuration)))
         | None => Route.metrics this
         end.
Proof.
  intros (_ & Hw)%Route_validate_spec.
  unfold RouteModel.completeRoute.
  match goal with |- context [Route_save ?r] => set (doc := r) end.
  assert (Hdoc : Route.validate doc = true).
  { apply Route_validate_spec. subst doc. route_simpl.
    destruct (Route.actualStartTime (Route.scheduling this));
      route_simpl; auto. }
  exists doc. rewrite (Route_save_ok doc db Hdoc).
  subst doc. route_simpl.
  destruct (Route.actualStartTime (Route.scheduling this));
    route_simpl; auto 10.
Qed.



(** A route that is not in progress cannot be completed. *)
Lemma completeRoute_planned_refused :
  run (RoutesController.completeRoute 45000000 driver 41 None []) db0
  = (Json 400 false "Route must be in progress to complete", db0).
Proof. reflexivity. Qed.

(** A route without a start time keeps its metrics when completed. *)
Lemma completeRoute_without_start now notes issues this db saved db' :
  Route.validate this = true ->
  Route.actualStartTime (Route.scheduling this) = None ->
  RouteModel.completeRoute now notes issues this db = (inr saved, db') ->
  Route.metrics saved = Route.metrics this.
Proof.
  intros Hv Hs Hrun.
  destruct (completeRoute_model now notes issues this db Hv)
    as (saved' & Hrun' & _ & _ & _ & _ & Hm).
  rewrite Hrun in Hrun'. injection Hrun' as <- _.
  rewrite Hm, Hs. reflexivity.
Qed.

(** [completeRoute] answers 200 only for a stored route in progress. *)
Lemma completeRoute_success_only_in_progress now user id notes issues db msg :
  fst (run (RoutesController.completeRoute now user id notes issues) db)
    = Json 200 true msg ->
  exists route,
    routes db !! id = Some route /\ Route.status route = "in-progress".
Proof.
  unfold RoutesController.completeRoute.
  erewrite run_bind_inr by (unfold Route_findById; reflexivity).
  destruct (routes db !! id) as [route|]; [|discriminate].
  destruct (RoutesController.notDriverNorAdmin user route); [discriminate|].
  destruct (String.eqb_spec (Route.status route) "in-progress") as [E|_];
    [|discriminate].
  intros _. exists route. auto.
Qed.

(** [startRoute] is where a route gets its start time: a stored,
    schema-valid route in status ['assigned'] is stored as ['in-progress']
    with [actualStartTime] set. *)
Lemma startRoute_sets_start_time now user id db route :
  routes db !! id = Some route ->
  Route._id route = id ->
  Route.validate route = true ->
  RoutesController.notDriverNorAdmin user route = false ->
  Route.status route = "assigned" ->
  exists route',
    routes (snd (run (RoutesController.startRoute now user id) db)) !! id
      = Some route'
    /\ Route.status route' = "in-progress"
    /\ Route.actualStartTime (Route.scheduling route') = Some now.
Proof.
  intros Hroute Hid (_ & Hw)%Route_validate_spec Hauth Hst.
  unfold RoutesController.startRoute.
  erewrite run_bind_inr by (unfold Route_findById; reflexivity).
  rewrite Hroute, Hauth, Hst. cbn [String.eqb Ascii.eqb Bool.eqb negb].
  unfold RouteModel.startRoute.
  match goal with |- context [Route_save ?r] => set (doc := r) end.
  assert (Hdoc : Route.validate doc = true)
    by (apply Route_validate_spec; subst doc; route_simpl; auto).
  rewrite (run_bind_inr _ _ _ _ _ (Route_save_ok doc db Hdoc)).
  assert (Hsaved : exists route',
            <[id := doc]> (routes db) !! id = Some route'
            /\ Route.status route' = "in-progress"
            /\ Route.actualStartTime (Route.scheduling route') = Some now)
    by (exists doc; rewrite lookup_insert_eq; auto).
  replace (Route._id doc) with id by (subst doc; route_simpl; congruence).
  replace (Route.assignedVehicle doc) with (Route.assignedVehicle route)
    by reflexivity.
  unfold run, mbind, handler_bind, Vehicle_findById, mret, handler_ret,
    respond.
  destruct (Route.assignedVehicle route) as [vehicleId|];
    [cbn [vehicles set_routes];
     destruct (vehicles db !! vehicleId) as [vehicle|]|];
    [|cbn; auto..].
  unfold Vehicle_save.
  replace (Vehicle.validate _) with true by reflexivity.
  cbn. auto.
Qed.

(** * Further properties *)

(** ** The ledger as a whole *)

Lemma pre_save_keeps now i :
  Inventory.owner (Inventory.pre_save now i) = Inventory.owner i
  /\ Inventory.reorderPoint (Inventory.stock (Inventory.pre_save now i))
     = Inventory.reorderPoint (Inventory.stock i).
Proof.
  unfold Inventory.pre_save. cbn.
  repeat match goal with |- context [if ?b then _ else _] => destruct b end;
    cbn; auto.
Qed.

(** What one ledger request can do to the document it finds: nothing, with
    a failure answered; or, with a success answered, save a validated
    document that has one more movement and the same owner, reorder point
    and status. *)
Lemma ledger_handler_effect `{JsRuntime} id req db item :
  inventory db !! id = Some item ->
  Inventory._id item = id ->
  let result := run (ledger_handler id req) db in
  (snd result = db /\ succeeded (fst result) = false)
  \/ exists i m,
       Inventory.validate i = true
       /\ succeeded (fst result) = true
       /\ snd result
          = set_inventory
              (<[id := Inventory.pre_save (req_time req) i]> (inventory db)) db
       /\ Inventory.movements i = Inventory.movements item ++ [m]
       /\ Inventory.owner i = Inventory.owner item
       /\ Inventory.reorderPoint (Inventory.stock i)
          = Inventory.reorderPoint (Inventory.stock item)
       /\ Inventory.status i = Inventory.status item
       /\ Inventory._id i = id.
Proof.
  intros Hitem Hid. cbv zeta.
  destruct (ledger_handler_shape id req db)
    as [Hfail | (it & i & Hit & (Ei & Eo & Er & Es & m & Em) & Hv & Hok & Hdb)];
    [left; exact Hfail|].
  assert (it = item) as -> by congruence.
  right. exists i, m. rewrite Hdb, Ei, Hid. auto 10.
Qed.

Lemma ledger_trace_run `{JsRuntime} id reqs db :
  snd (ledger_trace id reqs db) = ledger_run id reqs db.
Proof.
  revert db. unfold ledger_run.
  induction reqs as [|req reqs IH]; intros db; [reflexivity|].
  cbn. apply IH.
Qed.

(** The effect of a whole sequence of requests on the item. *)
Lemma ledger_trace_effect `{JsRuntime} id reqs db item :
  inventory db !! id = Some item ->
  Inventory._id item = id ->
  exists item' added,
    inventory (ledger_run id reqs db) !! id = Some item'
    /\ Inventory._id item' = id
    /\ Inventory.movements item' = Inventory.movements item ++ added
    /\ length added
       = length (List.filter succeeded (fst (ledger_trace id reqs db)))
    /\ Inventory.owner item' = Inventory.owner item
    /\ Inventory.reorderPoint (Inventory.stock item')
       = Inventory.reorderPoint (Inventory.stock item).
Proof.
  revert db item. unfold ledger_run.
  induction reqs as [|req reqs IH]; intros db item Hitem Hid.
  - exists item, []. rewrite app_nil_r. cbn. auto 10.
  - cbn [fold_left ledger_trace fst snd List.filter].
    destruct (ledger_handler_effect id req db item Hitem Hid)
      as [[Hdb Hfail]
         | (i & m & Hv & Hok & Hdb & Hm & Hown & Hrp & _ & Ei')].
    + rewrite Hdb, Hfail. apply IH; assumption.
    + rewrite Hok.
      destruct (pre_save_frame (req_time req) i)
        as (Ei & Ec & _ & _ & Em & Ea).
      destruct (pre_save_keeps (req_time req) i) as (Eo & Er).
      destruct (IH (snd (run (ledger_handler id req) db))
                   (Inventory.pre_save (req_time req) i))
        as (item' & added & Hl & Hid' & Hm' & Hlen & Hown' & Hrp').
      * rewrite Hdb. cbn. apply lookup_insert_eq.
      * congruence.
      * exists item', (m :: added).
        split; [exact Hl|]. split; [exact Hid'|].
        split; [rewrite Hm', Em, Hm, <- app_assoc; reflexivity|].
        split; [cbn; rewrite Hlen; reflexivity|].
        split; congruence.
Qed.

(** X2.  The movements ledger is append-only and holds one entry per
    successful request: after any sequence of requests to the three ledger
    endpoints the stored ledger is the old one followed by as many new
    entries as requests were answered with success, and a refused or
    failed request leaves no trace. *)
Theorem ledger_one_entry_per_success `{JsRuntime}
    (id : ObjectId) (reqs : list ledger_request) (db : Db) (item : Inventory.t) :
  inventory db !! id = Some item ->
  Inventory._id item = id ->
  exists item' added,
    inventory (snd (ledger_trace id reqs db)) !! id = Some item'
    /\ Inventory.movements item' = Inventory.movements item ++ added
    /\ length added
       = length (List.filter succeeded (fst (ledger_trace id reqs db))).
Proof.
  intros Hitem Hid. rewrite ledger_trace_run.
  destruct (ledger_trace_effect id reqs db item Hitem Hid)
    as (item' & added & Hl & _ & Hm & Hlen & _).
  exists item', added. auto.
Qed.

(** Three requests on [item11], the second refused: two new entries. *)
Lemma ledger_one_entry_per_success_witness :
  exists item' added,
    inventory
      (snd (ledger_trace (H := numerals) 11
              [mkRequest 1000 retailer
                 (ReleaseReservedStock (JsNumber 1) "order 5");
               mkRequest 2000 retailer
                 (ReleaseReservedStock (JsNumber 9) "order 5");
               mkRequest 3000 admin
                 (AddMovement "in" (JsNumber 4) "delivery" None None)]
              db0)) !! 11%N = Some item'
    /\ Inventory.movements item' = Inventory.movements item11 ++ added
    /\ length added = 2%nat.
Proof.
  exact (ledger_one_entry_per_success (H := numerals) 11 _ db0 item11
           eq_refl eq_refl).
Defined.

(** The status the [pre('save')] hook leaves, read off the saved stock. *)
Lemma pre_save_status now i :
  let saved := Inventory.pre_save now i in
  let available := Inventory.available (Inventory.stock saved) in
  let reorderPoint := Inventory.reorderPoint (Inventory.stock saved) in
  ((available <=? 0)%float = true -> Inventory.status saved = "out-of-stock")
  /\ ((available <=? 0)%float = false ->
      (available <=? reorderPoint)%float = true ->
      Inventory.status saved = "low-stock")
  /\ ((available <=? 0)%float = false ->
      (available <=? reorderPoint)%float = false ->
      Inventory.status saved
      = if String.eqb (Inventory.status i) "out-of-stock"
           || String.eqb (Inventory.status i) "low-stock"
        then "active" else Inventory.status i).
Proof.
  unfold Inventory.pre_save. cbn zeta. inv_simpl.
  set (a := Inventory.assign _ _).
  destruct (a <=? 0)%float eqn:E0; inv_simpl; fold a; rewrite ?E0;
    [repeat split; intros; try reflexivity; discriminate|].
  destruct (a <=? Inventory.reorderPoint (Inventory.stock i))%float eqn:E1;
    inv_simpl; fold a; rewrite ?E0, ?E1;
    [repeat split; intros; try reflexivity; discriminate|].
  destruct (String.eqb (Inventory.status i) "out-of-stock"
            || String.eqb (Inventory.status i) "low-stock");
    inv_simpl; fold a; rewrite ?E0, ?E1;
    repeat split; intros; try reflexivity; discriminate.
Qed.

(** X5.  Every successful ledger request re-derives the item's status from
    the stock it leaves: ['out-of-stock'] when nothing is available,
    ['low-stock'] when what is available does not exceed the reorder
    point, and otherwise ['active'] if the status was one of those two and
    the old status if it was anything else.  So a status set by hand
    (['inactive'], ['discontinued']) survives a ledger request only while
    the available stock is above the reorder point. *)
Theorem ledger_success_rederives_status `{JsRuntime}
    (id : ObjectId) (req : ledger_request) (db : Db) (item : Inventory.t) :
  inventory db !! id = Some item ->
  Inventory._id item = id ->
  succeeded (fst (run (ledger_handler id req) db)) = true ->
  exists item',
    inventory (snd (run (ledger_handler id req) db)) !! id = Some item'
    /\ let available := Inventory.available (Inventory.stock item') in
       let reorderPoint := Inventory.reorderPoint (Inventory.stock item) in
       ((available <=? 0)%float = true ->
        Inventory.status item' = "out-of-stock")
       /\ ((available <=? 0)%float = false ->
           (available <=? reorderPoint)%float = true ->
           Inventory.status item' = "low-stock")
       /\ ((available <=? 0)%float = false ->
           (available <=? reorderPoint)%float = false ->
           Inventory.status item'
           = if String.eqb (Inventory.status item) "out-of-stock"
                || String.eqb (Inventory.status item) "low-stock"
             then "active" else Inventory.status item).
Proof.
  intros Hitem Hid Hok.
  destruct (ledger_handler_effect id req db item Hitem Hid)
    as [[_ Hfail] | (i & m & Hv & _ & Hdb & _ & _ & Hrp & Hst & _)];
    [congruence|].
  exists (Inventory.pre_save (req_time req) i).
  split; [rewrite Hdb; cbn; apply lookup_insert_eq|].
  pose proof (pre_save_status (req_time req) i) as E. cbv zeta in E |- *.
  destruct (pre_save_keeps (req_time req) i) as (_ & Erp).
  rewrite Erp, Hrp, Hst in E. exact E.
Qed.

(** A discontinued item with 10 units and reorder point 2: shipping 9
    makes it ['low-stock']. *)
Lemma ledger_success_rederives_status_witness :
  let discontinued := Inventory.set_status "discontinued" item10 in
  let db := set_inventory (<[10%N := discontinued]> (inventory db0)) db0 in
  let req :=
    mkRequest 1000 retailer (AddMovement "out" (JsNumber 9) "sale" None None) in
  exists item',
    inventory (snd (run (ledger_handler (H := numerals) 10 req) db)) !! 10%N
    = Some item'
    /\ Inventory.available (Inventory.stock item') = 1%float
    /\ Inventory.status item' = "low-stock".
Proof.
  intros discontinued db req.
  destruct (ledger_success_rederives_status (H := numerals) 10 req db
              discontinued eq_refl eq_refl eq_refl) as (item' & Hl & E).
  cbv zeta in E. destruct E as (_ & Hlow & _).
  assert (Ha : Inventory.available (Inventory.stock item') = 1%float)
    by (pose proof Hl as Hc; vm_compute in Hc; injection Hc as <-;
        reflexivity).
  exists item'. split; [exact Hl|]. split; [exact Ha|].
  apply Hlow; rewrite Ha; reflexivity.
Defined.

(** On a number that is not NaN, MongoDB's order is that of the
    language. *)
Lemma Mongo_lte_number a b :
  is_nan a = false -> Mongo_lte a b = (a <=? b)%float.
Proof.
  intros Ha. unfold Mongo_lte. rewrite Ha.
  destruct (is_nan b) eqn:Hb; [|reflexivity].
  destruct (a <=? b)%float eqn:E; [|reflexivity].
  apply leb_not_nan in E as [_ E]. congruence.
Qed.

Lemma pre_save_escapes_low_stock_query owner now i :
  Inventory.validate i = true ->
  lowStockQuery owner (Inventory.pre_save now i) = false.
Proof.
  intros Hv. unfold lowStockQuery.
  destruct (pre_save_status now i) as (Hout & Hlow & _).
  destruct (pre_save_available now i Hv) as [Ha _]. cbv zeta in Ha.
  rewrite (Mongo_lte_number _ _ (nonneg_not_nan _ Ha)).
  destruct (Inventory.available (Inventory.stock (Inventory.pre_save now i))
            <=? Inventory.reorderPoint
                  (Inventory.stock (Inventory.pre_save now i)))%float
    eqn:Hle; [|reflexivity].
  destruct (Inventory.available (Inventory.stock (Inventory.pre_save now i))
            <=? 0)%float eqn:H0.
  - rewrite (Hout eq_refl). reflexivity.
  - rewrite (Hlow eq_refl eq_refl). reflexivity.
Qed.

(** X6.  The low-stock report asks for [stock.available <=
    stock.reorderPoint] together with [status: 'active'], and a saved item
    that is that low has been given the status ['low-stock'] or
    ['out-of-stock']: the item a successful ledger request has just
    written is never in the result of [getLowStockItems], for no owner
    filter, however little of it is left. *)
Theorem low_stock_report_misses_saved_items `{JsRuntime}
    (id : ObjectId) (req : ledger_request) (db : Db) (item : Inventory.t)
    (owner : option ObjectId) :
  inventory db !! id = Some item ->
  Inventory._id item = id ->
  succeeded (fst (run (ledger_handler id req) db)) = true ->
  exists item',
    inventory (snd (run (ledger_handler id req) db)) !! id = Some item'
    /\ ~ In item' (getLowStockItems owner (snd (run (ledger_handler id req) db))).
Proof.
  intros Hitem Hid Hok.
  destruct (ledger_handler_effect id req db item Hitem Hid)
    as [[_ Hfail] | (i & m & Hv & _ & Hdb & _)]; [congruence|].
  exists (Inventory.pre_save (req_time req) i).
  split; [rewrite Hdb; cbn; apply lookup_insert_eq|].
  unfold getLowStockItems. intros [_ E]%filter_In.
  rewrite (pre_save_escapes_low_stock_query _ _ _ Hv) in E. discriminate.
Qed.

(** [item10] after 8 of its 10 units are reserved: 2 available, reorder
    point 2, and an empty low-stock report. *)
Lemma low_stock_report_misses_saved_items_witness :
  let req := mkRequest 1000 retailer (ReserveStock (JsNumber 8) "order 7") in
  let db' := snd (run (ledger_handler (H := numerals) 10 req) db0) in
  exists item',
    inventory db' !! 10%N = Some item'
    /\ (Inventory.available (Inventory.stock item')
        <=? Inventory.reorderPoint (Inventory.stock item'))%float = true
    /\ ~ In item' (getLowStockItems None db').
Proof.
  intros req db'.
  destruct (low_stock_report_misses_saved_items (H := numerals) 10 req db0
              item10 None eq_refl eq_refl eq_refl) as (item' & Hl & Hnot).
  exists item'. split; [exact Hl|]. split; [|exact Hnot].
  pose proof Hl as Hc. vm_compute in Hc. injection Hc as <-. reflexivity.
Defined.

(** X28.  [reserveStock] takes [quantity] as the request body has it.
    When it is a string, [this.stock.reserved += quantity] concatenates:
    a successful call stores in [stock.reserved] the number that the
    decimal form of the old value followed by the string reads as, while
    the guard and the movement entry read the string alone as a number. *)
Theorem reserveStock_string_concatenates `{JsRuntime}
    (now : Date) (quantity : string) (reason : string) (user : ObjectId)
    (this saved : Inventory.t) (db db' : Db) :
  InventoryModel.reserveStock now (JsString quantity) reason user this db
    = (inr saved, db') ->
  Inventory.reserved (Inventory.stock saved)
    = Number_ofString
        (String.append
           (String_ofNumber (Inventory.reserved (Inventory.stock this)))
           quantity)
  /\ Inventory.movements saved
     = Inventory.movements this
       ++ [Inventory.mkMovement "out" (Number_ofString quantity)
             (String.append "Reserved: " reason) user None None now]
  /\ (Inventory.stockAvailable this <? Number_ofString quantity)%float = false.
Proof.
  unfold InventoryModel.reserveStock. cbn [ToNumber Js_add].
  destruct (Inventory.stockAvailable this <? Number_ofString quantity)%float;
    [discriminate|].
  unfold castNumber.
  destruct (String.eqb (String.append _ quantity) ""); [discriminate|].
  destruct (is_nan (Number_ofString (String.append _ quantity)));
    [discriminate|].
  destruct (String.eqb quantity ""); [discriminate|].
  destruct (is_nan (Number_ofString quantity)); [discriminate|].
  intros Hs. apply Inventory_save_inr in Hs as (_ & -> & ->).
  match goal with |- context [Inventory.pre_save now ?i] =>
    destruct (pre_save_frame now i) as (_ & _ & Hr & _ & Hm & _) end.
  rewrite Hr, Hm. cbn. auto.
Qed.

(** Three units are reserved out of a hundred; reserving ["5"] stores 35
    reserved units and a movement of 5. *)
Lemma reserveStock_string_concatenates_witness :
  let this :=
    Inventory.mk 13 3 (Inventory.mkStock 100 3 97 0) "active" []
      (Inventory.mkAnalytics 0 0 None) (Inventory.mkAudit None 1) in
  exists saved db',
    InventoryModel.reserveStock (H := numerals) 1000 (JsString "5") "order 7"
      3 this db0 = (inr saved, db')
    /\ Inventory.reserved (Inventory.stock saved) = 35%float
    /\ Inventory.quantity <$> Inventory.movements saved = [5%float].
Proof.
  intros this.
  destruct (InventoryModel.reserveStock (H := numerals) 1000 (JsString "5")
              "order 7" 3 this db0) as [[r|saved] db'] eqn:E;
    [vm_compute in E; discriminate|].
  exists saved, db'. split; [reflexivity|].
  destruct (reserveStock_string_concatenates (H := numerals) _ _ _ _ _ _ _ _ E)
    as (Hr & Hm & _).
  rewrite Hr, Hm. split; reflexivity.
Defined.

(** ** Alerts *)

Lemma InventoryDoc_validate_alerts a this :
  InventoryDoc.validate (InventoryDoc.set_alerts a this)
  = InventoryDoc.validate this.
Proof. reflexivity. Qed.

(** [checkAlerts] on a schema-valid document, as three independent
    decisions. *)
Lemma checkAlerts_decisions `{JsRuntime} now this :
  InventoryDoc.validate this = true ->
  let low := lowStockFires now this in
  let exp := expirationFires now this in
  let over := overstockFires now this in
  exists found saved,
    InventoryDoc.checkAlerts now this = inr (found, saved, low || exp || over)
    /\ InventoryDoc.alert_type <$> found
       = (if low then ["low-stock"] else [])
         ++ (if exp then ["expiration"] else [])
         ++ (if over then ["overstock"] else [])
    /\ InventoryDoc.lastAlerted (InventoryDoc.lowStock (InventoryDoc.alerts saved))
       = (if low then Some now
          else InventoryDoc.lastAlerted
                 (InventoryDoc.lowStock (InventoryDoc.alerts this)))
    /\ InventoryDoc.exp_lastAlerted
         (InventoryDoc.expirationRule (InventoryDoc.alerts saved))
       = (if exp then Some now
          else InventoryDoc.exp_lastAlerted
                 (InventoryDoc.expirationRule (InventoryDoc.alerts this)))
    /\ InventoryDoc.lastAlerted (InventoryDoc.overstock (InventoryDoc.alerts saved))
       = (if over then Some now
          else InventoryDoc.lastAlerted
                 (InventoryDoc.overstock (InventoryDoc.alerts this)))
    /\ (low || exp || over = false -> saved = this).
Proof.
  intros Hv low exp over. subst low exp over.
  unfold InventoryDoc.checkAlerts, lowStockFires, expirationFires,
    overstockFires, InventoryDoc.daysUntilExpiration.
  cbv zeta.
  destruct (InventoryDoc.enabled (InventoryDoc.lowStock (InventoryDoc.alerts this))
            && _ && _);
    cbn [InventoryDoc.alerts InventoryDoc.set_alerts InventoryDoc.expirationRule
         InventoryDoc.overstock InventoryDoc.lowStock InventoryDoc.expiration
         InventoryDoc.maximum InventoryDoc.item];
    destruct (InventoryDoc.exp_enabled _);
    destruct (negb (InventoryDoc.hasExpiration (InventoryDoc.expiration this)));
    destruct (InventoryDoc.expirationDate (InventoryDoc.expiration this));
    try destruct (_ && InventoryDoc.dueAgain 1 _);
    cbn [InventoryDoc.alerts InventoryDoc.set_alerts InventoryDoc.expirationRule
         InventoryDoc.overstock InventoryDoc.lowStock InventoryDoc.expiration
         InventoryDoc.maximum InventoryDoc.item];
    destruct (InventoryDoc.maximum this);
    try destruct (_ && InventoryDoc.dueAgain 7 _);
    cbn [length Nat.ltb Nat.leb app orb];
    unfold InventoryDoc.save;
    rewrite ?InventoryDoc_validate_alerts, ?Hv;
    eexists _, _; (split; [reflexivity|]);
    cbn; repeat split; try reflexivity; intros; try discriminate; reflexivity.
Qed.

Lemma days_nonneg x : 0 <= x / msPerDay <-> 0 <= x.
Proof.
  unfold msPerDay. change (1000 * 60 * 60 * 24) with 86400000.
  pose proof (Z.div_mod x 86400000 ltac:(lia)).
  pose proof (Z.mod_pos_bound x 86400000 ltac:(lia)). lia.
Qed.

Lemma days_bounds x n :
  (n <= x / msPerDay <-> n * msPerDay <= x)
  /\ (x / msPerDay < n <-> x < n * msPerDay).
Proof.
  unfold msPerDay. change (1000 * 60 * 60 * 24) with 86400000.
  pose proof (Z.div_mod x 86400000 ltac:(lia)).
  pose proof (Z.mod_pos_bound x 86400000 ltac:(lia)). lia.
Qed.

(** The one-day interval lets everything through but a [lastAlerted] in
    the future. *)
Lemma dueAgain_daily now last :
  InventoryDoc.dueAgain 1 (InventoryDoc.daysSince now (Some last)) = true
  <-> last <= now.
Proof.
  unfold InventoryDoc.dueAgain, InventoryDoc.daysSince.
  rewrite orb_true_iff, Z.eqb_eq, Z.geb_le.
  pose proof (days_nonneg (now - last)). lia.
Qed.

(** The seven-day interval holds an alert back from the second day to the
    seventh. *)
Lemma dueAgain_weekly now last :
  InventoryDoc.dueAgain 7 (InventoryDoc.daysSince now (Some last)) = true
  <-> 0 <= now - last < msPerDay \/ 7 * msPerDay <= now - last.
Proof.
  unfold InventoryDoc.dueAgain, InventoryDoc.daysSince.
  rewrite orb_true_iff, Z.eqb_eq, Z.geb_le.
  destruct (days_bounds (now - last) 7) as [H7 _].
  destruct (days_bounds (now - last) 0) as [H0 _].
  destruct (days_bounds (now - last) 1) as [_ H1].
  lia.
Qed.

(** X7.  The one-day re-alert interval of the low-stock alert holds
    nothing back: [!daysSinceLastAlert] is also true for 0 days, so on a
    schema-valid document whose low-stock rule is enabled and whose
    available stock is at or under the threshold (or the reorder point,
    when no non-zero threshold is set), [checkAlerts] raises the low-stock
    alert, saves, and stamps [lastAlerted] with the present instant, no
    matter how recently the alert last fired. *)
Theorem low_stock_alert_is_not_rate_limited `{JsRuntime}
    (now last : Date) (this : InventoryDoc.t) :
  InventoryDoc.validate this = true ->
  InventoryDoc.enabled (InventoryDoc.lowStock (InventoryDoc.alerts this))
    = true ->
  (Inventory.stockAvailable (InventoryDoc.item this)
   <=? orElse (InventoryDoc.threshold
                 (InventoryDoc.lowStock (InventoryDoc.alerts this)))
              (Inventory.reorderPoint
                 (Inventory.stock (InventoryDoc.item this))))%float = true ->
  InventoryDoc.lastAlerted (InventoryDoc.lowStock (InventoryDoc.alerts this))
    = Some last ->
  last <= now ->
  exists found saved,
    InventoryDoc.checkAlerts now this = inr (found, saved, true)
    /\ head (InventoryDoc.alert_type <$> found) = Some "low-stock"
    /\ InventoryDoc.lastAlerted
         (InventoryDoc.lowStock (InventoryDoc.alerts saved)) = Some now.
Proof.
  intros Hv Hen Hlow Hlast Hle.
  assert (Hfires : lowStockFires now this = true).
  { unfold lowStockFires. cbv zeta. rewrite Hen, Hlast.
    rewrite (proj2 (dueAgain_daily now last) Hle).
    rewrite Hlow. reflexivity. }
  destruct (checkAlerts_decisions now this Hv)
    as (found & saved & Hrun & Hty & Hl & _).
  cbv zeta in Hrun, Hty, Hl. rewrite Hfires in Hrun, Hty, Hl.
  exists found, saved. split; [exact Hrun|].
  split; [rewrite Hty; reflexivity | exact Hl].
Qed.

(** [doc11] at noon: 2 units available against a reorder point of 2, and
    a low-stock alert raised an hour before. *)
Lemma low_stock_alert_is_not_rate_limited_witness :
  exists found saved,
    InventoryDoc.checkAlerts (H := numerals) 43200000 doc11
    = inr (found, saved, true)
    /\ head (InventoryDoc.alert_type <$> found) = Some "low-stock"
    /\ InventoryDoc.lastAlerted
         (InventoryDoc.lowStock (InventoryDoc.alerts saved)) = Some 43200000.
Proof.
  apply (low_stock_alert_is_not_rate_limited (H := numerals) 43200000
           39600000 doc11);
    [reflexivity | reflexivity | reflexivity | reflexivity | lia].
Defined.

(** X8.  The seven-day interval of the overstock alert does hold back, but
    not from the start: with the overstock rule enabled, a non-zero
    maximum and the stock at or over the threshold (or the maximum), the
    alert is raised again during the first 24 hours after it last fired,
    is held back from then until seven days have passed, and is raised
    from the seventh day on. *)
Theorem overstock_alert_window `{JsRuntime}
    (now last : Z) (m : float) (this : InventoryDoc.t) :
  InventoryDoc.validate this = true ->
  InventoryDoc.maximum this = Some m ->
  truthy m = true ->
  InventoryDoc.enabled (InventoryDoc.overstock (InventoryDoc.alerts this))
    = true ->
  (orElse (InventoryDoc.threshold
             (InventoryDoc.overstock (InventoryDoc.alerts this))) m
   <=? Inventory.current (Inventory.stock (InventoryDoc.item this)))%float
    = true ->
  InventoryDoc.lastAlerted (InventoryDoc.overstock (InventoryDoc.alerts this))
    = Some last ->
  exists found saved written,
    InventoryDoc.checkAlerts now this = inr (found, saved, written)
    /\ (In "overstock" (InventoryDoc.alert_type <$> found)
        <-> 0 <= now - last < msPerDay \/ 7 * msPerDay <= now - last).
Proof.
  intros Hv Hmax Hm Hen Hover Hlast.
  assert (Hfires : overstockFires now this
                   = InventoryDoc.dueAgain 7
                       (InventoryDoc.daysSince now (Some last))).
  { unfold overstockFires. cbv zeta. rewrite Hmax, Hen, Hlast.
    rewrite Hm, Hover. reflexivity. }
  destruct (checkAlerts_decisions now this Hv)
    as (found & saved & Hrun & Hty & _).
  cbv zeta in Hrun, Hty.
  eexists found, saved, _. split; [exact Hrun|].
  rewrite Hty.
  assert (Hin : In "overstock"
                  ((if lowStockFires now this then ["low-stock"] else [])
                   ++ (if expirationFires now this then ["expiration"] else [])
                   ++ (if overstockFires now this then ["overstock"] else []))
                <-> overstockFires now this = true)
    by (destruct (lowStockFires now this), (expirationFires now this),
          (overstockFires now this); cbn; intuition congruence).
  rewrite Hin, Hfires. apply dueAgain_weekly.
Qed.

(** [doc11] holds 5 units against a maximum of 4 and was last reported
    overstocked three days before noon: at noon the alert is held back. *)
Lemma overstock_alert_window_witness :
  exists found saved written,
    InventoryDoc.checkAlerts (H := numerals) 43200000 doc11
    = inr (found, saved, written)
    /\ ~ In "overstock" (InventoryDoc.alert_type <$> found).
Proof.
  destruct (overstock_alert_window (H := numerals) 43200000
              (43200000 - 3 * 86400000) 4 doc11)
    as (found & saved & written & Hrun & Hiff);
    [reflexivity | reflexivity | reflexivity | reflexivity | reflexivity
    | reflexivity |].
  exists found, saved, written. split; [exact Hrun|].
  rewrite Hiff. unfold msPerDay. lia.
Defined.

(** X9.  The bookkeeping of [checkAlerts] on a schema-valid document: it
    raises at most one alert of each kind, in the order low-stock,
    expiration, overstock; it calls [save()] exactly when at least one
    alert was raised, and otherwise hands the document back untouched; and
    the [lastAlerted] of a kind becomes the present instant if that kind
    was raised and is left alone if it was not. *)
Theorem checkAlerts_bookkeeping `{JsRuntime}
    (now : Date) (this : InventoryDoc.t) :
  InventoryDoc.validate this = true ->
  exists found saved written,
    InventoryDoc.checkAlerts now this = inr (found, saved, written)
    /\ InventoryDoc.alert_type <$> found
         `sublist_of` ["low-stock"; "expiration"; "overstock"]
    /\ (written = true <-> found <> [])
    /\ (written = false -> saved = this)
    /\ InventoryDoc.lastAlerted
         (InventoryDoc.lowStock (InventoryDoc.alerts saved))
       = (if includes (InventoryDoc.alert_type <$> found) "low-stock"
          then Some now
          else InventoryDoc.lastAlerted
                 (InventoryDoc.lowStock (InventoryDoc.alerts this)))
    /\ InventoryDoc.exp_lastAlerted
         (InventoryDoc.expirationRule (InventoryDoc.alerts saved))
       = (if includes (InventoryDoc.alert_type <$> found) "expiration"
          then Some now
          else InventoryDoc.exp_lastAlerted
                 (InventoryDoc.expirationRule (InventoryDoc.alerts this)))
    /\ InventoryDoc.lastAlerted
         (InventoryDoc.overstock (InventoryDoc.alerts saved))
       = (if includes (InventoryDoc.alert_type <$> found) "overstock"
          then Some now
          else InventoryDoc.lastAlerted
                 (InventoryDoc.overstock (InventoryDoc.alerts this))).
Proof.
  intros Hv.
  destruct (checkAlerts_decisions now this Hv)
    as (found & saved & Hrun & Hty & Hl & He & Ho & Hsame).
  cbv zeta in *.
  eexists found, saved, _. split; [exact Hrun|].
  rewrite Hty, Hl, He, Ho.
  destruct found as [|a found];
    destruct (lowStockFires now this), (expirationFires now this),
      (overstockFires now this); try discriminate;
    cbn [orb app] in *;
    (split; [repeat first [apply sublist_skip | apply sublist_cons
                          | apply sublist_nil]|]);
    (split; [intuition (discriminate || congruence)|]);
    (split; [auto|]);
    repeat split; reflexivity.
Qed.

(** [doc11] at noon: the low-stock alert alone is raised. *)
Lemma checkAlerts_bookkeeping_witness :
  exists found saved,
    InventoryDoc.checkAlerts (H := numerals) 43200000 doc11
    = inr (found, saved, true)
    /\ InventoryDoc.alert_type <$> found = ["low-stock"]
    /\ InventoryDoc.lastAlerted
         (InventoryDoc.overstock (InventoryDoc.alerts saved))
       = InventoryDoc.lastAlerted
           (InventoryDoc.overstock (InventoryDoc.alerts doc11)).
Proof.
  destruct (checkAlerts_bookkeeping (H := numerals) 43200000 doc11 eq_refl)
    as (found & saved & written & Hrun & _ & _ & _ & _ & _ & Ho).
  pose proof Hrun as Hc. vm_compute in Hc. injection Hc as <- <- <-.
  eexists _, _. split; [exact Hrun|]. split; reflexivity.
Defined.

(** ** Expiration and prices *)

(** X10.  An item is reported expired a full day late:
    [daysUntilExpiration] rounds up, so [isExpired] is true exactly when
    the item has an expiration date that lies at least 24 hours in the
    past, and an item whose date passed less than a day ago still counts
    as not expired. *)
Theorem isExpired_after_a_full_day (now : Date) (this : InventoryDoc.t) :
  InventoryDoc.isExpired now this = true
  <-> InventoryDoc.hasExpiration (InventoryDoc.expiration this) = true
      /\ exists expires,
           InventoryDoc.expirationDate (InventoryDoc.expiration this)
             = Some expires
           /\ expires + msPerDay <= now.
Proof.
  unfold InventoryDoc.isExpired, InventoryDoc.daysUntilExpiration, ceil_div.
  destruct (InventoryDoc.hasExpiration (InventoryDoc.expiration this));
    cbn [negb]; [|split; [discriminate | intros [? _]; discriminate]].
  destruct (InventoryDoc.expirationDate (InventoryDoc.expiration this))
    as [expires|];
    [|split; [discriminate | intros (_ & ? & ? & _); discriminate]].
  rewrite Z.ltb_lt.
  destruct (days_bounds (- (expires - now)) 1) as [H1 _].
  split.
  - intros H. split; [reflexivity|]. exists expires. split; [reflexivity|].
    lia.
  - intros (_ & e & [= <-] & H). lia.
Qed.




(** ** Orders as a whole *)

Lemma assignOrder_not_found now id driverId vehicleId db :
  orders db !! id = None ->
  run (OrdersController.assignOrder now id driverId vehicleId) db
  = (Json 404 false "Order not found", db).
Proof.
  intros H. unfold OrdersController.assignOrder.
  erewrite run_bind_inr by (unfold Order_findById; reflexivity).
  rewrite H. reflexivity.
Qed.

(** What [assignOrder] leaves behind: a failure answered in every case,
    the vehicles untouched, and the orders either untouched or, when all
    its checks passed, with the order saved as assigned. *)
Lemma assignOrder_effect now id driverId vehicleId db :
  let result := run (OrdersController.assignOrder now id driverId vehicleId) db in
  succeeded (fst result) = false
  /\ vehicles (snd result) = vehicles db
  /\ (snd result = db
      \/ exists order saved,
           orders db !! id = Some order
           /\ snd result
              = set_orders (<[Order._id order := saved]> (orders db)) db
           /\ Order._id saved = Order._id order
           /\ Order.customer saved = Order.customer order
           /\ Order.status saved = "assigned"
           /\ Order.statusHistory (Order.tracking saved)
              = Order.statusHistory (Order.tracking order)
                ++ [Order.mkStatusUpdate "assigned" now None None None true]).
Proof.
  cbv zeta.
  destruct (orders db !! id) as [order|] eqn:Horder;
    [|rewrite (assignOrder_not_found _ _ _ _ _ Horder); cbn; auto].
  rewrite (assignOrder_found _ _ _ _ _ _ Horder).
  destruct (users db !! driverId) as [driver|]; [|cbn; auto].
  destruct (negb (String.eqb (User.role driver) "driver")); [cbn; auto|].
  destruct (vehicles db !! vehicleId) as [vehicle|]; [|cbn; auto].
  destruct (negb (String.eqb (Vehicle.status vehicle) "available"));
    [cbn; auto|].
  destruct (Order.totalWeight (Order.cargo order)
            >? Vehicle.capacity_weight vehicle); [cbn; auto|].
  unfold OrderModel.assignDriverAndVehicle.
  match goal with |- context [Order_save ?o] => set (doc := o) end.
  rewrite (run_bind_inr _ _ _ _ _ (Order_save_ok doc db eq_refl)).
  erewrite run_bind_inl by reflexivity.
  cbn [fst snd succeeded vehicles set_orders].
  split; [reflexivity|]. split; [reflexivity|].
  right. exists order, (Order.pre_save doc).
  destruct (Order_pre_save_frame doc) as (-> & -> & _ & _ & -> & _ & -> & _).
  subst doc. ord_simpl. auto 10.
Qed.

(** X12.  No request to assign an order is ever answered with success, and
    none ever writes a vehicle: either a check refuses it, or the order is
    saved as assigned and the vehicle, given the status ['assigned'] that
    its schema does not list, is rejected by validation.  This holds for
    the controller and for the route with its role check in front. *)
Theorem assignOrder_never_succeeds
    (now : Date) (user : User.t) (id driverId vehicleId : ObjectId) (db : Db) :
  let direct := run (OrdersController.assignOrder now id driverId vehicleId) db in
  let routed := run (Router.assignOrder now user id driverId vehicleId) db in
  succeeded (fst direct) = false
  /\ vehicles (snd direct) = vehicles db
  /\ succeeded (fst routed) = false
  /\ vehicles (snd routed) = vehicles db.
Proof.
  cbv zeta.
  destruct (assignOrder_effect now id driverId vehicleId db) as (Hs & Hv & _).
  cbv zeta in Hs, Hv.
  split; [exact Hs|]. split; [exact Hv|].
  unfold Router.assignOrder, authorize.
  destruct (negb (includes ["admin"; "fleet-manager"] (User.role user)));
    [cbn; auto|].
  split; [exact Hs | exact Hv].
Qed.

(** What [updateOrderStatus] leaves behind for a stored order: nothing, or
    the order saved with the requested status and one more history entry. *)
Lemma updateOrderStatus_effect now user id status notes location db order :
  orders db !! id = Some order ->
  Order._id order = id ->
  let result :=
    run (OrdersController.updateOrderStatus now user id status notes location)
        db in
  snd result = db
  \/ exists saved,
       snd result = set_orders (<[id := saved]> (orders db)) db
       /\ Order._id saved = id
       /\ Order.customer saved = Order.customer order
       /\ Order.status saved = status
       /\ Order.statusHistory (Order.tracking saved)
          = Order.statusHistory (Order.tracking order)
            ++ [Order.mkStatusUpdate status now location (Some (User._id user))
                  notes false].
Proof.
  intros Horder Hid. cbv zeta.
  unfold OrdersController.updateOrderStatus.
  erewrite run_bind_inr by (unfold Order_findById; reflexivity).
  rewrite Horder.
  destruct (negb (OrdersController.canUpdate user order)); [left; reflexivity|].
  unfold OrderModel.updateStatus.
  match goal with |- context [Order_save ?o] => set (doc := o) end.
  destruct (Order.validate doc) eqn:Hv.
  - right. exists (Order.pre_save doc).
    rewrite (run_bind_inr _ _ _ _ _ (Order_save_ok doc db Hv)).
    destruct (Order_pre_save_frame doc) as (-> & -> & _ & _ & -> & _ & -> & _).
    subst doc. destruct location, (String.eqb status "delivered");
      ord_simpl; rewrite Hid; auto 10.
  - left. rewrite (run_bind_inl _ _ _ _ _ (Order_save_invalid doc db Hv)).
    reflexivity.
Qed.

(** What [cancelOrder] leaves behind for a stored order: a refusal and
    nothing written, or success and the order saved as cancelled with one
    more history entry. *)
Lemma cancelOrder_effect now user id reason db order :
  orders db !! id = Some order ->
  Order._id order = id ->
  let result := run (OrdersController.cancelOrder now user id reason) db in
  (succeeded (fst result) = false /\ snd result = db)
  \/ (succeeded (fst result) = true
      /\ includes ["delivered"; "cancelled"] (Order.status order) = false
      /\ exists saved,
           orders (snd result) = <[id := saved]> (orders db)
           /\ Order._id saved = id
           /\ Order.customer saved = Order.customer order
           /\ Order.status saved = "cancelled"
           /\ Order.statusHistory (Order.tracking saved)
              = Order.statusHistory (Order.tracking order)
                ++ [Order.mkStatusUpdate "cancelled" now None
                      (Some (User._id user)) reason false]).
Proof.
  intros Horder Hid. cbv zeta.
  unfold OrdersController.cancelOrder.
  erewrite run_bind_inr by (unfold Order_findById; reflexivity).
  rewrite Horder.
  destruct (negb (OrdersController.canCancel user order)); [left; auto|].
  destruct (includes ["delivered"; "cancelled"] (Order.status order));
    [left; auto|].
  right.
  unfold OrderModel.cancelOrder.
  match goal with |- context [Order_save ?o] => set (doc := o) end.
  rewrite (run_bind_inr _ _ _ _ _ (Order_save_ok doc db eq_refl)).
  assert (Hsaved :
    Order._id (Order.pre_save doc) = id
    /\ Order.customer (Order.pre_save doc) = Order.customer order
    /\ Order.status (Order.pre_save doc) = "cancelled"
    /\ Order.statusHistory (Order.tracking (Order.pre_save doc))
       = Order.statusHistory (Order.tracking order)
         ++ [Order.mkStatusUpdate "cancelled" now None (Some (User._id user))
               reason false]).
  { destruct (Order_pre_save_frame doc) as (-> & -> & _ & _ & -> & _ & -> & _).
    subst doc. ord_simpl. auto. }
  replace (Order._id doc) with id by (symmetry; exact Hid).
  replace (Order.assignedVehicle (Order.pre_save doc))
    with (Order.assignedVehicle order)
    by (destruct (Order_pre_save_frame doc) as (_ & _ & _ & -> & _);
        reflexivity).
  unfold run, mbind, handler_bind, Vehicle_findById, mret, handler_ret,
    respond.
  destruct (Order.assignedVehicle order) as [vehicleId|];
    [cbn [vehicles set_orders];
     destruct (vehicles db !! vehicleId) as [vehicle|]|].
  - rewrite Vehicle_save_unmodified_trips by reflexivity.
    cbn. split; [reflexivity|]. split; [reflexivity|]. eauto.
  - cbn. split; [reflexivity|]. split; [reflexivity|]. eauto.
  - cbn. split; [reflexivity|]. split; [reflexivity|]. eauto.
Qed.

(** One request to a status endpoint either leaves the stored orders as
    they are or stores the order with one more history entry, which names
    the status the order now has and the time of the request. *)
Lemma order_handler_effect id req db order :
  orders db !! id = Some order ->
  Order._id order = id ->
  let result := run (order_handler id req) db in
  orders (snd result) = orders db
  \/ exists saved entry,
       orders (snd result) = <[id := saved]> (orders db)
       /\ Order._id saved = id
       /\ Order.customer saved = Order.customer order
       /\ Order.statusHistory (Order.tracking saved)
          = Order.statusHistory (Order.tracking order) ++ [entry]
       /\ Order.su_status entry = Order.status saved
       /\ Order.su_timestamp entry = oreq_time req.
Proof.
  intros Horder Hid. cbv zeta. unfold order_handler.
  destruct (oreq_call req) as [status notes location|driverId vehicleId|reason].
  - destruct (updateOrderStatus_effect (oreq_time req) (oreq_user req) id
                status notes location db order Horder Hid)
      as [->|(saved & -> & Hi & Hc & Hs & Hh)]; [left; reflexivity|].
    right. eexists saved, _. split; [reflexivity|].
    split; [exact Hi|]. split; [exact Hc|]. split; [exact Hh|].
    split; [symmetry; exact Hs | reflexivity].
  - unfold Router.assignOrder, authorize.
    destruct (negb (includes ["admin"; "fleet-manager"]
                      (User.role (oreq_user req)))); [left; reflexivity|].
    destruct (assignOrder_effect (oreq_time req) id driverId vehicleId db)
      as (_ & _ & [->|(order' & saved & Ho & -> & Hi & Hc & Hs & Hh)]);
      [left; reflexivity|].
    rewrite Horder in Ho. injection Ho as <-.
    right. eexists saved, _. rewrite Hid. split; [reflexivity|].
    split; [congruence|]. split; [exact Hc|]. split; [exact Hh|].
    split; [symmetry; exact Hs | reflexivity].
  - destruct (cancelOrder_effect (oreq_time req) (oreq_user req) id reason db
                order Horder Hid)
      as [(_ & ->)|(_ & _ & saved & Ho & Hi & Hc & Hs & Hh)];
      [left; reflexivity|].
    right. eexists saved, _. split; [exact Ho|].
    split; [exact Hi|]. split; [exact Hc|]. split; [exact Hh|].
    split; [symmetry; exact Hs | reflexivity].
Qed.

(** X13.  Whatever requests reach the three status endpoints of a stored
    order (status update, assignment, cancellation), admitted or not, the
    order stays stored and its status history only grows at the end, by at
    most one entry per request; the customer is kept; if no entry was
    added the order is as it was, and otherwise the last entry names the
    status the order now has. *)
Theorem order_history_is_append_only
    (id : ObjectId) (reqs : list order_request) (db : Db) (order : Order.t) :
  orders db !! id = Some order ->
  Order._id order = id ->
  exists order' added,
    orders (order_run id reqs db) !! id = Some order'
    /\ Order.statusHistory (Order.tracking order')
       = Order.statusHistory (Order.tracking order) ++ added
    /\ (length added <= length reqs)%nat
    /\ Order.customer order' = Order.customer order
    /\ (added = [] -> order' = order)
    /\ (added <> [] ->
        Order.su_status <$> last added = Some (Order.status order')).
Proof.
  revert db order. induction reqs as [|req reqs IH]; intros db order Horder Hid.
  - exists order, []. cbn. rewrite app_nil_r.
    repeat split; auto. intros H; contradiction.
  - unfold order_run. cbn [fold_left].
    fold (order_run id reqs (snd (run (order_handler id req) db))).
    destruct (order_handler_effect id req db order Horder Hid)
      as [Hsame|(saved & entry & Ho & Hi & Hc & Hh & Hs & _)].
    + destruct (IH (snd (run (order_handler id req) db)) order)
        as (order' & added & Hl & Hh' & Hn & Hc' & He & Hlast);
        [rewrite Hsame; exact Horder | exact Hid |].
      exists order', added. repeat split; auto. cbn [length]. lia.
    + destruct (IH (snd (run (order_handler id req) db)) saved)
        as (order' & added & Hl & Hh' & Hn & Hc' & He & Hlast);
        [rewrite Ho; apply lookup_insert_eq | exact Hi |].
      exists order', (entry :: added).
      split; [exact Hl|].
      split; [rewrite Hh', Hh, <- app_assoc; reflexivity|].
      split; [cbn [length]; lia|].
      split; [congruence|].
      split; [discriminate|].
      intros _. destruct added as [|e added].
      * rewrite (He eq_refl). cbn. rewrite Hs. reflexivity.
      * rewrite <- Hlast by discriminate. reflexivity.
Qed.

(** The admin confirms the pending [order20], a retailer who is neither
    admin nor fleet manager asks for an assignment and is turned away, and
    the customer cancels: two entries, the last one ['cancelled']. *)
Lemma order_history_is_append_only_witness :
  orders db0 !! 20%N = Some order20
  /\ exists order' added,
       orders (order_run 20
                 [mkOrderRequest 1000 admin (UpdateStatus "confirmed" None None);
                  mkOrderRequest 2000 retailer (Assign 2 30);
                  mkOrderRequest 3000 retailer (Cancel (Some "too late"))]
                 db0) !! 20%N = Some order'
       /\ Order.statusHistory (Order.tracking order') = added
       /\ (length added <= 3)%nat
       /\ Order.status order' = "cancelled"
       /\ Order.su_status <$> last added = Some "cancelled".
Proof.
  split; [reflexivity|].
  destruct (order_history_is_append_only 20
              [mkOrderRequest 1000 admin (UpdateStatus "confirmed" None None);
               mkOrderRequest 2000 retailer (Assign 2 30);
               mkOrderRequest 3000 retailer (Cancel (Some "too late"))]
              db0 order20 eq_refl eq_refl)
    as (order' & added & Hl & Hh & Hn & _ & _ & Hlast).
  exists order', added. split; [exact Hl|]. split; [exact Hh|].
  split; [exact Hn|].
  pose proof Hl as Hc. vm_compute in Hc. injection Hc as <-.
  split; [reflexivity|].
  cbn in Hh. subst added. reflexivity.
Defined.

(** X14.  While an order has the status ['cancelled'] it cannot be
    cancelled again.  After a cancellation that was answered with
    success, the cancellations of the same order that follow it directly,
    however many, by whatever users and at whatever times, are each
    refused and write nothing: the database stays as the first one left
    it.  It is the stored status alone that refuses them; a request that
    changes the status in between lifts the refusal, as
    [cancelOrder_again_after_reset] shows. *)
Theorem cancelOrder_refused_while_cancelled
    (now : Date) (user : User.t) (id : ObjectId) (reason : option string)
    (db : Db) (order : Order.t) (again : list order_request) :
  orders db !! id = Some order ->
  Order._id order = id ->
  forallb isCancel again = true ->
  let first := run (OrdersController.cancelOrder now user id reason) db in
  succeeded (fst first) = true ->
  order_run id again (snd first) = snd first
  /\ forall req,
       In req again ->
       let second := run (order_handler id req) (snd first) in
       succeeded (fst second) = false
       /\ snd second = snd first
       /\ (OrdersController.canCancel (oreq_user req) order = true ->
           fst second
           = Json 400 false "Cannot cancel order with current status").
Proof.
  intros Horder Hid Hall first Hok.
  destruct (cancelOrder_effect now user id reason db order Horder Hid)
    as [(Hno & _)|(_ & _ & saved & Ho & Hi & Hc & Hs & _)].
  { fold first in Hno. congruence. }
  fold first in Ho.
  assert (Hone : forall req,
    isCancel req = true ->
    let second := run (order_handler id req) (snd first) in
    succeeded (fst second) = false
    /\ snd second = snd first
    /\ (OrdersController.canCancel (oreq_user req) order = true ->
        fst second = Json 400 false "Cannot cancel order with current status")).
  { intros [later other call] Hcancel. cbv zeta.
    destruct call as [? ? ?| ? ? |again1]; try discriminate.
    cbn [order_handler oreq_call oreq_time oreq_user].
    unfold OrdersController.cancelOrder.
    erewrite run_bind_inr by (unfold Order_findById; reflexivity).
    rewrite Ho, lookup_insert_eq.
    replace (OrdersController.canCancel other saved)
      with (OrdersController.canCancel other order)
      by (unfold OrdersController.canCancel; rewrite Hc; reflexivity).
    rewrite Hs.
    destruct (OrdersController.canCancel other order); cbn;
      (split; [reflexivity|]); (split; [reflexivity|]);
      intros; [reflexivity | discriminate]. }
  split.
  - unfold order_run. clear Hok Ho. revert Hall.
    induction again as [|req again IH]; intros Hall; [reflexivity|].
    cbn in Hall. apply andb_true_iff in Hall as [Hreq Hall].
    cbn [fold_left]. destruct (Hone req Hreq) as (_ & -> & _).
    apply IH. exact Hall.
  - intros req Hin. apply Hone.
    rewrite forallb_forall in Hall. apply Hall, Hin.
Qed.

(** The retailer cancels the pending [order22]; the admin's attempt and a
    second one of the retailer are refused. *)
Lemma cancelOrder_refused_while_cancelled_witness :
  let first := run (OrdersController.cancelOrder 1000 retailer 22 None) db0 in
  let again := [mkOrderRequest 2000 admin (Cancel (Some "again"));
                mkOrderRequest 3000 retailer (Cancel None)] in
  orders db0 !! 22%N = Some order22
  /\ succeeded (fst first) = true
  /\ order_run 22 again (snd first) = snd first
  /\ fst (run (OrdersController.cancelOrder 2000 admin 22 (Some "again"))
            (snd first))
     = Json 400 false "Cannot cancel order with current status".
Proof.
  intros first again.
  split; [reflexivity|]. split; [reflexivity|].
  pose proof (cancelOrder_refused_while_cancelled 1000 retailer 22 None db0
                order22 again eq_refl eq_refl eq_refl) as E.
  cbv zeta in E. destruct (E eq_refl) as (Hrun & Hreq).
  split; [exact Hrun|].
  destruct (Hreq (mkOrderRequest 2000 admin (Cancel (Some "again")))
              (or_introl eq_refl)) as (_ & _ & H400).
  exact (H400 eq_refl).
Defined.

(** The refusal lasts as long as the status does.  The admin confirms
    the pending [order20] and the retailer cancels it, with no refund;
    the admin then sets the status back to ['pending'], which
    [updateOrderStatus] accepts, and the retailer's second cancellation
    succeeds and replaces the cancellation record, now with a refund of
    the whole amount. *)
Lemma cancelOrder_again_after_reset :
  let cancelled :=
    order_run 20
      [mkOrderRequest 1000 admin (UpdateStatus "confirmed" None None);
       mkOrderRequest 2000 retailer (Cancel (Some "too late"))] db0 in
  let reset :=
    run (order_handler 20
           (mkOrderRequest 3000 admin (UpdateStatus "pending" None None)))
        cancelled in
  let second :=
    run (order_handler 20 (mkOrderRequest 4000 retailer (Cancel (Some "again"))))
        (snd reset) in
  Order.cancellation <$> orders cancelled !! 20%N
  = Some (Some (Order.mkCancellation 2000 3 (Some "too late") 0 None))
  /\ fst reset = Json 200 true "Order status updated successfully"
  /\ fst second = Json 200 true "Order cancelled successfully"
  /\ Order.cancellation <$> orders (snd second) !! 20%N
     = Some (Some (Order.mkCancellation 4000 3 (Some "again") 115
                     (Some "pending"))).
Proof.
  cbv zeta. split; [vm_compute; reflexivity|].
  split; [vm_compute; reflexivity|].
  split; vm_compute; reflexivity.
Qed.

(** ** Deleting an order *)

(** Once an order is gone, the status endpoints refuse and write nothing. *)
Lemma order_handler_not_found id req db :
  orders db !! id = None ->
  let result := run (order_handler id req) db in
  succeeded (fst result) = false /\ snd result = db.
Proof.
  intros Hnone. cbv zeta. unfold order_handler.
  destruct (oreq_call req) as [status notes location|driverId vehicleId|reason].
  - unfold OrdersController.updateOrderStatus.
    erewrite run_bind_inr by (unfold Order_findById; reflexivity).
    rewrite Hnone. auto.
  - unfold Router.assignOrder, authorize.
    destruct (negb _); [auto|].
    rewrite (assignOrder_not_found _ _ _ _ _ Hnone). auto.
  - unfold OrdersController.cancelOrder.
    erewrite run_bind_inr by (unfold Order_findById; reflexivity).
    rewrite Hnone. auto.
Qed.

(** X15.  [DELETE /api/orders/:id] removes a stored order exactly when the
    caller is an admin and the order is ['pending'] or ['cancelled'].
    Then the order is gone, and every later status update, assignment or
    cancellation of it is refused and writes nothing.  In every other case
    the request is refused and nothing is written. *)
Theorem deleteOrder_only_pending_or_cancelled
    (user : User.t) (id : ObjectId) (db : Db) (order : Order.t) :
  orders db !! id = Some order ->
  Order._id order = id ->
  let result := run (Router.deleteOrder user id) db in
  if String.eqb (User.role user) "admin"
     && includes ["pending"; "cancelled"] (Order.status order)
  then fst result = Json 200 true "Order deleted successfully"
       /\ snd result = set_orders (delete id (orders db)) db
       /\ forall req,
            let later := run (order_handler id req) (snd result) in
            succeeded (fst later) = false /\ snd later = snd result
  else succeeded (fst result) = false /\ snd result = db.
Proof.
  intros Horder Hid. cbv zeta.
  unfold Router.deleteOrder, authorize.
  replace (includes ["admin"] (User.role user))
    with (String.eqb (User.role user) "admin")
    by (cbn; rewrite orb_false_r; reflexivity).
  destruct (String.eqb (User.role user) "admin"); cbn [negb andb]; [|auto].
  unfold OrdersController.deleteOrder.
  erewrite run_bind_inr by (unfold Order_findById; reflexivity).
  rewrite Horder.
  destruct (includes ["pending"; "cancelled"] (Order.status order));
    cbn [negb]; [|auto].
  unfold run, mbind, handler_bind, Order_remove, respond, mret, handler_ret.
  rewrite Hid. cbn [fst snd].
  split; [reflexivity|]. split; [reflexivity|].
  intros req. apply order_handler_not_found.
  cbn [orders set_orders]. apply lookup_delete_eq.
Qed.

(** The admin deletes the pending [order20]; a cancellation that arrives
    afterwards finds nothing. *)
Lemma deleteOrder_only_pending_or_cancelled_witness :
  orders db0 !! 20%N = Some order20
  /\ fst (run (Router.deleteOrder admin 20) db0)
     = Json 200 true "Order deleted successfully"
  /\ orders (snd (run (Router.deleteOrder admin 20) db0)) !! 20%N = None
  /\ succeeded
       (fst (run (order_handler 20 (mkOrderRequest 1000 retailer (Cancel None)))
                 (snd (run (Router.deleteOrder admin 20) db0))))
     = false.
Proof.
  split; [reflexivity|].
  pose proof (deleteOrder_only_pending_or_cancelled admin 20 db0 order20
                eq_refl eq_refl) as H.
  cbv zeta in H.
  change (String.eqb (User.role admin) "admin"
          && includes ["pending"; "cancelled"] (Order.status order20))
    with true in H.
  cbv iota in H. destruct H as (Hres & Hdb & Hlater).
  split; [exact Hres|].
  split; [rewrite Hdb; reflexivity|].
  exact (proj1 (Hlater (mkOrderRequest 1000 retailer (Cancel None)))).
Defined.

(** X16.  The status guard of the deletion does not protect an order from
    an admin: [updateOrderStatus] accepts ['pending'] in every status, so
    an admin who first sets a stored order back to ['pending'] can then
    delete it, whatever its status was (delivered, in transit, ...).  The
    vehicles are not touched: a vehicle bound to the order stays as it
    was. *)
Theorem deleteOrder_after_status_reset
    (now : Date) (user : User.t) (id : ObjectId) (notes : option string)
    (location : option Location) (db : Db) (order : Order.t) :
  orders db !! id = Some order ->
  Order._id order = id ->
  User.role user = "admin" ->
  let reset :=
    run (OrdersController.updateOrderStatus now user id "pending" notes
           location) db in
  let result := run (Router.deleteOrder user id) (snd reset) in
  fst reset = Json 200 true "Order status updated successfully"
  /\ fst result = Json 200 true "Order deleted successfully"
  /\ snd result = set_orders (delete id (orders db)) db.
Proof.
  intros Horder Hid Hrole reset result.
  assert (Hreset : exists saved,
            reset = (Json 200 true "Order status updated successfully",
                     set_orders (<[id := saved]> (orders db)) db)
            /\ Order._id saved = id
            /\ Order.status saved = "pending").
  { subst reset. unfold OrdersController.updateOrderStatus.
    erewrite run_bind_inr by (unfold Order_findById; reflexivity).
    rewrite Horder. unfold OrdersController.canUpdate. rewrite Hrole.
    cbn [String.eqb Ascii.eqb Bool.eqb orb negb].
    unfold OrderModel.updateStatus.
    match goal with |- context [Order_save ?o] => set (doc := o) end.
    assert (Hv : Order.validate doc = true)
      by (subst doc; destruct location; reflexivity).
    exists (Order.pre_save doc).
    rewrite (run_bind_inr _ _ _ _ _ (Order_save_ok doc db Hv)).
    destruct (Order_pre_save_frame doc) as (-> & _ & _ & _ & -> & _).
    clear Hv. subst doc.
    change (String.eqb "pending" "delivered") with false. cbv iota.
    destruct location; ord_simpl; rewrite Hid; auto. }
  destruct Hreset as (saved & Hreset & Hsid & Hsst).
  split; [rewrite Hreset; reflexivity|].
  subst result. rewrite Hreset. cbn [snd].
  unfold Router.deleteOrder, authorize. rewrite Hrole.
  cbn [includes existsb String.eqb Ascii.eqb Bool.eqb orb negb].
  unfold OrdersController.deleteOrder.
  erewrite run_bind_inr by (unfold Order_findById; reflexivity).
  cbn [orders set_orders]. rewrite lookup_insert_eq, Hsst.
  cbn [includes existsb String.eqb Ascii.eqb Bool.eqb orb negb].
  unfold run, mbind, handler_bind, Order_remove, respond, mret, handler_ret.
  rewrite Hsid. cbn [fst snd orders set_orders].
  split; [reflexivity|].
  unfold set_orders. cbn. rewrite delete_insert_eq. reflexivity.
Qed.

(** The admin resets the delivered [order21] and deletes it. *)
Lemma deleteOrder_after_status_reset_witness :
  orders db0 !! 21%N = Some order21
  /\ Order.status order21 = "delivered"
  /\ (let reset :=
        run (OrdersController.updateOrderStatus 1000 admin 21 "pending" None
               None) db0 in
      let result := run (Router.deleteOrder admin 21) (snd reset) in
      fst result = Json 200 true "Order deleted successfully"
      /\ orders (snd result) !! 21%N = None).
Proof.
  split; [reflexivity|]. split; [reflexivity|].
  pose proof (deleteOrder_after_status_reset 1000 admin 21 None None db0
                order21 eq_refl eq_refl eq_refl) as H.
  cbv zeta in H. destruct H as (_ & Hres & Hdb).
  cbv zeta. split; [exact Hres|]. rewrite Hdb. reflexivity.
Defined.

(** ** Waypoints of a stored route *)

Lemma set_routes_same db : set_routes (routes db) db = db.
Proof. destruct db; reflexivity. Qed.

Lemma set_waypoints_same route :
  Route.set_waypoints (Route.waypoints route) route = route.
Proof. destruct route; reflexivity. Qed.

(** Saving a stored document as it is changes nothing. *)
Lemma Route_save_same db id route :
  routes db !! id = Some route ->
  set_routes (<[id := route]> (routes db)) db = db.
Proof. intros H. rewrite (insert_id _ _ _ H). apply set_routes_same. Qed.

Lemma forallb_filter {A} (p g : A -> bool) l :
  forallb p l = true -> forallb p (List.filter g l) = true.
Proof.
  rewrite !forallb_forall. intros H x [Hx _]%filter_In. exact (H x Hx).
Qed.

Lemma numbered_snoc l w :
  numbered l ->
  Route.order w = Z.of_nat (length l) + 1 ->
  numbered (l ++ [w]).
Proof.
  unfold numbered. intros Hl Hw.
  rewrite fmap_app, length_app, Hl. cbn [length fmap list_fmap].
  rewrite Nat.add_1_r, seq_S, fmap_app. cbn [fmap list_fmap].
  rewrite Hw. do 3 f_equal. lia.
Qed.

(** X17.  [POST /api/routes/:id/waypoints] on a stored, schema-valid route
    by an admin, its creator or a fleet manager.  A route in progress is
    refused (400) and nothing changes.  Otherwise the waypoint of the body
    is appended at the end with [order = n + 1], [n] being the number of
    waypoints so far, and with status ['pending'], whatever order and
    status the body carried; if the waypoints were numbered 1..n they are
    now numbered 1..n+1.  If the appended waypoint fails its validators
    (type, coordinates) the save is rejected and nothing is written. *)
Theorem addWaypoint_appends_numbered_pending
    (user : User.t) (id : ObjectId) (body : Route.Waypoint) (db : Db)
    (route : Route.t) :
  routes db !! id = Some route ->
  Route._id route = id ->
  Route.validate route = true ->
  String.eqb (User.role user) "admin"
  || N.eqb (Route.createdBy route) (User._id user)
  || String.eqb (User.role user) "fleet-manager" = true ->
  let result := run (RoutesController.addWaypoint user id body) db in
  let added :=
    Route.mkWaypoint (Route.wp_id body) (Route.wp_location body)
      (Route.wp_name body) (Z.of_nat (length (Route.waypoints route)) + 1)
      (Route.type body) "pending" (Route.actualArrival body)
      (Route.actualDeparture body) in
  (Route.status route = "in-progress" ->
   result = (Json 400 false "Cannot add waypoints to route in progress", db))
  /\ (Route.status route <> "in-progress" ->
      (Route.waypoint_valid added = true ->
       result
       = (Json 200 true "Waypoint added successfully",
          set_routes
            (<[id := Route.set_waypoints (Route.waypoints route ++ [added])
                       route]> (routes db)) db)
       /\ (numbered (Route.waypoints route) ->
           numbered (Route.waypoints route ++ [added])))
      /\ (Route.waypoint_valid added = false ->
          result = (NextError "ValidationError", db))).
Proof.
  intros Hroute Hid (Hst & Hw)%Route_validate_spec Hcan result added.
  subst result. unfold RoutesController.addWaypoint.
  erewrite run_bind_inr by (unfold Route_findById; reflexivity).
  rewrite Hroute. cbv zeta. rewrite Hcan. cbn [negb].
  split.
  - intros ->. reflexivity.
  - intros Hnot.
    replace (String.eqb (Route.status route) "in-progress") with false
      by (symmetry; apply String.eqb_neq; exact Hnot).
    unfold RouteModel.addWaypoint. cbv zeta. fold added.
    set (doc := Route.set_waypoints (Route.waypoints route ++ [added]) route).
    assert (Hdoc : Route.validate doc = Route.waypoint_valid added).
    { unfold Route.validate. subst doc. route_simpl.
      rewrite Hst, forallb_app, Hw. cbn. apply andb_true_r. }
    split; intros Hadded.
    + rewrite Hadded in Hdoc.
      rewrite (run_bind_inr _ _ _ _ _ (Route_save_ok doc db Hdoc)).
      replace (Route._id doc) with id by (symmetry; exact Hid).
      split; [reflexivity|].
      intros Hnum. apply numbered_snoc; [exact Hnum | reflexivity].
    + rewrite Hadded in Hdoc.
      erewrite run_bind_inl; [reflexivity|].
      unfold Route_save. rewrite Hdoc. reflexivity.
Qed.

(** The admin adds a rest stop to the planned [route41]; the body asks for
    order 1 and status ['completed'] and gets order 6 and ['pending']. *)
Lemma addWaypoint_appends_numbered_pending_witness :
  routes db0 !! 41%N = Some route41
  /\ Route.validate route41 = true
  /\ (let body :=
        Route.mkWaypoint 406 (mkLocation (mkCoordinates 9 6) None) None 1
          "rest-stop" "completed" None None in
      exists route',
        routes (snd (run (RoutesController.addWaypoint admin 41 body) db0))
          !! 41%N = Some route'
        /\ Route.waypoints route'
           = waypoints40 ++ [waypointAt 406 6 "rest-stop" 9 6]
        /\ numbered (Route.waypoints route')).
Proof.
  split; [reflexivity|]. split; [reflexivity|]. cbv zeta.
  pose proof (addWaypoint_appends_numbered_pending admin 41
                (Route.mkWaypoint 406 (mkLocation (mkCoordinates 9 6) None)
                   None 1 "rest-stop" "completed" None None)
                db0 route41 eq_refl eq_refl eq_refl eq_refl) as H.
  cbv zeta in H. destruct H as (_ & H).
  destruct H as ((Hrun & Hnum) & _); [discriminate | reflexivity |].
  eexists. rewrite Hrun. cbn [snd routes set_routes].
  rewrite lookup_insert_eq. split; [reflexivity|].
  split; [reflexivity|]. apply Hnum. reflexivity.
Defined.

(** ** Optimising a stored route *)

(** X18.  [POST /api/routes/:id/optimize] on a stored route, for an admin,
    its creator or a fleet manager, and whatever the status of the route
    (the controller reads none).  With two waypoints or more the request
    ends in the error handler with a [TypeError] and nothing is written:
    [calculateRouteMetrics] reads the [location] of the spread copies,
    which have none.  With no waypoint at all, on a schema-valid route, it
    is answered with 200 and the route is stored with a distance, a
    duration and a fuel cost of zero.  Neither depends on the
    trigonometric functions or on what Mongoose makes of the copies. *)
Theorem optimizeRoute_throws_beyond_one_waypoint
    (Math_sin Math_cos : float -> float) (Math_atan2 : float -> float -> float)
    (castWaypoint : RoutesController.WaypointObject -> option Route.Waypoint)
    (user : User.t) (id : ObjectId) (db : Db) (route : Route.t) :
  routes db !! id = Some route ->
  Route._id route = id ->
  RoutesController.canOptimize user route = true ->
  let result :=
    run (RoutesController.optimizeRoute Math_sin Math_cos Math_atan2
           castWaypoint user id) db in
  ((2 <= length (Route.waypoints route))%nat ->
   result = (NextError "TypeError", db))
  /\ (Route.waypoints route = [] ->
      Route.validate route = true ->
      result
      = (Json 200 true "Route optimized successfully",
         set_routes
           (<[id := Route.set_optimization (Route.mkOptimization 0 0 0) route]>
              (routes db)) db)).
Proof.
  intros Hroute Hid Hcan result. subst result.
  unfold RoutesController.optimizeRoute.
  erewrite run_bind_inr by (unfold Route_findById; reflexivity).
  rewrite Hroute, Hcan. cbn [negb]. cbv zeta.
  split.
  - intros Hlen.
    rewrite (calculateRouteMetrics_optimized_throws _ _ _ _ Hlen).
    reflexivity.
  - intros Hw Hv. rewrite Hw.
    change (RoutesController.optimizeWaypoints []) with
      (@nil RoutesController.WaypointObject).
    change (RoutesController.calculateRouteMetrics Math_sin Math_cos
              Math_atan2 [])
      with (Some (Route.mkOptimization 0 0 0)).
    change (mapM castWaypoint []) with (Some (@nil Route.Waypoint)).
    cbv iota beta. rewrite <- Hw, set_waypoints_same.
    assert (Hdoc : Route.validate
                     (Route.set_optimization (Route.mkOptimization 0 0 0) route)
                   = true) by exact Hv.
    unfold run, mbind, handler_bind, Route_save, respond, mret, handler_ret.
    rewrite Hdoc. cbn [Route._id Route.set_optimization]. rewrite Hid.
    reflexivity.
Qed.

(** The admin asks for [route40], which has five waypoints, to be
    optimised. *)
Lemma optimizeRoute_throws_beyond_one_waypoint_witness :
  routes db0 !! 40%N = Some route40
  /\ RoutesController.canOptimize admin route40 = true
  /\ length (Route.waypoints route40) = 5%nat
  /\ run (RoutesController.optimizeRoute
            (fun x => x) (fun x => x) (fun x _ => x) (fun _ => None) admin 40)
         db0
     = (NextError "TypeError", db0).
Proof.
  split; [reflexivity|]. split; [reflexivity|]. split; [reflexivity|].
  pose proof (optimizeRoute_throws_beyond_one_waypoint
                (fun x => x) (fun x => x) (fun x _ => x) (fun _ => None)
                admin 40 db0 route40 eq_refl eq_refl eq_refl) as E.
  cbv zeta in E. destruct E as (E & _). apply E. cbn. lia.
Defined.

(** X19.  On the route [POST /api/routes/:id/optimize] the role check of
    the router decides alone.  A user who is neither admin nor fleet
    manager is turned away with 403 and nothing is written, even as the
    creator of the route, whom the controller would admit; and for the
    two roles that pass, the controller's own check always holds, so its
    answer "Not authorized to optimize this route" is never given. *)
Theorem optimizeRoute_router_check_decides
    (Math_sin Math_cos : float -> float) (Math_atan2 : float -> float -> float)
    (castWaypoint : RoutesController.WaypointObject -> option Route.Waypoint)
    (user : User.t) (id : ObjectId) (db : Db) :
  let result :=
    run (Router.optimizeRoute Math_sin Math_cos Math_atan2 castWaypoint user
           id) db in
  fst result <> Json 403 false "Not authorized to optimize this route"
  /\ if includes ["admin"; "fleet-manager"] (User.role user)
     then forall route,
            routes db !! id = Some route ->
            RoutesController.canOptimize user route = true
     else result
          = (Json 403 false
               (String.append "User role "
                  (String.append (User.role user)
                     " is not authorized to access this route")), db).
Proof.
  cbv zeta. unfold Router.optimizeRoute, authorize.
  assert (Hroles :
    includes ["admin"; "fleet-manager"] (User.role user)
    = String.eqb (User.role user) "admin"
      || String.eqb (User.role user) "fleet-manager")
    by (cbn; rewrite orb_false_r; reflexivity).
  assert (Hcan : forall route,
    includes ["admin"; "fleet-manager"] (User.role user) = true ->
    RoutesController.canOptimize user route = true).
  { intros route. rewrite Hroles. unfold RoutesController.canOptimize.
    destruct (String.eqb (User.role user) "admin"),
      (String.eqb (User.role user) "fleet-manager"),
      (N.eqb (Route.createdBy route) (User._id user)); auto. }
  destruct (includes ["admin"; "fleet-manager"] (User.role user)) eqn:Hinc;
    cbn [negb].
  - split; [|intros route _; apply Hcan; reflexivity].
    unfold RoutesController.optimizeRoute.
    erewrite run_bind_inr by (unfold Route_findById; reflexivity).
    destruct (routes db !! id) as [route|]; [|discriminate].
    rewrite (Hcan route eq_refl). cbn [negb]. cbv zeta.
    destruct (RoutesController.calculateRouteMetrics _ _ _ _); [|discriminate].
    destruct (mapM castWaypoint _); [|discriminate].
    unfold run, mbind, handler_bind, Route_save, respond, mret, handler_ret.
    destruct (Route.validate _); discriminate.
  - split; [discriminate | reflexivity].
Qed.

(** ** Marking a waypoint *)

Lemma updateById_none waypointId f waypoints :
  (forall w, In w waypoints -> Route.wp_id w <> waypointId) ->
  RouteModel.updateById waypointId f waypoints = waypoints.
Proof.
  induction waypoints as [|w l IH]; intros H; [reflexivity|].
  cbn [RouteModel.updateById].
  replace (N.eqb (Route.wp_id w) waypointId) with false
    by (symmetry; apply N.eqb_neq, H; left; reflexivity).
  rewrite IH; [reflexivity|]. intros w' Hw'. apply H. right. exact Hw'.
Qed.

Lemma updateById_first waypointId f before w after :
  Route.wp_id w = waypointId ->
  (forall w', In w' before -> Route.wp_id w' <> waypointId) ->
  RouteModel.updateById waypointId f (before ++ w :: after)
  = before ++ f w :: after.
Proof.
  intros Hw. induction before as [|b l IH]; intros H; cbn [app].
  - cbn [RouteModel.updateById]. rewrite Hw, N.eqb_refl. reflexivity.
  - cbn [RouteModel.updateById].
    replace (N.eqb (Route.wp_id b) waypointId) with false
      by (symmetry; apply N.eqb_neq, H; left; reflexivity).
    rewrite IH; [reflexivity|]. intros w' Hw'. apply H. right. exact Hw'.
Qed.

(** Of the validators of a waypoint, marking touches the one of [status]. *)
Lemma markWaypoint_valid status timestamp w :
  Route.waypoint_valid w = true ->
  Route.waypoint_valid (RouteModel.markWaypoint status timestamp w)
  = includes Route.waypoint_status_enum status.
Proof.
  unfold Route.waypoint_valid, RouteModel.markWaypoint.
  cbn [Route.type Route.wp_status Route.wp_location].
  intros H. repeat (apply andb_true_iff in H as [H ?]).
  repeat match goal with E : _ = true |- _ => rewrite E; clear E end.
  cbn [andb]. rewrite !andb_true_r. reflexivity.
Qed.

(** X20.  [PUT /api/routes/:id/waypoints/:waypointId] on a stored,
    schema-valid route by its driver or an admin.
    - A waypoint id the route does not have is answered with 200 and the
      database is left as it was, whatever status was sent.
    - Otherwise the first waypoint with that id, and no other, is marked:
      any status of the schema's enumeration is taken whatever status the
      waypoint had (no order of the statuses is enforced);
      ['arrived'] stamps [actualArrival] and ['completed'] stamps
      [actualDeparture] with the present instant.  A status outside the
      enumeration is rejected by validation and nothing is written.
    The status of the route itself is not read. *)
Theorem updateWaypointStatus_first_match_any_status
    (now : Date) (user : User.t) (id waypointId : ObjectId) (status : string)
    (db : Db) (route : Route.t) :
  routes db !! id = Some route ->
  Route._id route = id ->
  Route.validate route = true ->
  RoutesController.notDriverNorAdmin user route = false ->
  let result :=
    run (RoutesController.updateWaypointStatus now user id waypointId status)
        db in
  ((forall w, In w (Route.waypoints route) -> Route.wp_id w <> waypointId) ->
   result = (Json 200 true "Waypoint status updated successfully", db))
  /\ (forall before w after,
        Route.waypoints route = before ++ w :: after ->
        Route.wp_id w = waypointId ->
        (forall w', In w' before -> Route.wp_id w' <> waypointId) ->
        let marked :=
          Route.mkWaypoint (Route.wp_id w) (Route.wp_location w)
            (Route.wp_name w) (Route.order w) (Route.type w) status
            (if String.eqb status "arrived" then Some now
             else Route.actualArrival w)
            (if String.eqb status "arrived" then Route.actualDeparture w
             else if String.eqb status "completed" then Some now
             else Route.actualDeparture w) in
        (includes Route.waypoint_status_enum status = true ->
         result
         = (Json 200 true "Waypoint status updated successfully",
            set_routes
              (<[id := Route.set_waypoints (before ++ marked :: after) route]>
                 (routes db)) db))
        /\ (includes Route.waypoint_status_enum status = false ->
            result = (NextError "ValidationError", db))).
Proof.
  intros Hroute Hid Hv Hauth result. subst result.
  unfold RoutesController.updateWaypointStatus.
  erewrite run_bind_inr by (unfold Route_findById; reflexivity).
  rewrite Hroute, Hauth.
  unfold RouteModel.updateWaypointStatus. cbv zeta.
  split.
  - intros Hnone.
    rewrite (updateById_none _ _ _ Hnone), set_waypoints_same.
    rewrite (run_bind_inr _ _ _ _ _ (Route_save_ok route db Hv)), Hid.
    replace (set_routes _ db) with db
      by (symmetry; apply Route_save_same; exact Hroute).
    reflexivity.
  - intros before w after Hws Hw Hbefore.
    rewrite Hws, (updateById_first _ _ _ _ _ Hw Hbefore).
    fold (RouteModel.markWaypoint status now w).
    set (doc := Route.set_waypoints _ route).
    apply Route_validate_spec in Hv as (Hst & Hall).
    rewrite Hws, forallb_app in Hall. cbn [forallb] in Hall.
    apply andb_true_iff in Hall as (Hb & (Hwv & Ha)%andb_true_iff).
    assert (Hdoc : Route.validate doc
                   = includes Route.waypoint_status_enum status).
    { unfold Route.validate. subst doc. route_simpl.
      rewrite Hst, forallb_app, Hb. cbn [forallb andb].
      rewrite (markWaypoint_valid _ _ _ Hwv), Ha. apply andb_true_r. }
    split; intros Hen; rewrite Hen in Hdoc.
    + rewrite (run_bind_inr _ _ _ _ _ (Route_save_ok doc db Hdoc)).
      replace (Route._id doc) with id by (symmetry; exact Hid).
      reflexivity.
    + erewrite run_bind_inl; [reflexivity|].
      unfold Route_save. rewrite Hdoc. reflexivity.
Qed.

(** On [route40] the driver marks the second stop, 402, as completed; and
    a waypoint id the route does not have is answered with 200. *)
Lemma updateWaypointStatus_first_match_any_status_witness :
  routes db0 !! 40%N = Some route40
  /\ Route.validate route40 = true
  /\ RoutesController.notDriverNorAdmin driver route40 = false
  /\ run (RoutesController.updateWaypointStatus 1000 driver 40 999 "nonsense")
         db0
     = (Json 200 true "Waypoint status updated successfully", db0)
  /\ exists route' w,
       routes (snd (run (RoutesController.updateWaypointStatus 1000 driver 40
                           402 "completed") db0)) !! 40%N = Some route'
       /\ Route.waypoints route' !! 1%nat = Some w
       /\ Route.wp_status w = "completed"
       /\ Route.actualDeparture w = Some 1000
       /\ Route.actualArrival w = None.
Proof.
  split; [reflexivity|]. split; [reflexivity|]. split; [reflexivity|].
  split.
  - pose proof (updateWaypointStatus_first_match_any_status 1000 driver 40 999
                  "nonsense" db0 route40 eq_refl eq_refl eq_refl eq_refl) as H.
    cbv zeta in H. destruct H as (H & _). apply H.
    intros w Hw. cbn in Hw.
    repeat (destruct Hw as [<-|Hw]; [discriminate|]). contradiction.
  - pose proof (updateWaypointStatus_first_match_any_status 1000 driver 40 402
                  "completed" db0 route40 eq_refl eq_refl eq_refl eq_refl) as H.
    cbv zeta in H. destruct H as (_ & H).
    destruct (H [waypointAt 401 1 "delivery" 6.5 3.25]
                (waypointAt 402 2 "fuel-stop" 6.75 3.5)
                [waypointAt 403 3 "pickup" 7 4;
                 waypointAt 404 4 "delivery" 7.5 4.5;
                 waypointAt 405 5 "pickup" 8 5]
                eq_refl eq_refl) as (Hrun & _).
    { intros w' [<-|[]]. discriminate. }
    rewrite (Hrun eq_refl). cbn [snd routes set_routes].
    rewrite lookup_insert_eq. eexists _, _. split; [reflexivity|].
    split; [reflexivity|]. repeat split; reflexivity.
Defined.

(** ** A route from start to completion *)





(** ** Deleting a route or an inventory item *)

(** X22.  [DELETE /api/routes/:id] removes a stored route exactly when the
    caller is an admin or its creator and the route is ['draft'] or
    ['cancelled']; the assigned driver or a fleet manager who did not
    create it is turned away.  After the removal the route cannot be
    started or completed (404, nothing written).  In every other case the
    request is refused and nothing is written. *)
Theorem deleteRoute_only_draft_or_cancelled
    (user : User.t) (id : ObjectId) (db : Db) (route : Route.t) :
  routes db !! id = Some route ->
  Route._id route = id ->
  let result := run (RoutesController.deleteRoute user id) db in
  if (String.eqb (User.role user) "admin"
      || N.eqb (Route.createdBy route) (User._id user))
     && includes ["draft"; "cancelled"] (Route.status route)
  then fst result = Json 200 true "Route deleted successfully"
       /\ snd result = set_routes (delete id (routes db)) db
       /\ (forall now other,
             run (RoutesController.startRoute now other id) (snd result)
             = (Json 404 false "Route not found", snd result))
       /\ (forall now other notes issues,
             run (RoutesController.completeRoute now other id notes issues)
                 (snd result)
             = (Json 404 false "Route not found", snd result))
  else succeeded (fst result) = false /\ snd result = db.
Proof.
  intros Hroute Hid. cbv zeta.
  unfold RoutesController.deleteRoute.
  erewrite run_bind_inr by (unfold Route_findById; reflexivity).
  rewrite Hroute. cbv zeta.
  destruct (String.eqb (User.role user) "admin"
            || N.eqb (Route.createdBy route) (User._id user));
    cbn [negb andb]; [|auto].
  destruct (includes ["draft"; "cancelled"] (Route.status route));
    cbn [negb]; [|auto].
  match goal with |- context [run ?h db] =>
    replace (run h db)
      with (Json 200 true "Route deleted successfully",
            set_routes (delete id (routes db)) db)
      by (rewrite <- Hid; reflexivity)
  end.
  cbn [fst snd].
  split; [reflexivity|]. split; [reflexivity|].
  assert (Hgone : routes (set_routes (delete id (routes db)) db) !! id = None)
    by (cbn [routes set_routes]; apply lookup_delete_eq).
  split.
  - intros now other. unfold RoutesController.startRoute.
    erewrite run_bind_inr by (unfold Route_findById; reflexivity).
    rewrite Hgone. reflexivity.
  - intros now other notes issues. unfold RoutesController.completeRoute.
    erewrite run_bind_inr by (unfold Route_findById; reflexivity).
    rewrite Hgone. reflexivity.
Qed.

(** The admin, who created [route41], cannot delete it while it is
    planned, and can once it is a draft. *)
Lemma deleteRoute_only_draft_or_cancelled_witness :
  routes db0 !! 41%N = Some route41
  /\ run (RoutesController.deleteRoute admin 41) db0
     = (Json 400 false
          "Cannot delete route that is not in draft or cancelled status", db0)
  /\ (let draft := Route.set_status "draft" route41 in
      let db := set_routes (<[41%N := draft]> (routes db0)) db0 in
      fst (run (RoutesController.deleteRoute admin 41) db)
      = Json 200 true "Route deleted successfully"
      /\ routes (snd (run (RoutesController.deleteRoute admin 41) db)) !! 41%N
         = None).
Proof.
  split; [reflexivity|]. split; [reflexivity|]. cbv zeta.
  pose proof (deleteRoute_only_draft_or_cancelled admin 41
                (set_routes
                   (<[41%N := Route.set_status "draft" route41]> (routes db0))
                   db0)
                (Route.set_status "draft" route41) eq_refl eq_refl) as H.
  cbv zeta in H.
  change ((String.eqb (User.role admin) "admin"
           || N.eqb (Route.createdBy (Route.set_status "draft" route41))
                (User._id admin))
          && includes ["draft"; "cancelled"]
               (Route.status (Route.set_status "draft" route41)))
    with true in H.
  cbv iota in H. destruct H as (Hres & Hdb & _).
  split; [exact Hres|]. rewrite Hdb. reflexivity.
Defined.

(** Once an item is gone, the ledger endpoints answer 404 and write
    nothing. *)
Lemma ledger_handler_not_found `{JsRuntime} id req db :
  inventory db !! id = None ->
  run (ledger_handler id req) db
  = (Json 404 false "Inventory item not found", db).
Proof.
  intros Hnone. unfold ledger_handler.
  destruct (req_call req);
    [unfold InventoryController.addMovement
    |unfold InventoryController.reserveStock
    |unfold InventoryController.releaseReservedStock];
    (erewrite run_bind_inr by (unfold Inventory_findById; reflexivity));
    rewrite Hnone; reflexivity.
Qed.

(** X23.  [DELETE /api/inventory/:id] looks at the caller only: an admin
    or the owner removes a stored item whatever stock is on hand or
    reserved, anyone else is refused (403) and nothing is written.  After
    the removal every ledger request for the item (movement, reservation,
    release) is answered 404 and writes nothing, so what was reserved can
    no longer be released. *)
Theorem deleteInventoryItem_ignores_stock `{JsRuntime}
    (user : User.t) (id : ObjectId) (db : Db) (item : Inventory.t) :
  inventory db !! id = Some item ->
  Inventory._id item = id ->
  let result := run (InventoryController.deleteInventoryItem user id) db in
  if InventoryController.canAccess user item
  then fst result = Json 200 true "Inventory item deleted successfully"
       /\ snd result = set_inventory (delete id (inventory db)) db
       /\ forall reqs,
            ledger_trace id reqs (snd result)
            = (replicate (length reqs)
                 (Json 404 false "Inventory item not found"), snd result)
  else result
       = (Json 403 false "Not authorized to delete this inventory item", db).
Proof.
  intros Hitem Hid. cbv zeta.
  unfold InventoryController.deleteInventoryItem.
  erewrite run_bind_inr by (unfold Inventory_findById; reflexivity).
  rewrite Hitem.
  destruct (InventoryController.canAccess user item); cbn [negb];
    [|reflexivity].
  match goal with |- context [run ?h db] =>
    replace (run h db)
      with (Json 200 true "Inventory item deleted successfully",
            set_inventory (delete id (inventory db)) db)
      by (rewrite <- Hid; reflexivity)
  end.
  cbn [fst snd].
  split; [reflexivity|]. split; [reflexivity|].
  assert (Hgone :
    inventory (set_inventory (delete id (inventory db)) db) !! id = None)
    by (cbn [inventory set_inventory]; apply lookup_delete_eq).
  induction reqs as [|req reqs IH]; [reflexivity|].
  cbn [ledger_trace length replicate].
  rewrite (ledger_handler_not_found id req _ Hgone). cbn [fst snd].
  rewrite IH. reflexivity.
Qed.

(** The retailer deletes [item11] while three of its units are reserved;
    the release that follows finds nothing. *)
Lemma deleteInventoryItem_ignores_stock_witness :
  inventory db0 !! 11%N = Some item11
  /\ Inventory.reserved (Inventory.stock item11) = 3%float
  /\ (let result :=
        run (InventoryController.deleteInventoryItem retailer 11) db0 in
      fst result = Json 200 true "Inventory item deleted successfully"
      /\ inventory (snd result) !! 11%N = None
      /\ fst (ledger_trace (H := numerals) 11
                [mkRequest 1000 retailer
                   (ReleaseReservedStock (JsNumber 3) "order 5")]
                (snd result))
         = [Json 404 false "Inventory item not found"]).
Proof.
  split; [reflexivity|]. split; [reflexivity|].
  pose proof (deleteInventoryItem_ignores_stock (H := numerals) retailer 11
                db0 item11 eq_refl eq_refl) as H.
  cbv zeta in H.
  change (InventoryController.canAccess retailer item11) with true in H.
  cbv iota in H. destruct H as (Hres & Hdb & Hlater).
  cbv zeta. split; [exact Hres|].
  split; [rewrite Hdb; reflexivity|].
  rewrite Hlater. reflexivity.
Defined.

(** ** Completion is final *)

(** A completed route in the database after a successful completion. *)
Lemma completeRoute_stored now user id notes issues db route :
  routes db !! id = Some route ->
  Route._id route = id ->
  Route.validate route = true ->
  RoutesController.notDriverNorAdmin user route = false ->
  Route.status route = "in-progress" ->
  exists saved,
    routes (snd (run (RoutesController.completeRoute now user id notes issues)
                     db)) !! id = Some saved
    /\ Route.status saved = "completed".
Proof.
  intros Hroute Hid Hv Hauth Hst.
  unfold RoutesController.completeRoute.
  erewrite run_bind_inr by (unfold Route_findById; reflexivity).
  rewrite Hroute, Hauth, Hst. cbn [String.eqb Ascii.eqb Bool.eqb negb].
  destruct (completeRoute_model now notes issues route db Hv)
    as (saved & Hrun & Hs & _).
  rewrite Hid in Hrun. rewrite (run_bind_inr _ _ _ _ _ Hrun).
  assert (Hsaved : exists saved',
            <[id := saved]> (routes db) !! id = Some saved'
            /\ Route.status saved' = "completed")
    by (exists saved; rewrite lookup_insert_eq; auto).
  unfold run, mbind, handler_bind, Vehicle_findById, mret, handler_ret,
    respond.
  destruct (Route.assignedVehicle saved) as [vehicleId|];
    [cbn [vehicles set_routes];
     destruct (vehicles db !! vehicleId) as [vehicle|]|];
    [|cbn; auto..].
  unfold Vehicle_save.
  replace (Vehicle.validate _) with true by reflexivity.
  cbn. auto.
Qed.

(** X25.  Completion is final for the two lifecycle endpoints.  After a
    completion of a stored, schema-valid route that was answered with
    success, every later request to start or to complete that route, by
    any user at any time, is refused and writes nothing: the recorded end
    time, duration and delay stand, and the vehicle's trip count is not
    raised again. *)
Theorem completeRoute_is_final
    (now later : Date) (user other : User.t) (id : ObjectId)
    (notes notes' : option string) (issues issues' : list string) (db : Db)
    (route : Route.t) :
  routes db !! id = Some route ->
  Route._id route = id ->
  Route.validate route = true ->
  let finished :=
    run (RoutesController.completeRoute now user id notes issues) db in
  succeeded (fst finished) = true ->
  let again :=
    run (RoutesController.completeRoute later other id notes' issues')
        (snd finished) in
  let restart := run (RoutesController.startRoute later other id)
                     (snd finished) in
  succeeded (fst again) = false /\ snd again = snd finished
  /\ succeeded (fst restart) = false /\ snd restart = snd finished.
Proof.
  intros Hroute Hid Hv finished Hok again restart.
  assert (Hgate : RoutesController.notDriverNorAdmin user route = false
                  /\ Route.status route = "in-progress").
  { subst finished. revert Hok.
    unfold RoutesController.completeRoute.
    erewrite run_bind_inr by (unfold Route_findById; reflexivity).
    rewrite Hroute.
    destruct (RoutesController.notDriverNorAdmin user route);
      [discriminate|].
    destruct (String.eqb_spec (Route.status route) "in-progress") as [E|_];
      [auto | discriminate]. }
  destruct Hgate as (Hauth & Hst).
  destruct (completeRoute_stored now user id notes issues db route
              Hroute Hid Hv Hauth Hst) as (saved & Hsaved & Hs).
  fold finished in Hsaved.
  subst again restart.
  unfold RoutesController.completeRoute, RoutesController.startRoute.
  erewrite !run_bind_inr by (unfold Route_findById; reflexivity).
  rewrite Hsaved, Hs.
  destruct (RoutesController.notDriverNorAdmin other saved); cbn; auto.
Qed.

(** [route40] is completed by its driver at 12:30; the admin's attempt to
    complete it again an hour later is refused. *)
Lemma completeRoute_is_final_witness :
  routes db0 !! 40%N = Some route40
  /\ Route.validate route40 = true
  /\ (let finished :=
        run (RoutesController.completeRoute 45000000 driver 40 None []) db0 in
      succeeded (fst finished) = true
      /\ run (RoutesController.completeRoute 48600000 admin 40 None [])
             (snd finished)
         = (Json 400 false "Route must be in progress to complete",
            snd finished)).
Proof.
  split; [reflexivity|]. split; [reflexivity|]. cbv zeta.
  split; [reflexivity|].
  pose proof (completeRoute_is_final 45000000 48600000 driver admin 40 None
                None [] [] db0 route40 eq_refl eq_refl eq_refl) as H.
  cbv zeta in H. destruct (H eq_refl) as (_ & Hdb & _).
  rewrite <- Hdb at 2. reflexivity.
Defined.

(** ** Metrics of a short route *)

(** X26.  With fewer than two waypoints there is no leg to measure: the
    metrics that [optimizeRoute] computes from the optimised waypoints are
    a distance, a duration and a fuel cost of zero, whatever the
    trigonometric functions are. *)
Theorem calculateRouteMetrics_short_route
    (Math_sin Math_cos : float -> float) (Math_atan2 : float -> float -> float)
    (waypoints : list Route.Waypoint) :
  (length waypoints <= 1)%nat ->
  RoutesController.calculateRouteMetrics Math_sin Math_cos Math_atan2
    (RoutesController.optimizeWaypoints waypoints)
  = Some (Route.mkOptimization 0 0 0).
Proof.
  intros Hlen. rewrite <- optimizeWaypoints_length in Hlen.
  destruct (RoutesController.optimizeWaypoints waypoints) as [|w [|w' l]];
    [reflexivity | reflexivity | cbn [length] in Hlen; lia].
Qed.

Lemma calculateRouteMetrics_short_route_witness :
  (length [waypointAt 401 7 "delivery" 6.5 3.25] <= 1)%nat
  /\ RoutesController.calculateRouteMetrics
       (fun x => x) (fun x => x) (fun x _ => x)
       (RoutesController.optimizeWaypoints
          [waypointAt 401 7 "delivery" 6.5 3.25])
     = Some (Route.mkOptimization 0 0 0).
Proof.
  split; [cbn; lia|].
  apply (calculateRouteMetrics_short_route
           (fun x => x) (fun x => x) (fun x _ => x)
           [waypointAt 401 7 "delivery" 6.5 3.25]).
  cbn; lia.
Defined.

(** ** The stock status, computed and stored *)

(** X27.  On a document that [save()] has just written, the virtual
    [stockStatus] and the stored [status] agree on the two shortage
    statuses: the one is ['out-of-stock'] exactly when the other is, and
    likewise for ['low-stock'].  (Above the reorder point they speak
    different languages: the virtual says ['in-stock'] or ['overstock'],
    the stored status ['active'] or what was set by hand.)  The stock on
    hand and the reserved stock are taken not to be both infinite: their
    difference is then NaN, which the virtual computes with while the
    stored [stock.available] keeps its old value. *)
Theorem stockStatus_agrees_with_saved_status
    (now : Date) (this saved : InventoryDoc.t) :
  is_nan (Inventory.current (Inventory.stock (InventoryDoc.item this))
          - Inventory.reserved (Inventory.stock (InventoryDoc.item this)))
    = false ->
  InventoryDoc.save now this = inr saved ->
  (InventoryDoc.stockStatus saved = "out-of-stock"
   <-> Inventory.status (InventoryDoc.item saved) = "out-of-stock")
  /\ (InventoryDoc.stockStatus saved = "low-stock"
      <-> Inventory.status (InventoryDoc.item saved) = "low-stock").
Proof.
  intros Hn. unfold InventoryDoc.save.
  destruct (InventoryDoc.validate this); [|discriminate].
  intros [= <-].
  unfold InventoryDoc.stockStatus, Inventory.stockAvailable,
    Inventory.pre_save.
  cbn zeta.
  cbn [InventoryDoc.item InventoryDoc.set_item InventoryDoc.maximum].
  inv_simpl.
  rewrite (assign_number _ _ (eq_trans (Math_max_0_nan _) Hn)).
  set (a := Math_max 0
              (Inventory.current (Inventory.stock (InventoryDoc.item this))
               - Inventory.reserved
                   (Inventory.stock (InventoryDoc.item this)))).
  destruct (a <=? 0)%float eqn:E0; inv_simpl; fold a; rewrite ?E0;
    [split; reflexivity|].
  destruct (a <=? Inventory.reorderPoint
                    (Inventory.stock (InventoryDoc.item this)))%float eqn:E1;
    inv_simpl; fold a; rewrite ?E0, ?E1; [split; reflexivity|].
  destruct (String.eqb_spec (Inventory.status (InventoryDoc.item this))
              "out-of-stock") as [S1|N1];
    destruct (String.eqb_spec (Inventory.status (InventoryDoc.item this))
                "low-stock") as [S2|N2];
    cbn [orb]; inv_simpl; fold a; rewrite ?E0, ?E1;
    match goal with
    | |- context [if ?b then "overstock" else "in-stock"] => destruct b
    end;
    split; split; intros H; try discriminate H; try contradiction.
Qed.

(** [doc11], with two units available and a reorder point of two, is
    low on stock on both counts once saved. *)
Lemma stockStatus_agrees_with_saved_status_witness :
  exists saved,
    InventoryDoc.save 43200000 doc11 = inr saved
    /\ InventoryDoc.stockStatus saved = "low-stock"
    /\ Inventory.status (InventoryDoc.item saved) = "low-stock".
Proof.
  eexists. split; [reflexivity|].
  split; [|reflexivity].
  apply (stockStatus_agrees_with_saved_status 43200000 doc11 _ eq_refl
           eq_refl).
  reflexivity.
Defined.
